(** * dbpp: a shallow embedding of the two database backends

    The development follows the layout of [include/dbpp]:
    - [Cxx]     : the fixed-width integers and C strings the headers use;
    - [Error]   : [error.hpp];
    - [Sqlite]  : the part of the SQLite3 C API the wrappers call, as a
                  transition system over native handles;
    - [Sqlite3Query], [Sqlite3ResultSet], [Sqlite3Statement], [Sqlite3Db];
    - [Mysql]   : the part of the MariaDB/MySQL C API the wrappers call;
    - [MariaQuery], [MariaResultSet], [MariaStatement], [MariaDb];
    - [Spec]    : the vocabulary the statements are written in;
    - [Examples]: concrete engines and objects.

    A pointer is an [option]: [None] is [nullptr].  A native handle is a
    key into the engine's table of live objects, so that two C++ objects
    can hold the same handle and a released handle can be told from a
    live one.  A member function becomes a function from the object (and
    the engine state, when it calls the engine) to the updated object,
    the updated engine state and the returned value.  An [Error*] output
    parameter is an [option Error.t] that is threaded through. *)

From stdpp Require Import gmap strings list.
From Stdlib Require Import ZArith Lia Ascii.

Local Open Scope Z_scope.

(* ===================================================================== *)
(** ** C and C++ basics *)
(* ===================================================================== *)

Module Cxx.

(** [static_cast<int32_t>]: two's complement wrap-around. *)
Definition to_int32 (z : Z) : Z := (z + 2 ^ 31) mod 2 ^ 32 - 2 ^ 31.

(** [static_cast<uint32_t>] and [static_cast<uint64_t>]. *)
Definition to_uint32 (z : Z) : Z := z mod 2 ^ 32.
Definition to_uint64 (z : Z) : Z := z mod 2 ^ 64.

(** [const char*]: [None] is the null pointer, [Some s] points to the
    characters of [s] followed by a NUL. *)
Definition cstr : Type := option string.

(** A [double] is carried as its IEEE-754 binary64 bit pattern; the
    wrappers only store and return doubles, they never compute on them. *)
Definition double : Type := Z.

(** The NUL character. *)
Definition NUL : ascii := Ascii.zero.

(** The characters of a buffer up to (not including) the first NUL: the
    C string a [char] array holds. *)
Fixpoint c_str (buf : list ascii) : list ascii :=
  match buf with
  | [] => []
  | c :: rest => if Ascii.eqb c NUL then [] else c :: c_str rest
  end.

(** [std::strncpy(dest, src, n)]: the first [n] bytes of [dest] become the
    characters of [src] (at most [n] of them), padded with NULs; the rest
    of [dest] is untouched. *)
Definition strncpy (dest : list ascii) (src : string) (n : nat) : list ascii :=
  let body := take n (c_str (String.list_ascii_of_string src)) in
  body ++ replicate (n - length body) NUL ++ drop n dest.

(** [std::vsnprintf(dest, size, fmt, ap)], given the text [expansion] that
    the format and its arguments expand to: at most [size - 1] characters
    are stored, followed by a NUL. *)
Definition vsnprintf (dest : list ascii) (size : nat) (expansion : list ascii)
  : list ascii :=
  match size with
  | O => dest
  | S m =>
      let body := take m expansion in
      body ++ NUL :: drop (S (length body)) dest
  end.

(** [std::snprintf(buf, size, "%s...%s", ...)] into a fresh local buffer,
    read back as a C string: the expansion cut to [size - 1] characters. *)
Definition snprintf_str (size : nat) (expansion : string) : string :=
  String.substring 0 (size - 1) expansion.

(** [std::strcmp(a, b) == 0]. *)
Definition strcmp_eq (a b : string) : bool := String.eqb a b.

(** [static_cast<int64_t>] and [static_cast<uint16_t>]. *)
Definition to_int64 (z : Z) : Z := (z + 2 ^ 63) mod 2 ^ 64 - 2 ^ 63.
Definition to_uint16 (z : Z) : Z := z mod 2 ^ 16.

End Cxx.

(* ===================================================================== *)
(** ** error.hpp *)
(* ===================================================================== *)

Module Error.
Import Cxx.

Inductive ErrorCode : Set :=
  | kOk | kError | kNotOpen | kBusy | kNotFound | kConstraint
  | kMismatch | kMisuse | kRange | kNullParam | kIoError | kFull.


#[global] Instance ErrorCode_eq_dec : EqDecision ErrorCode.
Proof. solve_decision. Defined.

Definition kMaxMessageLen : nat := 256.

(** [struct Error]: [message] is the [char message[256]] array, one list
    element per byte. *)
Record t : Type := mk {
  code : ErrorCode;
  message : list ascii
}.

(** [Error{}]: [code = kOk], [message = {}]. *)
Definition default : t :=
  {| code := kOk; message := replicate kMaxMessageLen NUL |}.

Definition ok (e : t) : bool := bool_decide (code e = kOk).

(** [void Set(ErrorCode c, const char* msg)].  (The name [Set] is a
    keyword, hence [Set_].) *)
Definition Set_ (e : t) (c : ErrorCode) (msg : cstr) : t :=
  match msg with
  | Some m =>
      let buf := strncpy (message e) m (kMaxMessageLen - 1) in
      {| code := c; message := <[(kMaxMessageLen - 1)%nat := NUL]> buf |}
  | None =>
      {| code := c; message := <[0%nat := NUL]> (message e) |}
  end.

(** [void SetFormat(ErrorCode c, const char* fmt, ...)].  [vformat] is
    the C library's expansion of a format string over its arguments. *)
Definition SetFormat {Args : Type} (vformat : string -> Args -> list ascii)
    (e : t) (c : ErrorCode) (fmt : cstr) (ap : Args) : t :=
  match fmt with
  | Some f =>
      {| code := c;
         message := vsnprintf (message e) kMaxMessageLen (vformat f ap) |}
  | None =>
      {| code := c; message := <[0%nat := NUL]> (message e) |}
  end.

Definition Clear (e : t) : t :=
  {| code := kOk; message := <[0%nat := NUL]> (message e) |}.

Definition Ok : t := default.

(** [static Error Make(ErrorCode c, const char* msg = nullptr)]. *)
Definition Make (c : ErrorCode) (msg : cstr) : t := Set_ default c msg.

(** The message as the C string a reader of [err.message] sees. *)
Definition text (e : t) : list ascii := c_str (message e).

(** Writing through an optional [Error* out_error]. *)
Definition set_out (out_error : option t) (c : ErrorCode) (msg : cstr)
  : option t :=
  match out_error with
  | Some e => Some (Set_ e c msg)
  | None => None
  end.

End Error.

(* ===================================================================== *)
(** ** The SQLite3 C API, as far as the wrappers call it

    The engine is an external collaborator.  Its state is a table of open
    connections and a table of live prepared statements, keyed by handle.
    What a statement computes is not modelled: a compiled program carries
    the sequence of outcomes its run produces (rows, possibly ended by a
    failure), and a connection carries, for every SQL text, the program
    the engine compiles it to.  The calls follow the documented contract
    of [sqlite3.h]. *)
(* ===================================================================== *)

Module Sqlite.
Import Cxx.

Definition SQLITE_OK : Z := 0.
Definition SQLITE_ERROR : Z := 1.
Definition SQLITE_BUSY : Z := 5.
Definition SQLITE_MISUSE : Z := 21.
Definition SQLITE_RANGE : Z := 25.
Definition SQLITE_ROW : Z := 100.
Definition SQLITE_DONE : Z := 101.

Definition SQLITE_INTEGER : Z := 1.
Definition SQLITE_FLOAT : Z := 2.
Definition SQLITE_TEXT : Z := 3.
Definition SQLITE_BLOB : Z := 4.
Definition SQLITE_NULL : Z := 5.

(** One column of the current row, as the [sqlite3_column_*] accessors
    report it (the engine does the type coercions). *)
Record Cell : Type := mkCell {
  col_type : Z;
  col_int : Z;
  col_int64 : Z;
  col_double : double;
  col_text : cstr
}.

(** A value bound to a parameter. *)
Inductive Value : Type :=
  | VNull
  | VInt (z : Z)
  | VInt64 (z : Z)
  | VDouble (d : double)
  | VText (s : string)
  | VBlob (bytes : list Z).

(** The failures [sqlite3_step] reports. *)
Inductive Failure : Set :=
  | FError | FBusy | FLocked | FNoMem | FInterrupt | FIoErr | FCorrupt
  | FFull | FConstraint | FMismatch.

Definition failure_code (f : Failure) : Z :=
  match f with
  | FError => 1 | FBusy => 5 | FLocked => 6 | FNoMem => 7 | FInterrupt => 9
  | FIoErr => 10 | FCorrupt => 11 | FFull => 13 | FConstraint => 19
  | FMismatch => 20
  end.

(** One outcome of [sqlite3_step] before the run completes. *)
Inductive StepEvent : Type :=
  | Row (cells : list Cell)
  | Fail (f : Failure) (errmsg : string).

(** A compiled statement: its parameter count, its column names, the
    outcomes of one run from the start, and the row-change count a
    completed run of a DML statement leaves on the connection. *)
Record Program : Type := mkProgram {
  prog_nvar : Z;
  prog_columns : list cstr;
  prog_run : list StepEvent;
  prog_changes : option Z
}.

Inductive RunState : Set := Ready | Running | Halted.

#[global] Instance RunState_eq_dec : EqDecision RunState.
Proof. solve_decision. Defined.

(** A live [sqlite3_stmt]. *)
Record Stmt : Type := mkStmt {
  stmt_conn : nat;
  stmt_prog : Program;
  stmt_vars : list Value;          (* the bindings, one per parameter *)
  stmt_state : RunState;
  stmt_todo : list StepEvent;      (* what is left of the current run *)
  stmt_row : option (list Cell);   (* the current row *)
  stmt_rc : Z                      (* the result of the last failed step *)
}.

Inductive Compiled : Type :=
  | Prepared (p : Program)
  | Rejected (errmsg : string).

(** An open [sqlite3] connection.  [conn_prepare] compiles the first
    statement of a text; [conn_statements] gives the statements a text is
    made of, in order (the pieces between its semicolons, blank pieces
    left out). *)
Record Conn : Type := mkConn {
  conn_errmsg : string;
  conn_changes : Z;
  conn_prepare : string -> Compiled;
  conn_statements : string -> list string
}.

Record World : Type := mkWorld {
  conns : gmap nat Conn;
  stmts : gmap nat Stmt;
  next_handle : nat
}.

Definition put_stmt (w : World) (h : nat) (s : Stmt) : World :=
  {| conns := conns w; stmts := <[h := s]> (stmts w);
     next_handle := next_handle w |}.

Definition put_conn (w : World) (d : nat) (c : Conn) : World :=
  {| conns := <[d := c]> (conns w); stmts := stmts w;
     next_handle := next_handle w |}.

Definition set_errmsg (w : World) (d : nat) (msg : string) : World :=
  match conns w !! d with
  | Some c =>
      put_conn w d {| conn_errmsg := msg; conn_changes := conn_changes c;
                      conn_prepare := conn_prepare c;
                      conn_statements := conn_statements c |}
  | None => w
  end.

Definition set_changes (w : World) (d : nat) (n : option Z) : World :=
  match conns w !! d, n with
  | Some c, Some k =>
      put_conn w d {| conn_errmsg := conn_errmsg c; conn_changes := k;
                      conn_prepare := conn_prepare c;
                      conn_statements := conn_statements c |}
  | _, _ => w
  end.

(** [sqlite3_prepare_v2(db, sql, -1, &stmt, &tail)]: the result code and
    the new statement handle. *)
Definition sqlite3_prepare_v2 (w : World) (d : nat) (sql : cstr)
  : Z * option nat * World :=
  match conns w !! d, sql with
  | Some c, Some text =>
      match conn_prepare c text with
      | Prepared p =>
          let h := next_handle w in
          let s := {| stmt_conn := d; stmt_prog := p;
                      stmt_vars := replicate (Z.to_nat (prog_nvar p)) VNull;
                      stmt_state := Ready; stmt_todo := prog_run p;
                      stmt_row := None; stmt_rc := SQLITE_OK |} in
          (SQLITE_OK, Some h,
           {| conns := conns w; stmts := <[h := s]> (stmts w);
              next_handle := S h |})
      | Rejected msg => (SQLITE_ERROR, None, set_errmsg w d msg)
      end
  | _, _ => (SQLITE_MISUSE, None, w)
  end.

(** [sqlite3_step(stmt)].  A statement that has run to completion (or
    failed) starts over when it is stepped again without a reset. *)
Definition sqlite3_step (w : World) (h : nat) : Z * World :=
  match stmts w !! h with
  | None => (SQLITE_MISUSE, w)
  | Some s =>
      let todo := match stmt_state s with
                  | Halted => prog_run (stmt_prog s)
                  | _ => stmt_todo s
                  end in
      match todo with
      | Row cells :: rest =>
          (SQLITE_ROW,
           put_stmt w h {| stmt_conn := stmt_conn s; stmt_prog := stmt_prog s;
                           stmt_vars := stmt_vars s; stmt_state := Running;
                           stmt_todo := rest; stmt_row := Some cells;
                           stmt_rc := SQLITE_OK |})
      | Fail f msg :: _ =>
          (failure_code f,
           set_errmsg
             (put_stmt w h {| stmt_conn := stmt_conn s;
                              stmt_prog := stmt_prog s;
                              stmt_vars := stmt_vars s; stmt_state := Halted;
                              stmt_todo := []; stmt_row := None;
                              stmt_rc := failure_code f |})
             (stmt_conn s) msg)
      | [] =>
          (SQLITE_DONE,
           set_changes
             (put_stmt w h {| stmt_conn := stmt_conn s;
                              stmt_prog := stmt_prog s;
                              stmt_vars := stmt_vars s; stmt_state := Halted;
                              stmt_todo := []; stmt_row := None;
                              stmt_rc := SQLITE_OK |})
             (stmt_conn s) (prog_changes (stmt_prog s)))
      end
  end.

(** [sqlite3_reset(stmt)]: back to the start of the program; the bindings
    are kept.  The result is that of the last step if it failed. *)
Definition sqlite3_reset (w : World) (h : nat) : Z * World :=
  match stmts w !! h with
  | None => (SQLITE_MISUSE, w)
  | Some s =>
      (stmt_rc s,
       put_stmt w h {| stmt_conn := stmt_conn s; stmt_prog := stmt_prog s;
                       stmt_vars := stmt_vars s; stmt_state := Ready;
                       stmt_todo := prog_run (stmt_prog s);
                       stmt_row := None; stmt_rc := SQLITE_OK |})
  end.

(** [sqlite3_finalize(stmt)]: the handle is released. *)
Definition sqlite3_finalize (w : World) (h : nat) : World :=
  {| conns := conns w; stmts := delete h (stmts w);
     next_handle := next_handle w |}.

(** Whether a prepared statement of the connection [d] is still live. *)
Definition has_statements (w : World) (d : nat) : bool :=
  bool_decide (Exists (fun s => stmt_conn s = d) (map_to_list (stmts w)).*2).

(** [sqlite3_close(db)]: while a prepared statement of the connection
    has not been finalized the call is refused with [SQLITE_BUSY] and the
    connection stays open; otherwise the connection is released. *)
Definition sqlite3_close (w : World) (d : nat) : Z * World :=
  if has_statements w d then (SQLITE_BUSY, w)
  else
    (SQLITE_OK,
     {| conns := delete d (conns w); stmts := stmts w;
        next_handle := next_handle w |}).

(** [sqlite3_bind_*(stmt, i, v)], [i] counted from 1: refused with
    [SQLITE_MISUSE] unless the statement is ready, with [SQLITE_RANGE]
    when [i] is not the number of a parameter. *)
Definition sqlite3_bind (w : World) (h : nat) (i : Z) (v : Value)
  : Z * World :=
  match stmts w !! h with
  | None => (SQLITE_MISUSE, w)
  | Some s =>
      if negb (bool_decide (stmt_state s = Ready)) then (SQLITE_MISUSE, w)
      else if (i <? 1) || (prog_nvar (stmt_prog s) <? i) then (SQLITE_RANGE, w)
      else
        (SQLITE_OK,
         put_stmt w h {| stmt_conn := stmt_conn s; stmt_prog := stmt_prog s;
                         stmt_vars := <[Z.to_nat (i - 1) := v]> (stmt_vars s);
                         stmt_state := stmt_state s;
                         stmt_todo := stmt_todo s; stmt_row := stmt_row s;
                         stmt_rc := stmt_rc s |})
  end.

Definition sqlite3_bind_int (w : World) (h : nat) (i v : Z) :=
  sqlite3_bind w h i (VInt v).
Definition sqlite3_bind_int64 (w : World) (h : nat) (i v : Z) :=
  sqlite3_bind w h i (VInt64 v).
Definition sqlite3_bind_double (w : World) (h : nat) (i : Z) (v : double) :=
  sqlite3_bind w h i (VDouble v).
Definition sqlite3_bind_null (w : World) (h : nat) (i : Z) :=
  sqlite3_bind w h i VNull.
(** A null text or blob pointer binds NULL. *)
Definition sqlite3_bind_text (w : World) (h : nat) (i : Z) (v : cstr) :=
  sqlite3_bind w h i (match v with Some s => VText s | None => VNull end).
Definition sqlite3_bind_blob (w : World) (h : nat) (i : Z)
    (blob : option (list Z)) (len : Z) :=
  sqlite3_bind w h i
    (match blob with
     | Some bytes => VBlob (take (Z.to_nat len) bytes)
     | None => VNull
     end).

Definition sqlite3_column_count (w : World) (h : nat) : Z :=
  match stmts w !! h with
  | Some s => Z.of_nat (length (prog_columns (stmt_prog s)))
  | None => 0
  end.

Definition sqlite3_column_name (w : World) (h : nat) (i : Z) : cstr :=
  match stmts w !! h with
  | Some s =>
      if (i <? 0) then None
      else mjoin (prog_columns (stmt_prog s) !! Z.to_nat i)
  | None => None
  end.

(** The cell of the current row in column [i], if there is one. *)
Definition cell (w : World) (h : nat) (i : Z) : option Cell :=
  match stmts w !! h with
  | Some s =>
      match stmt_row s with
      | Some cells => if (i <? 0) then None else cells !! Z.to_nat i
      | None => None
      end
  | None => None
  end.

Definition sqlite3_column_type (w : World) (h : nat) (i : Z) : Z :=
  from_option col_type SQLITE_NULL (cell w h i).
Definition sqlite3_column_int (w : World) (h : nat) (i : Z) : Z :=
  from_option col_int 0 (cell w h i).
Definition sqlite3_column_int64 (w : World) (h : nat) (i : Z) : Z :=
  from_option col_int64 0 (cell w h i).
Definition sqlite3_column_double (w : World) (h : nat) (i : Z) : double :=
  from_option col_double 0 (cell w h i).
Definition sqlite3_column_text (w : World) (h : nat) (i : Z) : cstr :=
  from_option col_text None (cell w h i).

Definition sqlite3_changes (w : World) (d : nat) : Z :=
  from_option conn_changes 0 (conns w !! d).

Definition sqlite3_errmsg (w : World) (d : nat) : cstr :=
  Some (from_option conn_errmsg EmptyString (conns w !! d)).

(** The rows a run yields before it ends, and the failure that ends it
    ([None] when the run completes). *)
Fixpoint run_rows (run : list StepEvent)
  : list (list Cell) * option (Failure * string) :=
  match run with
  | [] => ([], None)
  | Row cells :: rest =>
      let '(rows, failure) := run_rows rest in (cells :: rows, failure)
  | Fail f msg :: _ => ([], Some (f, msg))
  end.

(** The loop of [sqlite3_exec] over the statements of its text: each
    one is prepared, stepped to its end and finalized; the first one that
    is rejected or fails ends the call, and the statements after it are
    not run. *)
Fixpoint exec_statements (c : Conn) (w : World) (d : nat)
    (statements : list string) : Z * cstr * World :=
  match statements with
  | [] => (SQLITE_OK, None, w)
  | text :: rest =>
      match conn_prepare c text with
      | Prepared p =>
          match (run_rows (prog_run p)).2 with
          | None => exec_statements c (set_changes w d (prog_changes p)) d rest
          | Some (f, msg) => (failure_code f, Some msg, set_errmsg w d msg)
          end
      | Rejected msg => (SQLITE_ERROR, Some msg, set_errmsg w d msg)
      end
  end.

(** [sqlite3_exec(db, sql, nullptr, nullptr, &errmsg)]: every statement
    of the text is run, in order.  The result code, the message handed
    out through [errmsg] (null on success) and the engine state. *)
Definition sqlite3_exec (w : World) (d : nat) (sql : cstr)
  : Z * cstr * World :=
  match conns w !! d with
  | None => (SQLITE_MISUSE, None, w)
  | Some c =>
      match sql with
      | None => (SQLITE_OK, None, w)
      | Some text => exec_statements c w d (conn_statements c text)
      end
  end.

(** The texts of one row as [sqlite3_get_table] copies them: one entry
    per column of the statement. *)
Definition row_texts (ncol : nat) (cells : list Cell) : list cstr :=
  (fun i => from_option col_text None (cells !! i)) <$> seq 0 ncol.

(** [sqlite3_get_table(db, sql, &results, &rows, &cols, &errmsg)]: the
    result code, the table (the column names, then the texts row by row;
    a result without rows has no column either), the two counts, the
    message and the engine state. *)
Definition sqlite3_get_table (w : World) (d : nat) (sql : cstr)
  : Z * option (list cstr) * Z * Z * cstr * World :=
  match conns w !! d with
  | None => (SQLITE_MISUSE, None, 0, 0, None, w)
  | Some c =>
      match sql with
      | None => (SQLITE_OK, Some [], 0, 0, None, w)
      | Some text =>
          match conn_prepare c text with
          | Prepared p =>
              match run_rows (prog_run p) with
              | (rows, None) =>
                  let names := match rows with
                               | [] => []
                               | _ :: _ => prog_columns p
                               end in
                  (SQLITE_OK,
                   Some (names ++ concat (row_texts (length names) <$> rows)),
                   Z.of_nat (length rows), Z.of_nat (length names), None,
                   set_changes w d (prog_changes p))
              | (_, Some (f, msg)) =>
                  (failure_code f, None, 0, 0, Some msg, set_errmsg w d msg)
              end
          | Rejected msg =>
              (SQLITE_ERROR, None, 0, 0, Some msg, set_errmsg w d msg)
          end
      end
  end.

(** [sqlite3_open(path, &db)].  What opening [path] gives is the
    engine's: [files path] is the result code and the connection the
    engine allocates (it allocates one also for most failures). *)
Definition sqlite3_open (files : string -> Z * option Conn) (w : World)
    (path : string) : Z * option nat * World :=
  match files path with
  | (rc, Some c) =>
      (rc, Some (next_handle w),
       {| conns := <[next_handle w := c]> (conns w); stmts := stmts w;
          next_handle := S (next_handle w) |})
  | (rc, None) => (rc, None, w)
  end.

End Sqlite.

(* ===================================================================== *)
(** ** sqlite3_query.hpp *)
(* ===================================================================== *)

Module Sqlite3Query.
Import Cxx Sqlite.

Record t : Type := mk {
  db_ : option nat;
  stmt_ : option nat;
  eof_ : bool;
  num_fields_ : Z
}.

(** [Sqlite3Query() = default]. *)
Definition default : t :=
  {| db_ := None; stmt_ := None; eof_ := true; num_fields_ := 0 |}.

(** The private constructor [Sqlite3Query(db, stmt, eof)]. *)
Definition ctor (w : World) (db stmt : option nat) (eof : bool) : t :=
  {| db_ := db; stmt_ := stmt; eof_ := eof;
     num_fields_ := match stmt with
                    | Some h => sqlite3_column_count w h
                    | None => 0
                    end |}.

(** [Sqlite3Query(Sqlite3Query&& other)]: the new object and what is left
    of [other]. *)
Definition move_ctor (other : t) : t * t :=
  ({| db_ := db_ other; stmt_ := stmt_ other; eof_ := eof_ other;
      num_fields_ := num_fields_ other |},
   {| db_ := None; stmt_ := None; eof_ := true; num_fields_ := 0 |}).

Definition Finalize (this : t) (w : World) : t * World :=
  let w1 := match stmt_ this with
            | Some h => sqlite3_finalize w h
            | None => w
            end in
  ({| db_ := db_ this; stmt_ := None; eof_ := true; num_fields_ := 0 |}, w1).

(** [operator=(Sqlite3Query&& other)] for [this != &other]: the assigned
    object, what is left of [other], and the engine state. *)
Definition move_assign (this other : t) (w : World) : t * t * World :=
  let '(_, w1) := Finalize this w in
  ({| db_ := db_ other; stmt_ := stmt_ other; eof_ := eof_ other;
      num_fields_ := num_fields_ other |},
   {| db_ := None; stmt_ := None; eof_ := true; num_fields_ := 0 |},
   w1).

Definition NumFields (this : t) : Z := num_fields_ this.

(** The loop of [FieldIndex]: columns [i], [i+1], ... for [n] rounds. *)
Fixpoint FieldIndex_from (w : World) (h : nat) (name : string) (i : Z)
    (n : nat) : Z :=
  match n with
  | O => -1
  | S n' =>
      match sqlite3_column_name w h i with
      | Some col_name =>
          if strcmp_eq name col_name then i
          else FieldIndex_from w h name (i + 1) n'
      | None => FieldIndex_from w h name (i + 1) n'
      end
  end.

Definition FieldIndex (this : t) (w : World) (name : cstr) : Z :=
  match stmt_ this, name with
  | Some h, Some nm =>
      FieldIndex_from w h nm 0 (Z.to_nat (num_fields_ this))
  | _, _ => -1
  end.

Definition FieldName (this : t) (w : World) (col : Z) : cstr :=
  match stmt_ this with
  | Some h =>
      if (col <? 0) || (num_fields_ this <=? col) then None
      else sqlite3_column_name w h col
  | None => None
  end.

Definition FieldValue (this : t) (w : World) (col : Z) : cstr :=
  match stmt_ this with
  | Some h =>
      if (col <? 0) || (num_fields_ this <=? col) then None
      else sqlite3_column_text w h col
  | None => None
  end.

Definition FieldValue_name (this : t) (w : World) (name : cstr) : cstr :=
  let idx := FieldIndex this w name in
  if 0 <=? idx then FieldValue this w idx else None.

Definition FieldIsNull (this : t) (w : World) (col : Z) : bool :=
  match stmt_ this with
  | Some h =>
      if (col <? 0) || (num_fields_ this <=? col) then true
      else sqlite3_column_type w h col =? SQLITE_NULL
  | None => true
  end.

(** The native read of a getter that found the field non-null; [stmt_]
    is not null there. *)
Definition native {A : Type} (this : t) (read : nat -> A) (dflt : A) : A :=
  match stmt_ this with
  | Some h => read h
  | None => dflt
  end.

Definition GetInt (this : t) (w : World) (col : Z) (null_value : Z) : Z :=
  if FieldIsNull this w col then null_value
  else native this (fun h => sqlite3_column_int w h col) null_value.

Definition GetInt_name (this : t) (w : World) (name : cstr) (null_value : Z)
  : Z :=
  let idx := FieldIndex this w name in
  if 0 <=? idx then GetInt this w idx null_value else null_value.

Definition GetInt64 (this : t) (w : World) (col : Z) (null_value : Z) : Z :=
  if FieldIsNull this w col then null_value
  else native this (fun h => sqlite3_column_int64 w h col) null_value.

Definition GetDouble (this : t) (w : World) (col : Z) (null_value : double)
  : double :=
  if FieldIsNull this w col then null_value
  else native this (fun h => sqlite3_column_double w h col) null_value.

Definition GetDouble_name (this : t) (w : World) (name : cstr)
    (null_value : double) : double :=
  let idx := FieldIndex this w name in
  if 0 <=? idx then GetDouble this w idx null_value else null_value.

Definition GetString (this : t) (w : World) (col : Z) (null_value : cstr)
  : cstr :=
  if FieldIsNull this w col then null_value
  else
    match FieldValue this w col with
    | Some val => Some val
    | None => null_value
    end.

Definition GetString_name (this : t) (w : World) (name : cstr)
    (null_value : cstr) : cstr :=
  let idx := FieldIndex this w name in
  if 0 <=? idx then GetString this w idx null_value else null_value.

Definition Eof (this : t) : bool := eof_ this.

Definition set_eof (this : t) : t :=
  {| db_ := db_ this; stmt_ := stmt_ this; eof_ := true;
     num_fields_ := num_fields_ this |}.

Definition NextRow (this : t) (w : World) : t * World :=
  match stmt_ this with
  | None => (this, w)
  | Some h =>
      let '(rc, w1) := sqlite3_step w h in
      if rc =? SQLITE_DONE then (set_eof this, w1)
      else if negb (rc =? SQLITE_ROW) then (set_eof this, w1)
      else (this, w1)
  end.

(** [n] calls of [NextRow] in a row. *)
Fixpoint NextRow_times (n : nat) (this : t) (w : World) : t * World :=
  match n with
  | O => (this, w)
  | S n' => let '(q, w1) := NextRow this w in NextRow_times n' q w1
  end.

Definition FieldDataType (this : t) (w : World) (col : Z) : Z :=
  match stmt_ this with
  | Some h =>
      if (col <? 0) || (num_fields_ this <=? col) then -1
      else sqlite3_column_type w h col
  | None => -1
  end.

End Sqlite3Query.

(* ===================================================================== *)
(** ** sqlite3_result_set.hpp *)
(* ===================================================================== *)

Module Sqlite3ResultSet.
Import Cxx.

(** [results_] is the [char**] table of [sqlite3_get_table]: the column
    names, then the cells row by row.  The table is owned by the object,
    so it is held by value; [sqlite3_free_table] drops it. *)
Record t : Type := mk {
  results_ : option (list cstr);
  num_rows_ : Z;       (* uint32_t *)
  num_cols_ : Z;       (* int32_t *)
  current_row_ : Z     (* uint32_t *)
}.

Definition default : t :=
  {| results_ := None; num_rows_ := 0; num_cols_ := 0; current_row_ := 0 |}.

(** The private constructor [Sqlite3ResultSet(results, rows, cols)]. *)
Definition ctor (results : option (list cstr)) (rows cols : Z) : t :=
  {| results_ := results; num_rows_ := rows; num_cols_ := cols;
     current_row_ := 0 |}.

Definition move_ctor (other : t) : t * t :=
  ({| results_ := results_ other; num_rows_ := num_rows_ other;
      num_cols_ := num_cols_ other; current_row_ := current_row_ other |},
   {| results_ := None; num_rows_ := 0; num_cols_ := 0; current_row_ := 0 |}).

Definition Finalize (this : t) : t :=
  {| results_ := None; num_rows_ := 0; num_cols_ := 0; current_row_ := 0 |}.

Definition move_assign (this other : t) : t * t :=
  let _ := Finalize this in
  ({| results_ := results_ other; num_rows_ := num_rows_ other;
      num_cols_ := num_cols_ other; current_row_ := current_row_ other |},
   {| results_ := None; num_rows_ := 0; num_cols_ := 0; current_row_ := 0 |}).

Definition NumFields (this : t) : Z := num_cols_ this.
Definition NumRows (this : t) : Z := num_rows_ this.

Fixpoint FieldIndex_from (results : list cstr) (name : string) (i : Z)
    (n : nat) : Z :=
  match n with
  | O => -1
  | S n' =>
      match mjoin (results !! Z.to_nat i) with
      | Some col_name =>
          if strcmp_eq name col_name then i
          else FieldIndex_from results name (i + 1) n'
      | None => FieldIndex_from results name (i + 1) n'
      end
  end.

Definition FieldIndex (this : t) (name : cstr) : Z :=
  match results_ this, name with
  | Some results, Some nm =>
      FieldIndex_from results nm 0 (Z.to_nat (num_cols_ this))
  | _, _ => -1
  end.

(** [RealIndex]: [int32_t] arithmetic. *)
Definition RealIndex (this : t) (col : Z) : Z :=
  to_int32 (to_int32 (to_int32 (current_row_ this) * num_cols_ this)
            + num_cols_ this + col).

Definition FieldName (this : t) (col : Z) : cstr :=
  match results_ this with
  | Some results =>
      if (col <? 0) || (num_cols_ this <=? col) then None
      else mjoin (results !! Z.to_nat col)
  | None => None
  end.

(** [results_[idx]]; a slot outside the table reads as null here. *)
Definition FieldValue (this : t) (col : Z) : cstr :=
  match results_ this with
  | Some results =>
      if (col <? 0) || (num_cols_ this <=? col) then None
      else
        let idx := RealIndex this col in
        if idx <? 0 then None else mjoin (results !! Z.to_nat idx)
  | None => None
  end.

Definition FieldValue_name (this : t) (name : cstr) : cstr :=
  let col := FieldIndex this name in
  if 0 <=? col then FieldValue this col else None.

Definition FieldIsNull (this : t) (col : Z) : bool :=
  match results_ this with
  | Some results =>
      if (col <? 0) || (num_cols_ this <=? col) then true
      else
        let idx := RealIndex this col in
        if idx <? 0 then true
        else match mjoin (results !! Z.to_nat idx) with
             | Some _ => false
             | None => true
             end
  | None => true
  end.

Definition Eof (this : t) : bool := num_rows_ this <=? current_row_ this.

Definition set_current_row (this : t) (row : Z) : t :=
  {| results_ := results_ this; num_rows_ := num_rows_ this;
     num_cols_ := num_cols_ this; current_row_ := row |}.

Definition NextRow (this : t) : t :=
  if current_row_ this <? num_rows_ this
  then set_current_row this (to_uint32 (current_row_ this + 1))
  else this.

(** [void SeekRow(uint32_t row)]. *)
Definition SeekRow (this : t) (row : Z) : t :=
  if (num_rows_ this <=? row) && (0 <? num_rows_ this)
  then set_current_row this (to_uint32 (num_rows_ this - 1))
  else set_current_row this row.

Definition CurrentRow (this : t) : Z := current_row_ this.

Fixpoint NextRow_times (n : nat) (this : t) : t :=
  match n with
  | O => this
  | S n' => NextRow_times n' (NextRow this)
  end.

End Sqlite3ResultSet.

(* ===================================================================== *)
(** ** sqlite3_statement.hpp *)
(* ===================================================================== *)

Module Sqlite3Statement.
Import Cxx Sqlite.

Record t : Type := mk {
  db_ : option nat;
  stmt_ : option nat
}.

Definition default : t := {| db_ := None; stmt_ := None |}.

(** The private constructor [Sqlite3Statement(db, stmt)]. *)
Definition ctor (db stmt : option nat) : t := {| db_ := db; stmt_ := stmt |}.

Definition move_ctor (other : t) : t * t :=
  ({| db_ := db_ other; stmt_ := stmt_ other |},
   {| db_ := None; stmt_ := None |}).

Definition Finalize (this : t) (w : World) : t * World :=
  match stmt_ this with
  | Some h => ({| db_ := db_ this; stmt_ := None |}, sqlite3_finalize w h)
  | None => (this, w)
  end.

Definition move_assign (this other : t) (w : World) : t * t * World :=
  let '(_, w1) := Finalize this w in
  ({| db_ := db_ other; stmt_ := stmt_ other |},
   {| db_ := None; stmt_ := None |},
   w1).

Definition Valid (this : t) : bool :=
  match stmt_ this with Some _ => true | None => false end.

Definition Handle (this : t) : option nat := stmt_ this.

(** [int32_t ExecDml(Error* out_error)]: the returned count, the
    statement, the error slot and the engine state. *)
Definition ExecDml (this : t) (out_error : option Error.t) (w : World)
  : Z * t * option Error.t * World :=
  match db_ this, stmt_ this with
  | Some d, Some h =>
      let '(rc, w1) := sqlite3_step w h in
      if rc =? SQLITE_DONE then
        let changes := sqlite3_changes w1 d in
        let '(reset_rc, w2) := sqlite3_reset w1 h in
        let out1 := if negb (reset_rc =? SQLITE_OK)
                    then Error.set_out out_error Error.kError
                           (sqlite3_errmsg w2 d)
                    else out_error in
        (changes, this, out1, w2)
      else
        let '(_, w2) := sqlite3_reset w1 h in
        (-1, this,
         Error.set_out out_error Error.kError (sqlite3_errmsg w2 d), w2)
  | _, _ =>
      (-1, this,
       Error.set_out out_error Error.kMisuse
         (Some "Statement not initialized"%string), w)
  end.

(** [Sqlite3Query ExecQuery(Error* out_error)]. *)
Definition ExecQuery (this : t) (out_error : option Error.t) (w : World)
  : Sqlite3Query.t * t * option Error.t * World :=
  match db_ this, stmt_ this with
  | Some d, Some h =>
      let '(rc, w1) := sqlite3_step w h in
      if rc =? SQLITE_DONE then
        (* No rows *)
        let q := Sqlite3Query.ctor w1 (db_ this) (stmt_ this) true in
        (q, {| db_ := db_ this; stmt_ := None |}, out_error, w1)
      else if rc =? SQLITE_ROW then
        let q := Sqlite3Query.ctor w1 (db_ this) (stmt_ this) false in
        (q, {| db_ := db_ this; stmt_ := None |}, out_error, w1)
      else
        let '(_, w2) := sqlite3_reset w1 h in
        (Sqlite3Query.default, this,
         Error.set_out out_error Error.kError (sqlite3_errmsg w2 d), w2)
  | _, _ =>
      (Sqlite3Query.default, this,
       Error.set_out out_error Error.kMisuse
         (Some "Statement not initialized"%string), w)
  end.

(** The common shape of the six [Bind] overloads: the native bind call
    [call] and the message reported when it fails. *)
Definition bind_with (this : t) (w : World)
    (call : World -> nat -> Z * World) (failed : string)
  : Error.t * World :=
  match stmt_ this with
  | None =>
      (Error.Make Error.kMisuse (Some "Statement not initialized"%string), w)
  | Some h =>
      let '(rc, w1) := call w h in
      if negb (rc =? SQLITE_OK)
      then (Error.Make Error.kError (Some failed), w1)
      else (Error.Ok, w1)
  end.

Definition Bind_text (this : t) (w : World) (param : Z) (value : cstr) :=
  bind_with this w (fun w h => sqlite3_bind_text w h param value)
    "bind text failed".

Definition Bind_int32 (this : t) (w : World) (param : Z) (value : Z) :=
  bind_with this w (fun w h => sqlite3_bind_int w h param value)
    "bind int failed".

Definition Bind_int64 (this : t) (w : World) (param : Z) (value : Z) :=
  bind_with this w (fun w h => sqlite3_bind_int64 w h param value)
    "bind int64 failed".

Definition Bind_double (this : t) (w : World) (param : Z) (value : double) :=
  bind_with this w (fun w h => sqlite3_bind_double w h param value)
    "bind double failed".

Definition Bind_blob (this : t) (w : World) (param : Z)
    (blob : option (list Z)) (len : Z) :=
  bind_with this w (fun w h => sqlite3_bind_blob w h param blob len)
    "bind blob failed".

Definition BindNull (this : t) (w : World) (param : Z) :=
  bind_with this w (fun w h => sqlite3_bind_null w h param)
    "bind null failed".

Definition Reset (this : t) (w : World) : Error.t * World :=
  match stmt_ this with
  | None =>
      (Error.Make Error.kMisuse (Some "Statement not initialized"%string), w)
  | Some h =>
      let '(rc, w1) := sqlite3_reset w h in
      if negb (rc =? SQLITE_OK)
      then (Error.Make Error.kError
              (match db_ this with
               | Some d => sqlite3_errmsg w1 d
               | None => Some "reset failed"%string
               end), w1)
      else (Error.Ok, w1)
  end.

End Sqlite3Statement.

(* ===================================================================== *)
(** ** sqlite3_db.hpp *)
(* ===================================================================== *)

Module Sqlite3Db.
Import Cxx Sqlite.

Record t : Type := mk { db_ : option nat }.

Definition default : t := {| db_ := None |}.

Definition move_ctor (other : t) : t * t :=
  ({| db_ := db_ other |}, {| db_ := None |}).

(** [void Close()]: what [sqlite3_close] answers is not looked at. *)
Definition Close (this : t) (w : World) : t * World :=
  match db_ this with
  | Some d => ({| db_ := None |}, (sqlite3_close w d).2)
  | None => (this, w)
  end.

Definition move_assign (this other : t) (w : World) : t * t * World :=
  let '(_, w1) := Close this w in
  ({| db_ := db_ other |}, {| db_ := None |}, w1).

Definition IsOpen (this : t) : bool :=
  match db_ this with Some _ => true | None => false end.

(** The private helper [Compile(sql, out_error)], called with [db_] not
    null. *)
Definition Compile (d : nat) (sql : cstr) (out_error : option Error.t)
    (w : World) : option nat * option Error.t * World :=
  let '(rc, stmt, w1) := sqlite3_prepare_v2 w d sql in
  if negb (rc =? SQLITE_OK)
  then (None, Error.set_out out_error Error.kError (sqlite3_errmsg w1 d), w1)
  else (stmt, out_error, w1).

(** [Sqlite3Query ExecQuery(const char* sql, Error* out_error)]. *)
Definition ExecQuery (this : t) (sql : cstr) (out_error : option Error.t)
    (w : World) : Sqlite3Query.t * option Error.t * World :=
  match db_ this with
  | None =>
      (Sqlite3Query.default,
       Error.set_out out_error Error.kNotOpen
         (Some "Database not open"%string), w)
  | Some d =>
      match sql with
      | None =>
          (Sqlite3Query.default,
           Error.set_out out_error Error.kNullParam
             (Some "sql is null"%string), w)
      | Some _ =>
          let '(stmt, out1, w1) := Compile d sql out_error w in
          match stmt with
          | None => (Sqlite3Query.default, out1, w1)
          | Some h =>
              let '(rc, w2) := sqlite3_step w1 h in
              if rc =? SQLITE_DONE then
                (Sqlite3Query.ctor w2 (db_ this) stmt true, out1, w2)
              else if rc =? SQLITE_ROW then
                (Sqlite3Query.ctor w2 (db_ this) stmt false, out1, w2)
              else
                (Sqlite3Query.default,
                 Error.set_out out1 Error.kError (sqlite3_errmsg w2 d),
                 sqlite3_finalize w2 h)
          end
      end
  end.

(** [int32_t ExecScalar(sql, null_value, out_error)]; the local cursor is
    finalized when the function returns. *)
Definition ExecScalar (this : t) (sql : cstr) (null_value : Z)
    (out_error : option Error.t) (w : World) : Z * option Error.t * World :=
  let '(q, out1, w1) := ExecQuery this sql out_error w in
  let w2 := snd (Sqlite3Query.Finalize q w1) in
  if Sqlite3Query.Eof q || (Sqlite3Query.NumFields q <? 1) then
    let out2 := match out1 with
                | Some e =>
                    if Error.ok e
                    then Some (Error.Set_ e Error.kError
                                 (Some "Invalid scalar query"%string))
                    else Some e
                | None => None
                end in
    (null_value, out2, w2)
  else (Sqlite3Query.GetInt q w1 0 null_value, out1, w2).

(** [Sqlite3Statement CompileStatement(sql, out_error)]. *)
Definition CompileStatement (this : t) (sql : cstr)
    (out_error : option Error.t) (w : World)
  : Sqlite3Statement.t * option Error.t * World :=
  match db_ this with
  | None =>
      (Sqlite3Statement.default,
       Error.set_out out_error Error.kNotOpen
         (Some "Database not open"%string), w)
  | Some d =>
      let '(stmt, out1, w1) := Compile d sql out_error w in
      match stmt with
      | None => (Sqlite3Statement.default, out1, w1)
      | Some _ => (Sqlite3Statement.ctor (db_ this) stmt, out1, w1)
      end
  end.

(** The expansion of the format of [TableExists] over [table]: the
    [%s] directive copies the argument as it is. *)
Definition TableExists_format (table : string) : string :=
  "SELECT count(*) FROM sqlite_master WHERE type='table' AND name='"
    +:+ table +:+ "'".

(** The text [TableExists] formats into its [char sql[256]]. *)
Definition TableExists_sql (table : string) : string :=
  snprintf_str 256 (TableExists_format table).

(** [bool TableExists(const char* table)]. *)
Definition TableExists (this : t) (table : cstr) (w : World) : bool * World :=
  match db_ this, table with
  | Some _, Some name =>
      let '(n, _, w1) :=
        ExecScalar this (Some (TableExists_sql name)) 0 None w in
      (0 <? n, w1)
  | _, _ => (false, w)
  end.

(** [Error Open(const char* path)]. *)
Definition Open (files : string -> Z * option Conn) (this : t) (path : cstr)
    (w : World) : Error.t * t * World :=
  match path with
  | None => (Error.Make Error.kNullParam (Some "path is null"%string), this, w)
  | Some p =>
      let '(_, w1) := Close this w in
      let '(rc, db, w2) := sqlite3_open files w1 p in
      if negb (rc =? SQLITE_OK) then
        match db with
        | Some d =>
            (Error.Make Error.kError (sqlite3_errmsg w2 d),
             {| db_ := None |}, (sqlite3_close w2 d).2)
        | None =>
            (Error.Make Error.kError (Some "sqlite3_open failed"%string),
             {| db_ := None |}, w2)
        end
      else (Error.Ok, {| db_ := db |}, w2)
  end.

(** [int32_t ExecDml(const char* sql, Error* out_error)]. *)
Definition ExecDml (this : t) (sql : cstr) (out_error : option Error.t)
    (w : World) : Z * option Error.t * World :=
  match db_ this with
  | None =>
      (-1,
       Error.set_out out_error Error.kNotOpen
         (Some "Database not open"%string), w)
  | Some d =>
      match sql with
      | None =>
          (-1,
           Error.set_out out_error Error.kNullParam
             (Some "sql is null"%string), w)
      | Some _ =>
          let '(rc, errmsg, w1) := sqlite3_exec w d sql in
          if rc =? SQLITE_OK then (sqlite3_changes w1 d, out_error, w1)
          else
            (-1,
             Error.set_out out_error Error.kError
               (match errmsg with
                | Some m => Some m
                | None => sqlite3_errmsg w1 d
                end), w1)
      end
  end.

(** [Sqlite3ResultSet GetResultSet(const char* sql, Error* out_error)]. *)
Definition GetResultSet (this : t) (sql : cstr) (out_error : option Error.t)
    (w : World) : Sqlite3ResultSet.t * option Error.t * World :=
  match db_ this with
  | None =>
      (Sqlite3ResultSet.default,
       Error.set_out out_error Error.kNotOpen
         (Some "Database not open"%string), w)
  | Some d =>
      match sql with
      | None =>
          (Sqlite3ResultSet.default,
           Error.set_out out_error Error.kNullParam
             (Some "sql is null"%string), w)
      | Some _ =>
          let '(rc, results, rows, cols, errmsg, w1) :=
            sqlite3_get_table w d sql in
          if rc =? SQLITE_OK then
            (Sqlite3ResultSet.ctor results (to_uint32 rows) cols,
             out_error, w1)
          else
            (Sqlite3ResultSet.default,
             Error.set_out out_error Error.kError
               (match errmsg with
                | Some m => Some m
                | None => sqlite3_errmsg w1 d
                end), w1)
      end
  end.

(** The three transaction functions: [Error err; ExecDml(sql, &err);
    return err;]. *)
Definition transaction (this : t) (sql : string) (w : World)
  : Error.t * World :=
  let '(_, err, w1) := ExecDml this (Some sql) (Some Error.default) w in
  (from_option id Error.default err, w1).

Definition BeginTransaction (this : t) (w : World) : Error.t * World :=
  transaction this "BEGIN TRANSACTION;" w.

Definition Commit (this : t) (w : World) : Error.t * World :=
  transaction this "COMMIT TRANSACTION;" w.

Definition Rollback (this : t) (w : World) : Error.t * World :=
  transaction this "ROLLBACK;" w.

End Sqlite3Db.

(* ===================================================================== *)
(** ** The MariaDB/MySQL C API, as far as the wrappers call it

    As for SQLite, the server is an external collaborator: a connection
    carries, for every SQL text, the answer the server gives to it, and a
    prepared statement carries the outcome of each native call on it.
    A stored result ([MYSQL_RES]) is the table of its rows with the
    position of the next row [mysql_fetch_row] returns. *)
(* ===================================================================== *)

Module Mysql.
Import Cxx.

Definition MYSQL_TYPE_DECIMAL : Z := 0.
Definition MYSQL_TYPE_LONG : Z := 3.
Definition MYSQL_TYPE_DOUBLE : Z := 5.
Definition MYSQL_TYPE_NULL : Z := 6.
Definition MYSQL_TYPE_LONGLONG : Z := 8.
Definition MYSQL_TYPE_BLOB : Z := 252.
Definition MYSQL_TYPE_STRING : Z := 254.

Record MYSQL_FIELD : Type := mkField { name : cstr }.

(** [MYSQL_ROW] is [char**]: one text, or null, per column. *)
Definition MYSQL_ROW : Type := list cstr.

(** A stored result. *)
Record Res : Type := mkRes {
  res_fields : list MYSQL_FIELD;
  res_rows : list MYSQL_ROW;
  res_next : nat;                   (* the row the next fetch returns *)
  res_current : option MYSQL_ROW    (* the row the last fetch returned *)
}.

(** What the server answers to a statement sent with [mysql_query]. *)
Inductive Answer : Type :=
  | QueryFailed (errmsg : string)
  | NoResultSet (affected : Z)
  | ResultSet (fields : list MYSQL_FIELD) (rows : list MYSQL_ROW)
  | StoreFailed (field_count : Z) (errmsg : string).

(** A prepared statement ([MYSQL_STMT]) with the outcome of each call,
    and whether a result set of its last execution is open and still
    waits to be read (it does not after the prepare). *)
Record Stmt : Type := mkStmt {
  ps_conn : nat;
  ps_param_count : Z;
  ps_bind_ok : bool;                          (* mysql_stmt_bind_param *)
  ps_execute_ok : bool;                       (* mysql_stmt_execute *)
  ps_metadata : option (list MYSQL_FIELD);    (* mysql_stmt_result_metadata *)
  ps_store_ok : bool;                         (* mysql_stmt_store_result *)
  ps_reset_ok : bool;                         (* mysql_stmt_reset *)
  ps_error : string;                          (* mysql_stmt_error *)
  ps_affected : Z;                            (* mysql_stmt_affected_rows *)
  ps_num_rows : Z;                            (* mysql_stmt_num_rows *)
  ps_unread : bool                            (* an unread result set is open *)
}.

Record Conn : Type := mkConn {
  conn_error : string;
  conn_answer : string -> Answer;
  conn_prepare : string -> option Stmt;   (* None: the prepare fails *)
  conn_pending : option Answer;           (* awaiting mysql_store_result *)
  conn_field_count : Z;
  conn_affected : Z
}.

Record World : Type := mkWorld {
  conns : gmap nat Conn;
  results : gmap nat Res;
  pstmts : gmap nat Stmt;
  next_handle : nat
}.

Definition put_conn (w : World) (c : nat) (x : Conn) : World :=
  {| conns := <[c := x]> (conns w); results := results w;
     pstmts := pstmts w; next_handle := next_handle w |}.

Definition put_res (w : World) (h : nat) (r : Res) : World :=
  {| conns := conns w; results := <[h := r]> (results w);
     pstmts := pstmts w; next_handle := next_handle w |}.

(** [mysql_query(conn, sql)]: 0 on success. *)
Definition mysql_query (w : World) (c : nat) (sql : string) : Z * World :=
  match conns w !! c with
  | None => (1, w)
  | Some x =>
      match conn_answer x sql with
      | QueryFailed msg =>
          (1, put_conn w c {| conn_error := msg;
                              conn_answer := conn_answer x;
                              conn_prepare := conn_prepare x;
                              conn_pending := None;
                              conn_field_count := 0;
                              conn_affected := -1 |})
      | a =>
          (0, put_conn w c
                {| conn_error := EmptyString;
                   conn_answer := conn_answer x;
                   conn_prepare := conn_prepare x;
                   conn_pending := Some a;
                   conn_field_count :=
                     match a with
                     | ResultSet fields _ => Z.of_nat (length fields)
                     | StoreFailed n _ => n
                     | _ => 0
                     end;
                   conn_affected :=
                     match a with
                     | NoResultSet n => n
                     | ResultSet _ rows => Z.of_nat (length rows)
                     | _ => -1
                     end |})
      end
  end.

(** [mysql_store_result(conn)]: a new stored result, or null. *)
Definition mysql_store_result (w : World) (c : nat) : option nat * World :=
  match conns w !! c with
  | None => (None, w)
  | Some x =>
      let taken (msg : string) :=
        {| conn_error := msg; conn_answer := conn_answer x;
           conn_prepare := conn_prepare x; conn_pending := None;
           conn_field_count := conn_field_count x;
           conn_affected := conn_affected x |} in
      match conn_pending x with
      | Some (ResultSet fields rows) =>
          let h := next_handle w in
          (Some h,
           {| conns := <[c := taken EmptyString]> (conns w);
              results := <[h := {| res_fields := fields; res_rows := rows;
                                   res_next := 0%nat;
                                   res_current := None |}]> (results w);
              pstmts := pstmts w; next_handle := S h |})
      | Some (StoreFailed _ msg) => (None, put_conn w c (taken msg))
      | _ => (None, w)
      end
  end.

Definition mysql_field_count (w : World) (c : nat) : Z :=
  from_option conn_field_count 0 (conns w !! c).

Definition mysql_error (w : World) (c : nat) : cstr :=
  Some (from_option conn_error EmptyString (conns w !! c)).

Definition mysql_affected_rows (w : World) (c : nat) : Z :=
  from_option conn_affected (-1) (conns w !! c).

Definition mysql_close (w : World) (c : nat) : World :=
  {| conns := delete c (conns w); results := results w;
     pstmts := pstmts w; next_handle := next_handle w |}.

Definition mysql_num_rows (w : World) (h : nat) : Z :=
  from_option (fun r => Z.of_nat (length (res_rows r))) 0 (results w !! h).

Definition mysql_num_fields (w : World) (h : nat) : Z :=
  from_option (fun r => Z.of_nat (length (res_fields r))) 0 (results w !! h).

Definition mysql_fetch_fields (w : World) (h : nat)
  : option (list MYSQL_FIELD) :=
  res_fields <$> results w !! h.

(** [mysql_fetch_row(res)]: the next row, or null after the last. *)
Definition mysql_fetch_row (w : World) (h : nat) : option MYSQL_ROW * World :=
  match results w !! h with
  | None => (None, w)
  | Some r =>
      match res_rows r !! res_next r with
      | Some row =>
          (Some row,
           put_res w h {| res_fields := res_fields r; res_rows := res_rows r;
                          res_next := S (res_next r);
                          res_current := Some row |})
      | None =>
          (None,
           put_res w h {| res_fields := res_fields r; res_rows := res_rows r;
                          res_next := res_next r; res_current := None |})
      end
  end.

(** [mysql_fetch_lengths(res)]: the lengths of the current row's cells. *)
Definition mysql_fetch_lengths (w : World) (h : nat) : option (list Z) :=
  match results w !! h with
  | Some r =>
      (fun row : MYSQL_ROW =>
         (fun c : cstr =>
            match c with
            | Some s => Z.of_nat (String.length s)
            | None => 0
            end) <$> row) <$> res_current r
  | None => None
  end.

(** [mysql_data_seek(res, offset)]. *)
Definition mysql_data_seek (w : World) (h : nat) (offset : Z) : World :=
  match results w !! h with
  | Some r =>
      put_res w h {| res_fields := res_fields r; res_rows := res_rows r;
                     res_next := Z.to_nat offset; res_current := None |}
  | None => w
  end.

Definition mysql_free_result (w : World) (h : nat) : World :=
  {| conns := conns w; results := delete h (results w);
     pstmts := pstmts w; next_handle := next_handle w |}.

(** The statement [h], which is [s], with its result set open and unread
    or not. *)
Definition set_unread (w : World) (h : nat) (s : Stmt) (unread : bool)
  : World :=
  {| conns := conns w; results := results w;
     pstmts :=
       <[h := {| ps_conn := ps_conn s; ps_param_count := ps_param_count s;
                 ps_bind_ok := ps_bind_ok s;
                 ps_execute_ok := ps_execute_ok s;
                 ps_metadata := ps_metadata s; ps_store_ok := ps_store_ok s;
                 ps_reset_ok := ps_reset_ok s; ps_error := ps_error s;
                 ps_affected := ps_affected s; ps_num_rows := ps_num_rows s;
                 ps_unread := unread |}]> (pstmts w);
     next_handle := next_handle w |}.

(** [mysql_stmt_init] followed by a successful [mysql_stmt_prepare] give
    a live statement, with no result set open; [mysql_stmt_prepare] fails
    as the server says. *)
Definition mysql_stmt_init (w : World) (c : nat) : option nat :=
  match conns w !! c with
  | Some _ => Some (next_handle w)
  | None => None
  end.

Definition mysql_stmt_prepare (w : World) (c h : nat) (sql : string)
  : Z * World :=
  match conns w !! c with
  | Some x =>
      match conn_prepare x sql with
      | Some s =>
          (0, {| conns := conns w; results := results w;
                 pstmts := pstmts (set_unread w h s false);
                 next_handle := S (next_handle w) |})
      | None => (1, w)
      end
  | None => (1, w)
  end.

Definition mysql_stmt_close (w : World) (h : nat) : World :=
  {| conns := conns w; results := results w;
     pstmts := delete h (pstmts w); next_handle := next_handle w |}.

Definition mysql_stmt_param_count (w : World) (h : nat) : Z :=
  from_option ps_param_count 0 (pstmts w !! h).

(** The calls below return 0 on success. *)
Definition mysql_stmt_bind_param (w : World) (h : nat) : Z :=
  match pstmts w !! h with
  | Some s => if ps_bind_ok s then 0 else 1
  | None => 1
  end.

(** [mysql_stmt_execute(stmt)]: after a successful execution a statement
    that returns a result set has it open, unread. *)
Definition mysql_stmt_execute (w : World) (h : nat) : Z * World :=
  match pstmts w !! h with
  | Some s =>
      if ps_execute_ok s
      then (0, set_unread w h s
                 match ps_metadata s with Some _ => true | None => false end)
      else (1, w)
  | None => (1, w)
  end.

(** [mysql_stmt_store_result(stmt)]: on success the whole result set has
    been read into the client. *)
Definition mysql_stmt_store_result (w : World) (h : nat) : Z * World :=
  match pstmts w !! h with
  | Some s => if ps_store_ok s then (0, set_unread w h s false) else (1, w)
  | None => (1, w)
  end.

(** [mysql_stmt_free_result(stmt)]: the result set of the last execution
    is closed. *)
Definition mysql_stmt_free_result (w : World) (h : nat) : World :=
  match pstmts w !! h with
  | Some s => set_unread w h s false
  | None => w
  end.

(** [mysql_stmt_reset(stmt)]: on success the statement is as after the
    prepare, and a result set that was still unread is discarded; the
    bindings stay. *)
Definition mysql_stmt_reset (w : World) (h : nat) : Z * World :=
  match pstmts w !! h with
  | Some s => if ps_reset_ok s then (0, set_unread w h s false) else (1, w)
  | None => (1, w)
  end.

(** [mysql_stmt_result_metadata(stmt)]: a new result holding the column
    descriptions and no rows, or null when the statement returns none. *)
Definition mysql_stmt_result_metadata (w : World) (h : nat)
  : option nat * World :=
  match pstmts w !! h with
  | Some s =>
      match ps_metadata s with
      | Some fields =>
          let m := next_handle w in
          (Some m,
           {| conns := conns w;
              results := <[m := {| res_fields := fields; res_rows := [];
                                   res_next := 0%nat;
                                   res_current := None |}]> (results w);
              pstmts := pstmts w; next_handle := S m |})
      | None => (None, w)
      end
  | None => (None, w)
  end.

Definition mysql_stmt_error (w : World) (h : nat) : cstr :=
  Some (from_option ps_error EmptyString (pstmts w !! h)).

Definition mysql_stmt_affected_rows (w : World) (h : nat) : Z :=
  from_option ps_affected (-1) (pstmts w !! h).

Definition mysql_stmt_num_rows (w : World) (h : nat) : Z :=
  from_option ps_num_rows 0 (pstmts w !! h).

(** [strtol]/[strtoll] in base 10 on a 64-bit [long]: blanks, a sign,
    digits; the value is clamped to the range of [long]. *)
Definition is_space (c : ascii) : bool :=
  let n := nat_of_ascii c in
  (n =? 32)%nat || ((9 <=? n)%nat && (n <=? 13)%nat).

Definition digit_of (c : ascii) : option Z :=
  let n := Z.of_nat (nat_of_ascii c) in
  if (48 <=? n) && (n <=? 57) then Some (n - 48) else None.

Fixpoint skip_spaces (s : list ascii) : list ascii :=
  match s with
  | c :: rest => if is_space c then skip_spaces rest else s
  | [] => []
  end.

Fixpoint digits (acc : Z) (s : list ascii) : Z :=
  match s with
  | c :: rest =>
      match digit_of c with
      | Some d => digits (10 * acc + d) rest
      | None => acc
      end
  | [] => acc
  end.

Definition strtoll (s : string) : Z :=
  let body := skip_spaces (String.list_ascii_of_string s) in
  let v := match body with
           | c :: rest =>
               if Ascii.eqb c "-"%char then - digits 0 rest
               else if Ascii.eqb c "+"%char then digits 0 rest
               else digits 0 body
           | [] => 0
           end in
  Z.max (- 2 ^ 63) (Z.min (2 ^ 63 - 1) v).

Definition strtol : string -> Z := strtoll.

(** [strtoul] in base 10 on a 64-bit [unsigned long]: blanks, a sign,
    digits; a value past the range gives [ULONG_MAX], and a minus sign
    negates within the unsigned type. *)
Definition strtoul (s : string) : Z :=
  let body := skip_spaces (String.list_ascii_of_string s) in
  let '(negative, v) :=
    match body with
    | c :: rest =>
        if Ascii.eqb c "-"%char then (true, digits 0 rest)
        else if Ascii.eqb c "+"%char then (false, digits 0 rest)
        else (false, digits 0 body)
    | [] => (false, 0)
    end in
  if 2 ^ 64 - 1 <? v then 2 ^ 64 - 1
  else if negative then (- v) mod 2 ^ 64 else v.

(** What [mysql_init] and [mysql_real_connect] give for a host, port,
    user, password and database is the client library's and the
    server's. *)
Inductive Connect : Type :=
  | InitFailed                    (* mysql_init returns null *)
  | Refused (errmsg : string)     (* mysql_real_connect returns null *)
  | Accepted (x : Conn).

End Mysql.

(* ===================================================================== *)
(** ** maria_query.hpp *)
(* ===================================================================== *)

Module MariaQuery.
Import Cxx Mysql.

(** [row_], [lengths_] and [fields_] point into memory the stored result
    owns; they are held by value. *)
Record t : Type := mk {
  res_ : option nat;
  row_ : option MYSQL_ROW;
  lengths_ : option (list Z);
  fields_ : option (list MYSQL_FIELD);
  eof_ : bool;
  num_fields_ : Z;     (* int32_t *)
  num_rows_ : Z        (* uint64_t *)
}.

Definition default : t :=
  {| res_ := None; row_ := None; lengths_ := None; fields_ := None;
     eof_ := true; num_fields_ := 0; num_rows_ := 0 |}.

(** The private constructor [MariaQuery(res, eof)]. *)
Definition ctor (w : World) (res : option nat) (eof : bool) : t * World :=
  match res with
  | None =>
      ({| res_ := None; row_ := None; lengths_ := None; fields_ := None;
          eof_ := eof; num_fields_ := 0; num_rows_ := 0 |}, w)
  | Some h =>
      let nf := to_int32 (mysql_num_fields w h) in
      let nr := to_uint64 (mysql_num_rows w h) in
      let fs := mysql_fetch_fields w h in
      if negb eof then
        let '(row, w1) := mysql_fetch_row w h in
        match row with
        | Some _ =>
            ({| res_ := res; row_ := row;
                lengths_ := mysql_fetch_lengths w1 h; fields_ := fs;
                eof_ := eof; num_fields_ := nf; num_rows_ := nr |}, w1)
        | None =>
            ({| res_ := res; row_ := None; lengths_ := None; fields_ := fs;
                eof_ := true; num_fields_ := nf; num_rows_ := nr |}, w1)
        end
      else
        ({| res_ := res; row_ := None; lengths_ := None; fields_ := fs;
            eof_ := eof; num_fields_ := nf; num_rows_ := nr |}, w)
  end.

Definition move_ctor (other : t) : t * t :=
  ({| res_ := res_ other; row_ := row_ other; lengths_ := lengths_ other;
      fields_ := fields_ other; eof_ := eof_ other;
      num_fields_ := num_fields_ other; num_rows_ := num_rows_ other |},
   default).

Definition Finalize (this : t) (w : World) : t * World :=
  (default,
   match res_ this with
   | Some h => mysql_free_result w h
   | None => w
   end).

Definition move_assign (this other : t) (w : World) : t * t * World :=
  let '(_, w1) := Finalize this w in
  ({| res_ := res_ other; row_ := row_ other; lengths_ := lengths_ other;
      fields_ := fields_ other; eof_ := eof_ other;
      num_fields_ := num_fields_ other; num_rows_ := num_rows_ other |},
   default, w1).

Definition NumFields (this : t) : Z := num_fields_ this.

(** [fields[i].name], null also when [i] is outside the array. *)
Definition field_name (fields : list MYSQL_FIELD) (i : Z) : cstr :=
  if i <? 0 then None else mjoin (name <$> fields !! Z.to_nat i).

Fixpoint FieldIndex_from (fields : list MYSQL_FIELD) (nm : string) (i : Z)
    (n : nat) : Z :=
  match n with
  | O => -1
  | S n' =>
      match field_name fields i with
      | Some col_name =>
          if strcmp_eq nm col_name then i
          else FieldIndex_from fields nm (i + 1) n'
      | None => FieldIndex_from fields nm (i + 1) n'
      end
  end.

Definition FieldIndex (this : t) (nm : cstr) : Z :=
  match fields_ this, nm with
  | Some fields, Some n =>
      FieldIndex_from fields n 0 (Z.to_nat (num_fields_ this))
  | _, _ => -1
  end.

Definition FieldName (this : t) (col : Z) : cstr :=
  match fields_ this with
  | Some fields =>
      if (col <? 0) || (num_fields_ this <=? col) then None
      else field_name fields col
  | None => None
  end.

(** [row_[col]] for [col] inside the bounds the callers check. *)
Definition row_at (row : MYSQL_ROW) (col : Z) : cstr :=
  mjoin (row !! Z.to_nat col).

Definition FieldValue (this : t) (col : Z) : cstr :=
  match row_ this with
  | Some row =>
      if (col <? 0) || (num_fields_ this <=? col) then None
      else row_at row col
  | None => None
  end.

Definition FieldValue_name (this : t) (nm : cstr) : cstr :=
  let idx := FieldIndex this nm in
  if 0 <=? idx then FieldValue this idx else None.

Definition FieldIsNull (this : t) (col : Z) : bool :=
  match row_ this with
  | Some row =>
      if (col <? 0) || (num_fields_ this <=? col) then true
      else match row_at row col with Some _ => false | None => true end
  | None => true
  end.

(** The read of a getter that found the field non-null: the text of
    [row_[col]] handed to the C library's conversion [conv]. *)
Definition convert {A : Type} (this : t) (col : Z) (conv : string -> A)
    (dflt : A) : A :=
  match row_ this with
  | Some row =>
      match row_at row col with Some s => conv s | None => dflt end
  | None => dflt
  end.

Definition GetInt (this : t) (col : Z) (null_value : Z) : Z :=
  if FieldIsNull this col then null_value
  else convert this col (fun s => to_int32 (strtol s)) null_value.

Definition GetInt_name (this : t) (nm : cstr) (null_value : Z) : Z :=
  let idx := FieldIndex this nm in
  if 0 <=? idx then GetInt this idx null_value else null_value.

Definition GetInt64 (this : t) (col : Z) (null_value : Z) : Z :=
  if FieldIsNull this col then null_value
  else convert this col strtoll null_value.

(** [strtod] is the C library's; it is a parameter of the two getters
    that call it. *)
Definition GetDouble (strtod : string -> double) (this : t) (col : Z)
    (null_value : double) : double :=
  if FieldIsNull this col then null_value
  else convert this col strtod null_value.

Definition GetDouble_name (strtod : string -> double) (this : t) (nm : cstr)
    (null_value : double) : double :=
  let idx := FieldIndex this nm in
  if 0 <=? idx then GetDouble strtod this idx null_value else null_value.

Definition GetString (this : t) (col : Z) (null_value : cstr) : cstr :=
  if FieldIsNull this col then null_value
  else match row_ this with
       | Some row => row_at row col
       | None => null_value
       end.

Definition GetString_name (this : t) (nm : cstr) (null_value : cstr) : cstr :=
  let idx := FieldIndex this nm in
  if 0 <=? idx then GetString this idx null_value else null_value.

Definition Eof (this : t) : bool := eof_ this.

Definition NextRow (this : t) (w : World) : t * World :=
  match res_ this with
  | None => (this, w)
  | Some h =>
      let '(row, w1) := mysql_fetch_row w h in
      match row with
      | Some _ =>
          ({| res_ := res_ this; row_ := row;
              lengths_ := mysql_fetch_lengths w1 h;
              fields_ := fields_ this; eof_ := eof_ this;
              num_fields_ := num_fields_ this;
              num_rows_ := num_rows_ this |}, w1)
      | None =>
          ({| res_ := res_ this; row_ := None; lengths_ := None;
              fields_ := fields_ this; eof_ := true;
              num_fields_ := num_fields_ this;
              num_rows_ := num_rows_ this |}, w1)
      end
  end.

Fixpoint NextRow_times (n : nat) (this : t) (w : World) : t * World :=
  match n with
  | O => (this, w)
  | S n' => let '(q, w1) := NextRow this w in NextRow_times n' q w1
  end.

(** [lengths_[col]] for [col] inside the bounds the callers check. *)
Definition length_at (lengths : list Z) (col : Z) : Z :=
  from_option id 0 (lengths !! Z.to_nat col).

(** [const uint8_t* GetBlob(int32_t col, int32_t& out_len)]: the returned
    pointer and [out_len]. *)
Definition GetBlob (this : t) (col : Z) : cstr * Z :=
  if FieldIsNull this col then (None, 0)
  else
    match lengths_ this, row_ this with
    | Some lengths, Some row =>
        (row_at row col, to_int32 (length_at lengths col))
    | _, _ => (None, 0)
    end.

(** [GetBlob(const char* name, int32_t& out_len)]: [out_len] is written
    only when the column is found. *)
Definition GetBlob_name (this : t) (nm : cstr) (out_len : Z) : cstr * Z :=
  let idx := FieldIndex this nm in
  if 0 <=? idx then GetBlob this idx else (None, out_len).

End MariaQuery.

(* ===================================================================== *)
(** ** maria_result_set.hpp *)
(* ===================================================================== *)

Module MariaResultSet.
Import Cxx Mysql.

Record t : Type := mk {
  res_ : option nat;
  row_ : option MYSQL_ROW;
  fields_ : option (list MYSQL_FIELD);
  num_rows_ : Z;       (* uint64_t *)
  num_cols_ : Z;       (* int32_t *)
  current_row_ : Z     (* uint64_t *)
}.

Definition default : t :=
  {| res_ := None; row_ := None; fields_ := None; num_rows_ := 0;
     num_cols_ := 0; current_row_ := 0 |}.

(** The private constructor [MariaResultSet(res)]. *)
Definition ctor (w : World) (res : option nat) : t * World :=
  match res with
  | None => (default, w)
  | Some h =>
      let nr := to_uint64 (mysql_num_rows w h) in
      let nc := to_int32 (mysql_num_fields w h) in
      let fs := mysql_fetch_fields w h in
      if 0 <? nr then
        let '(row, w1) := mysql_fetch_row w h in
        ({| res_ := res; row_ := row; fields_ := fs; num_rows_ := nr;
            num_cols_ := nc; current_row_ := 0 |}, w1)
      else
        ({| res_ := res; row_ := None; fields_ := fs; num_rows_ := nr;
            num_cols_ := nc; current_row_ := 0 |}, w)
  end.

Definition move_ctor (other : t) : t * t :=
  ({| res_ := res_ other; row_ := row_ other; fields_ := fields_ other;
      num_rows_ := num_rows_ other; num_cols_ := num_cols_ other;
      current_row_ := current_row_ other |},
   default).

Definition Finalize (this : t) (w : World) : t * World :=
  (default,
   match res_ this with
   | Some h => mysql_free_result w h
   | None => w
   end).

Definition move_assign (this other : t) (w : World) : t * t * World :=
  let '(_, w1) := Finalize this w in
  ({| res_ := res_ other; row_ := row_ other; fields_ := fields_ other;
      num_rows_ := num_rows_ other; num_cols_ := num_cols_ other;
      current_row_ := current_row_ other |},
   default, w1).

Definition NumFields (this : t) : Z := num_cols_ this.
Definition NumRows (this : t) : Z := to_uint32 (num_rows_ this).

Definition FieldIndex (this : t) (nm : cstr) : Z :=
  match fields_ this, nm with
  | Some fields, Some n =>
      MariaQuery.FieldIndex_from fields n 0 (Z.to_nat (num_cols_ this))
  | _, _ => -1
  end.

Definition FieldValue (this : t) (col : Z) : cstr :=
  match row_ this with
  | Some row =>
      if (col <? 0) || (num_cols_ this <=? col) then None
      else MariaQuery.row_at row col
  | None => None
  end.

Definition FieldIsNull (this : t) (col : Z) : bool :=
  match row_ this with
  | Some row =>
      if (col <? 0) || (num_cols_ this <=? col) then true
      else match MariaQuery.row_at row col with
           | Some _ => false
           | None => true
           end
  | None => true
  end.

Definition Eof (this : t) : bool := num_rows_ this <=? current_row_ this.

Definition NextRow (this : t) (w : World) : t * World :=
  match res_ this with
  | None => (this, w)
  | Some h =>
      if num_rows_ this <=? current_row_ this then (this, w)
      else
        let cur := to_uint64 (current_row_ this + 1) in
        if cur <? num_rows_ this then
          let '(row, w1) := mysql_fetch_row w h in
          ({| res_ := res_ this; row_ := row; fields_ := fields_ this;
              num_rows_ := num_rows_ this; num_cols_ := num_cols_ this;
              current_row_ := cur |}, w1)
        else
          ({| res_ := res_ this; row_ := None; fields_ := fields_ this;
              num_rows_ := num_rows_ this; num_cols_ := num_cols_ this;
              current_row_ := cur |}, w)
  end.

(** [void SeekRow(uint32_t row)]. *)
Definition SeekRow (this : t) (row : Z) (w : World) : t * World :=
  match res_ this with
  | None => (this, w)
  | Some h =>
      if num_rows_ this =? 0 then (this, w)
      else
        let target := if num_rows_ this <=? row
                      then num_rows_ this - 1 else row in
        let w1 := mysql_data_seek w h target in
        let '(fetched, w2) := mysql_fetch_row w1 h in
        ({| res_ := res_ this; row_ := fetched; fields_ := fields_ this;
            num_rows_ := num_rows_ this; num_cols_ := num_cols_ this;
            current_row_ := target |}, w2)
  end.

Definition CurrentRow (this : t) : Z := to_uint32 (current_row_ this).

Fixpoint NextRow_times (n : nat) (this : t) (w : World) : t * World :=
  match n with
  | O => (this, w)
  | S n' => let '(r, w1) := NextRow this w in NextRow_times n' r w1
  end.

Definition FieldName (this : t) (col : Z) : cstr :=
  match fields_ this with
  | Some fields =>
      if (col <? 0) || (num_cols_ this <=? col) then None
      else MariaQuery.field_name fields col
  | None => None
  end.

Definition FieldValue_name (this : t) (nm : cstr) : cstr :=
  let col := FieldIndex this nm in
  if 0 <=? col then FieldValue this col else None.

End MariaResultSet.

(* ===================================================================== *)
(** ** maria_statement.hpp *)
(* ===================================================================== *)

Module MariaStatement.
Import Cxx Mysql.

(** Where a bind descriptor's [buffer] points: nowhere, at a cell of one
    of the statement's three storage arrays, or at memory of the caller
    (whose content is recorded). *)
Inductive Buffer : Type :=
  | BufNull
  | BufIntCell (idx : Z)       (* &int_storage_[idx] *)
  | BufInt64Cell (idx : Z)     (* &int64_storage_[idx] *)
  | BufDoubleCell (idx : Z)    (* &double_storage_[idx] *)
  | BufText (s : string)
  | BufBytes (bytes : list Z).

(** The fields of [MYSQL_BIND] the wrapper writes. *)
Record MYSQL_BIND : Type := mkBind {
  buffer_type : Z;
  buffer : Buffer;
  buffer_length : Z;
  is_null_value : Z;
  is_unsigned : Z
}.

(** [memset(&bind, 0, sizeof(MYSQL_BIND))]. *)
Definition zero_bind : MYSQL_BIND :=
  {| buffer_type := 0; buffer := BufNull; buffer_length := 0;
     is_null_value := 0; is_unsigned := 0 |}.

(** The arrays made with [new[]] are owned by the object and held by
    value; [None] is the null pointer. *)
Record t : Type := mk {
  conn_ : option nat;
  stmt_ : option nat;
  binds_ : option (list MYSQL_BIND);
  int_storage_ : option (list Z);
  int64_storage_ : option (list Z);
  double_storage_ : option (list double);
  num_params_ : Z
}.

Definition default : t :=
  {| conn_ := None; stmt_ := None; binds_ := None; int_storage_ := None;
     int64_storage_ := None; double_storage_ := None; num_params_ := 0 |}.

(** The private constructor [MariaStatement(conn, stmt)]. *)
Definition ctor (w : World) (conn stmt : option nat) : t :=
  match stmt with
  | None =>
      {| conn_ := conn; stmt_ := None; binds_ := None; int_storage_ := None;
         int64_storage_ := None; double_storage_ := None; num_params_ := 0 |}
  | Some h =>
      let n := to_int32 (mysql_stmt_param_count w h) in
      if 0 <? n then
        {| conn_ := conn; stmt_ := stmt;
           binds_ := Some (replicate (Z.to_nat n) zero_bind);
           int_storage_ := Some (replicate (Z.to_nat n) 0);
           int64_storage_ := Some (replicate (Z.to_nat n) 0);
           double_storage_ := Some (replicate (Z.to_nat n) 0);
           num_params_ := n |}
      else
        {| conn_ := conn; stmt_ := stmt; binds_ := None;
           int_storage_ := None; int64_storage_ := None;
           double_storage_ := None; num_params_ := n |}
  end.

(** [MariaStatement(MariaStatement&& other)]: the member initializers
    name [conn_], [stmt_], [binds_] and [num_params_]; the three storage
    pointers of the new object take their default, and those of [other]
    are not touched. *)
Definition move_ctor (other : t) : t * t :=
  ({| conn_ := conn_ other; stmt_ := stmt_ other; binds_ := binds_ other;
      int_storage_ := None; int64_storage_ := None; double_storage_ := None;
      num_params_ := num_params_ other |},
   {| conn_ := None; stmt_ := None; binds_ := None;
      int_storage_ := int_storage_ other;
      int64_storage_ := int64_storage_ other;
      double_storage_ := double_storage_ other;
      num_params_ := 0 |}).

Definition Finalize (this : t) (w : World) : t * World :=
  ({| conn_ := conn_ this; stmt_ := None; binds_ := None;
      int_storage_ := None; int64_storage_ := None; double_storage_ := None;
      num_params_ := 0 |},
   match stmt_ this with
   | Some h => mysql_stmt_close w h
   | None => w
   end).

(** [operator=(MariaStatement&& other)] for [this != &other]. *)
Definition move_assign (this other : t) (w : World) : t * t * World :=
  let '(this1, w1) := Finalize this w in
  ({| conn_ := conn_ other; stmt_ := stmt_ other; binds_ := binds_ other;
      int_storage_ := int_storage_ this1;
      int64_storage_ := int64_storage_ this1;
      double_storage_ := double_storage_ this1;
      num_params_ := num_params_ other |},
   {| conn_ := None; stmt_ := None; binds_ := None;
      int_storage_ := int_storage_ other;
      int64_storage_ := int64_storage_ other;
      double_storage_ := double_storage_ other;
      num_params_ := 0 |},
   w1).

Definition Valid (this : t) : bool :=
  match stmt_ this with Some _ => true | None => false end.

(** [int32_t ExecDml(Error* out_error)]. *)
Definition ExecDml (this : t) (out_error : option Error.t) (w : World)
  : Z * t * option Error.t * World :=
  match stmt_ this with
  | None =>
      (-1, this,
       Error.set_out out_error Error.kMisuse
         (Some "Statement not initialized"%string), w)
  | Some h =>
      if (0 <? num_params_ this)
         && match binds_ this with Some _ => true | None => false end
         && negb (mysql_stmt_bind_param w h =? 0)
      then (-1, this,
            Error.set_out out_error Error.kError (mysql_stmt_error w h), w)
      else
        let '(rc, w1) := mysql_stmt_execute w h in
        if negb (rc =? 0)
        then (-1, this,
              Error.set_out out_error Error.kError (mysql_stmt_error w1 h),
              w1)
        else (to_int32 (mysql_stmt_affected_rows w1 h), this, out_error, w1)
  end.

(** [MariaQuery ExecQuery(Error* out_error)]. *)
Definition ExecQuery (this : t) (out_error : option Error.t) (w : World)
  : MariaQuery.t * t * option Error.t * World :=
  match stmt_ this, conn_ this with
  | Some h, Some _ =>
      if (0 <? num_params_ this)
         && match binds_ this with Some _ => true | None => false end
         && negb (mysql_stmt_bind_param w h =? 0)
      then (MariaQuery.default, this,
            Error.set_out out_error Error.kError (mysql_stmt_error w h), w)
      else
        let '(rc, w0) := mysql_stmt_execute w h in
        if negb (rc =? 0)
        then (MariaQuery.default, this,
              Error.set_out out_error Error.kError (mysql_stmt_error w0 h),
              w0)
        else
          (* Use metadata result set for column info *)
          let '(meta, w1) := mysql_stmt_result_metadata w0 h in
          match meta with
          | None =>
              (MariaQuery.default, this,
               Error.set_out out_error Error.kError
                 (Some "No result metadata"%string), w1)
          | Some m =>
              let w2 := mysql_free_result w1 m in
              (* Store all results *)
              let '(rc2, w3) := mysql_stmt_store_result w2 h in
              if negb (rc2 =? 0)
              then (MariaQuery.default, this,
                    Error.set_out out_error Error.kError
                      (mysql_stmt_error w3 h), w3)
              else
                let row_count := mysql_stmt_num_rows w3 h in
                let w4 := mysql_stmt_free_result w3 h in
                (MariaQuery.default, this,
                 Error.set_out out_error Error.kError
                   (Some "Prepared SELECT not yet supported, use Db::ExecQuery"%string),
                 w4)
          end
  | _, _ =>
      (MariaQuery.default, this,
       Error.set_out out_error Error.kMisuse
         (Some "Statement not initialized"%string), w)
  end.

Definition ValidParam (this : t) (idx : Z) : bool :=
  match stmt_ this, binds_ this with
  | Some _, Some _ => (0 <=? idx) && (idx <? num_params_ this)
  | _, _ => false
  end.

(** The outcome of a member function that writes through the object's
    array pointers: [Undefined] when it writes through a null pointer or
    outside the array. *)
Inductive Outcome (A : Type) : Type :=
  | Done (a : A)
  | Undefined.
Arguments Done {A} a.
Arguments Undefined {A}.

(** [arr[idx] = x]. *)
Definition store {A : Type} (arr : option (list A)) (idx : Z) (x : A)
  : Outcome (option (list A)) :=
  match arr with
  | Some cells =>
      if (0 <=? idx) && (idx <? Z.of_nat (length cells))
      then Done (Some (<[Z.to_nat idx := x]> cells))
      else Undefined
  | None => Undefined
  end.

Definition with_binds (this : t) (b : option (list MYSQL_BIND)) : t :=
  {| conn_ := conn_ this; stmt_ := stmt_ this; binds_ := b;
     int_storage_ := int_storage_ this;
     int64_storage_ := int64_storage_ this;
     double_storage_ := double_storage_ this;
     num_params_ := num_params_ this |}.

(** [memset(&binds_[idx], 0, ...)] followed by the assignments to the
    fields of [binds_[idx]]: the descriptor becomes [b]. *)
Definition set_bind (this : t) (idx : Z) (b : MYSQL_BIND) : Outcome t :=
  match store (binds_ this) idx b with
  | Done bs => Done (with_binds this bs)
  | Undefined => Undefined
  end.

(** An assignment to fields of [binds_[idx]]: the descriptor [b] there
    becomes [f b]. *)
Definition update_bind (this : t) (idx : Z) (f : MYSQL_BIND -> MYSQL_BIND)
  : Outcome t :=
  match binds_ this with
  | Some bs =>
      if idx <? 0 then Undefined
      else match bs !! Z.to_nat idx with
           | Some b => set_bind this idx (f b)
           | None => Undefined
           end
  | None => Undefined
  end.

Definition StoreInt32 (this : t) (idx : Z) (value : Z) : Outcome t :=
  match store (int_storage_ this) idx value with
  | Done cells =>
      update_bind
        {| conn_ := conn_ this; stmt_ := stmt_ this; binds_ := binds_ this;
           int_storage_ := cells; int64_storage_ := int64_storage_ this;
           double_storage_ := double_storage_ this;
           num_params_ := num_params_ this |}
        idx
        (fun b =>
           {| buffer_type := MYSQL_TYPE_LONG; buffer := BufIntCell idx;
              buffer_length := buffer_length b;
              is_null_value := is_null_value b; is_unsigned := 0 |})
  | Undefined => Undefined
  end.

Definition StoreInt64 (this : t) (idx : Z) (value : Z) : Outcome t :=
  match store (int64_storage_ this) idx value with
  | Done cells =>
      update_bind
        {| conn_ := conn_ this; stmt_ := stmt_ this; binds_ := binds_ this;
           int_storage_ := int_storage_ this; int64_storage_ := cells;
           double_storage_ := double_storage_ this;
           num_params_ := num_params_ this |}
        idx
        (fun b =>
           {| buffer_type := MYSQL_TYPE_LONGLONG; buffer := BufInt64Cell idx;
              buffer_length := buffer_length b;
              is_null_value := is_null_value b; is_unsigned := 0 |})
  | Undefined => Undefined
  end.

Definition StoreDouble (this : t) (idx : Z) (value : double) : Outcome t :=
  match store (double_storage_ this) idx value with
  | Done cells =>
      update_bind
        {| conn_ := conn_ this; stmt_ := stmt_ this; binds_ := binds_ this;
           int_storage_ := int_storage_ this;
           int64_storage_ := int64_storage_ this;
           double_storage_ := cells;
           num_params_ := num_params_ this |}
        idx
        (fun b =>
           {| buffer_type := MYSQL_TYPE_DOUBLE; buffer := BufDoubleCell idx;
              buffer_length := buffer_length b;
              is_null_value := is_null_value b;
              is_unsigned := is_unsigned b |})
  | Undefined => Undefined
  end.

Definition out_of_range : Error.t :=
  Error.Make Error.kRange (Some "param out of range"%string).

(** [Error Bind(int32_t param, const char* value)]: the returned error
    and the statement. *)
Definition Bind_text (this : t) (param : Z) (value : cstr)
  : Outcome (Error.t * t) :=
  let idx := to_int32 (param - 1) in
  if negb (ValidParam this idx) then Done (out_of_range, this)
  else
    match set_bind this idx
            {| buffer_type := MYSQL_TYPE_STRING;
               buffer := match value with
                         | Some s => BufText s
                         | None => BufNull
                         end;
               buffer_length := match value with
                                | Some s => Z.of_nat (String.length s)
                                | None => 0
                                end;
               is_null_value := match value with
                                | Some _ => 0
                                | None => 1
                                end;
               is_unsigned := 0 |} with
    | Done s => Done (Error.Ok, s)
    | Undefined => Undefined
    end.

Definition Bind_int32 (this : t) (param : Z) (value : Z)
  : Outcome (Error.t * t) :=
  let idx := to_int32 (param - 1) in
  if negb (ValidParam this idx) then Done (out_of_range, this)
  else
    match set_bind this idx zero_bind with
    | Done s1 =>
        match StoreInt32 s1 idx value with
        | Done s2 => Done (Error.Ok, s2)
        | Undefined => Undefined
        end
    | Undefined => Undefined
    end.

Definition Bind_int64 (this : t) (param : Z) (value : Z)
  : Outcome (Error.t * t) :=
  let idx := to_int32 (param - 1) in
  if negb (ValidParam this idx) then Done (out_of_range, this)
  else
    match set_bind this idx zero_bind with
    | Done s1 =>
        match StoreInt64 s1 idx value with
        | Done s2 => Done (Error.Ok, s2)
        | Undefined => Undefined
        end
    | Undefined => Undefined
    end.

Definition Bind_double (this : t) (param : Z) (value : double)
  : Outcome (Error.t * t) :=
  let idx := to_int32 (param - 1) in
  if negb (ValidParam this idx) then Done (out_of_range, this)
  else
    match set_bind this idx zero_bind with
    | Done s1 =>
        match StoreDouble s1 idx value with
        | Done s2 => Done (Error.Ok, s2)
        | Undefined => Undefined
        end
    | Undefined => Undefined
    end.

Definition Bind_blob (this : t) (param : Z) (blob : option (list Z))
    (len : Z) : Outcome (Error.t * t) :=
  let idx := to_int32 (param - 1) in
  if negb (ValidParam this idx) then Done (out_of_range, this)
  else
    match set_bind this idx
            {| buffer_type := MYSQL_TYPE_BLOB;
               buffer := match blob with
                         | Some bytes => BufBytes bytes
                         | None => BufNull
                         end;
               buffer_length := to_uint64 len;
               is_null_value := 0; is_unsigned := 0 |} with
    | Done s => Done (Error.Ok, s)
    | Undefined => Undefined
    end.

Definition BindNull (this : t) (param : Z) : Outcome (Error.t * t) :=
  let idx := to_int32 (param - 1) in
  if negb (ValidParam this idx) then Done (out_of_range, this)
  else
    match set_bind this idx
            {| buffer_type := MYSQL_TYPE_NULL; buffer := BufNull;
               buffer_length := 0; is_null_value := 0;
               is_unsigned := 0 |} with
    | Done s => Done (Error.Ok, s)
    | Undefined => Undefined
    end.

(** [memset(binds_, 0, num_params_ * sizeof(MYSQL_BIND))]: the first
    [n] descriptors are zeroed. *)
Definition zero_binds (n : nat) (bs : list MYSQL_BIND) : list MYSQL_BIND :=
  replicate (length (take n bs)) zero_bind ++ drop n bs.

Definition Reset (this : t) (w : World) : Error.t * t * World :=
  match stmt_ this with
  | None =>
      (Error.Make Error.kMisuse (Some "Statement not initialized"%string),
       this, w)
  | Some h =>
      let '(rc, w1) := mysql_stmt_reset w h in
      if negb (rc =? 0)
      then (Error.Make Error.kError (mysql_stmt_error w1 h), this, w1)
      else
        (* Clear bind buffers *)
        (Error.Ok,
         match binds_ this with
         | Some bs =>
             with_binds this
               (Some (zero_binds (Z.to_nat (to_uint32 (num_params_ this))) bs))
         | None => this
         end,
         w1)
  end.

End MariaStatement.

(* ===================================================================== *)
(** ** maria_db.hpp *)
(* ===================================================================== *)

Module MariaDb.
Import Cxx Mysql.

Record t : Type := mk {
  conn_ : option nat;
  in_transaction_ : bool
}.

Definition default : t := {| conn_ := None; in_transaction_ := false |}.

Definition move_ctor (other : t) : t * t :=
  ({| conn_ := conn_ other; in_transaction_ := in_transaction_ other |},
   {| conn_ := None; in_transaction_ := false |}).

Definition Close (this : t) (w : World) : t * World :=
  ({| conn_ := None; in_transaction_ := false |},
   match conn_ this with
   | Some c => mysql_close w c
   | None => w
   end).

Definition move_assign (this other : t) (w : World) : t * t * World :=
  let '(_, w1) := Close this w in
  ({| conn_ := conn_ other; in_transaction_ := in_transaction_ other |},
   {| conn_ := None; in_transaction_ := false |},
   w1).

Definition IsOpen (this : t) : bool :=
  match conn_ this with Some _ => true | None => false end.

(** [MariaQuery ExecQuery(const char* sql, Error* out_error)]. *)
Definition ExecQuery (this : t) (sql : cstr) (out_error : option Error.t)
    (w : World) : MariaQuery.t * option Error.t * World :=
  match conn_ this with
  | None =>
      (MariaQuery.default,
       Error.set_out out_error Error.kNotOpen
         (Some "Database not open"%string), w)
  | Some c =>
      match sql with
      | None =>
          (MariaQuery.default,
           Error.set_out out_error Error.kNullParam
             (Some "sql is null"%string), w)
      | Some text =>
          let '(rc, w1) := mysql_query w c text in
          if negb (rc =? 0) then
            (MariaQuery.default,
             Error.set_out out_error Error.kError (mysql_error w1 c), w1)
          else
            let '(res, w2) := mysql_store_result w1 c in
            match res with
            | None =>
                (* Could be a non-SELECT or an error *)
                (MariaQuery.default,
                 if 0 <? mysql_field_count w2 c
                 then Error.set_out out_error Error.kError (mysql_error w2 c)
                 else out_error,
                 w2)
            | Some h =>
                let eof := mysql_num_rows w2 h =? 0 in
                let '(q, w3) := MariaQuery.ctor w2 res eof in
                (q, out_error, w3)
            end
      end
  end.

(** [int32_t ExecScalar(sql, null_value, out_error)]; the local cursor is
    finalized when the function returns. *)
Definition ExecScalar (this : t) (sql : cstr) (null_value : Z)
    (out_error : option Error.t) (w : World) : Z * option Error.t * World :=
  let '(q, out1, w1) := ExecQuery this sql out_error w in
  let w2 := snd (MariaQuery.Finalize q w1) in
  if MariaQuery.Eof q || (MariaQuery.NumFields q <? 1)
  then (null_value, out1, w2)
  else (MariaQuery.GetInt q 0 null_value, out1, w2).

(** [MariaStatement CompileStatement(sql, out_error)]. *)
Definition CompileStatement (this : t) (sql : cstr)
    (out_error : option Error.t) (w : World)
  : MariaStatement.t * option Error.t * World :=
  match conn_ this with
  | None =>
      (MariaStatement.default,
       Error.set_out out_error Error.kNotOpen
         (Some "Database not open"%string), w)
  | Some c =>
      match sql with
      | None =>
          (MariaStatement.default,
           Error.set_out out_error Error.kNullParam
             (Some "sql is null"%string), w)
      | Some text =>
          match mysql_stmt_init w c with
          | None =>
              (MariaStatement.default,
               Error.set_out out_error Error.kError
                 (Some "mysql_stmt_init failed"%string), w)
          | Some h =>
              let '(rc, w1) := mysql_stmt_prepare w c h text in
              if negb (rc =? 0) then
                (MariaStatement.default,
                 Error.set_out out_error Error.kError (mysql_stmt_error w1 h),
                 mysql_stmt_close w1 h)
              else (MariaStatement.ctor w1 (conn_ this) (Some h), out_error, w1)
          end
      end
  end.

(** The expansion of the format of [TableExists] over [table]. *)
Definition TableExists_format (table : string) : string :=
  "SELECT COUNT(*) FROM information_schema.tables WHERE table_schema = DATABASE() AND table_name = '"
    +:+ table +:+ "'".

(** The text [TableExists] formats into its [char sql[256]]. *)
Definition TableExists_sql (table : string) : string :=
  snprintf_str 256 (TableExists_format table).

(** [bool TableExists(const char* table)]. *)
Definition TableExists (this : t) (table : cstr) (w : World) : bool * World :=
  match conn_ this, table with
  | Some _, Some nm =>
      let '(n, _, w1) :=
        ExecScalar this (Some (TableExists_sql nm)) 0 None w in
      (0 <? n, w1)
  | _, _ => (false, w)
  end.

(** [int32_t ExecDml(const char* sql, Error* out_error)]. *)
Definition ExecDml (this : t) (sql : cstr) (out_error : option Error.t)
    (w : World) : Z * option Error.t * World :=
  match conn_ this with
  | None =>
      (-1,
       Error.set_out out_error Error.kNotOpen
         (Some "Database not open"%string), w)
  | Some c =>
      match sql with
      | None =>
          (-1,
           Error.set_out out_error Error.kNullParam
             (Some "sql is null"%string), w)
      | Some text =>
          let '(rc, w1) := mysql_query w c text in
          if negb (rc =? 0) then
            (-1, Error.set_out out_error Error.kError (mysql_error w1 c), w1)
          else
            let affected := to_int64 (mysql_affected_rows w1 c) in
            (to_int32 affected, out_error, w1)
      end
  end.

(** [MariaResultSet GetResultSet(const char* sql, Error* out_error)]. *)
Definition GetResultSet (this : t) (sql : cstr) (out_error : option Error.t)
    (w : World) : MariaResultSet.t * option Error.t * World :=
  match conn_ this with
  | None =>
      (MariaResultSet.default,
       Error.set_out out_error Error.kNotOpen
         (Some "Database not open"%string), w)
  | Some c =>
      match sql with
      | None =>
          (MariaResultSet.default,
           Error.set_out out_error Error.kNullParam
             (Some "sql is null"%string), w)
      | Some text =>
          let '(rc, w1) := mysql_query w c text in
          if negb (rc =? 0) then
            (MariaResultSet.default,
             Error.set_out out_error Error.kError (mysql_error w1 c), w1)
          else
            let '(res, w2) := mysql_store_result w1 c in
            match res with
            | None =>
                (MariaResultSet.default,
                 if 0 <? mysql_field_count w2 c
                 then Error.set_out out_error Error.kError (mysql_error w2 c)
                 else out_error,
                 w2)
            | Some _ =>
                let '(rs, w3) := MariaResultSet.ctor w2 res in
                (rs, out_error, w3)
            end
      end
  end.

(** [Error BeginTransaction()]: the returned error, the object and the
    engine state. *)
Definition BeginTransaction (this : t) (w : World) : Error.t * t * World :=
  let '(_, out, w1) :=
    ExecDml this (Some "START TRANSACTION;"%string) (Some Error.default) w in
  let err := from_option id Error.default out in
  (err,
   if Error.ok err then {| conn_ := conn_ this; in_transaction_ := true |}
   else this,
   w1).

Definition Commit (this : t) (w : World) : Error.t * t * World :=
  let '(_, out, w1) :=
    ExecDml this (Some "COMMIT;"%string) (Some Error.default) w in
  (from_option id Error.default out,
   {| conn_ := conn_ this; in_transaction_ := false |}, w1).

Definition Rollback (this : t) (w : World) : Error.t * t * World :=
  let '(_, out, w1) :=
    ExecDml this (Some "ROLLBACK;"%string) (Some Error.default) w in
  (from_option id Error.default out,
   {| conn_ := conn_ this; in_transaction_ := false |}, w1).

Definition InTransaction (this : t) : bool := in_transaction_ this.

(** The parsing of the DSN in [Open].  [buf] is the [char buf[512]] the
    DSN is copied into. *)
Definition Open_buf (dsn : string) : list ascii :=
  <[511%nat := NUL]> (strncpy (replicate 512 NUL) dsn 511).

(** The loop of [Open]: [p] is the offset of the scanning pointer in
    [buf], [parts] the offsets of the parts found so far (as many as
    [count]).  Each round reads [*p]; the buffer ends in a NUL, so 512
    rounds are enough. *)
Fixpoint Open_scan (rounds : nat) (buf : list ascii) (parts : list nat)
    (p : nat) : list ascii * list nat :=
  match rounds with
  | O => (buf, parts)
  | S rounds' =>
      match buf !! p with
      | Some c =>
          if negb (Ascii.eqb c NUL) && (Z.of_nat (length parts) <? 5) then
            if Ascii.eqb c ":"%char
            then Open_scan rounds' (<[p := NUL]> buf) (parts ++ [S p]) (S p)
            else Open_scan rounds' buf parts (S p)
          else (buf, parts)
      | None => (buf, parts)
      end
  end.

(** The C strings [parts[0]], ..., [parts[count - 1]] when the loop is
    over. *)
Definition Open_parts (dsn : string) : list (list ascii) :=
  let '(buf, parts) := Open_scan 512 (Open_buf dsn) [0%nat] 0 in
  (fun off => c_str (drop off buf)) <$> parts.

(** [count >= i + 1 && parts[i][0] != '\0']: the part, when it is there
    and not empty. *)
Definition Open_part (parts : list (list ascii)) (i : nat) : option string :=
  match parts !! i with
  | Some (c :: rest) => Some (String.string_of_list_ascii (c :: rest))
  | _ => None
  end.

(** What [Open] hands to [mysql_real_connect]. *)
Record Dsn : Type := mkDsn {
  dsn_host : string;
  dsn_port : Z;              (* uint16_t *)
  dsn_user : string;
  dsn_password : cstr;
  dsn_database : cstr
}.

Definition Open_dsn (dsn : string) : Dsn :=
  let parts := Open_parts dsn in
  {| dsn_host := from_option id "localhost"%string (Open_part parts 0);
     dsn_port := match Open_part parts 1 with
                 | Some text => to_uint16 (strtoul text)
                 | None => 3306
                 end;
     dsn_user := from_option id "root"%string (Open_part parts 2);
     dsn_password := Open_part parts 3;
     dsn_database := Open_part parts 4 |}.

(** [Error Open(const char* dsn)]. *)
Definition Open (network : Dsn -> Connect) (this : t) (dsn : cstr)
    (w : World) : Error.t * t * World :=
  match dsn with
  | None => (Error.Make Error.kNullParam (Some "dsn is null"%string), this, w)
  | Some text =>
      let '(_, w1) := Close this w in
      match network (Open_dsn text) with
      | InitFailed =>
          (Error.Make Error.kError (Some "mysql_init failed"%string),
           {| conn_ := None; in_transaction_ := false |}, w1)
      | Refused msg =>
          (Error.Make Error.kError (Some msg),
           {| conn_ := None; in_transaction_ := false |}, w1)
      | Accepted x =>
          (Error.Ok,
           {| conn_ := Some (next_handle w1); in_transaction_ := false |},
           {| conns := <[next_handle w1 := x]> (conns w1);
              results := results w1; pstmts := pstmts w1;
              next_handle := S (next_handle w1) |})
      end
  end.

End MariaDb.

(* ===================================================================== *)
(** ** Vocabulary of the statements proved below *)
(* ===================================================================== *)

Module Spec.
Import Cxx.

(** [e] holds code [c] and, as a C string inside its 256-byte buffer,
    the text [s]: the buffer keeps its size, [s] is shorter than the
    buffer, and the byte after [s] is the terminating NUL. *)
Definition holds_message (e : Error.t) (c : Error.ErrorCode)
    (s : list ascii) : Prop :=
  Error.code e = c /\
  length (Error.message e) = Error.kMaxMessageLen /\
  Error.text e = s /\
  (length s < Error.kMaxMessageLen)%nat /\
  Error.message e !! length s = Some NUL.

(** Column [col] of a SQLite cursor has no value to read: the position
    is out of range, or the cursor is empty, or the engine reports the
    current cell as NULL. *)
Definition sqlite_no_value (q : Sqlite3Query.t) (w : Sqlite.World) (col : Z)
  : Prop :=
  col < 0 \/ Sqlite3Query.num_fields_ q <= col \/
  match Sqlite3Query.stmt_ q with
  | Some h => Sqlite.sqlite3_column_type w h col = Sqlite.SQLITE_NULL
  | None => True
  end.

(** No column of a SQLite cursor is called [name]. *)
Definition sqlite_no_column (q : Sqlite3Query.t) (w : Sqlite.World)
    (name : cstr) : Prop :=
  match Sqlite3Query.stmt_ q, name with
  | Some h, Some nm =>
      forall i, 0 <= i < Sqlite3Query.num_fields_ q ->
                Sqlite.sqlite3_column_name w h i <> Some nm
  | _, _ => True
  end.

(** The same for a MariaDB cursor. *)
Definition maria_no_value (q : MariaQuery.t) (col : Z) : Prop :=
  col < 0 \/ MariaQuery.num_fields_ q <= col \/
  match MariaQuery.row_ q with
  | Some row => MariaQuery.row_at row col = None
  | None => True
  end.

Definition maria_no_column (q : MariaQuery.t) (name : cstr) : Prop :=
  match MariaQuery.fields_ q, name with
  | Some fields, Some nm =>
      forall i, 0 <= i < MariaQuery.num_fields_ q ->
                MariaQuery.field_name fields i <> Some nm
  | _, _ => True
  end.

(** The scalar a SQLite connection yields for [sql], read off the
    engine's answer: the [int] value of the first column of the first
    row when the text compiles, has a column and that cell is not NULL;
    the default otherwise. *)
Definition sqlite_scalar (c : Sqlite.Conn) (sql : string) (null_value : Z)
  : Z :=
  match Sqlite.conn_prepare c sql with
  | Sqlite.Prepared p =>
      match Sqlite.prog_run p with
      | Sqlite.Row cells :: _ =>
          if Z.of_nat (length (Sqlite.prog_columns p)) <? 1 then null_value
          else match cells !! 0%nat with
               | Some x =>
                   if Sqlite.col_type x =? Sqlite.SQLITE_NULL then null_value
                   else Sqlite.col_int x
               | None => null_value
               end
      | _ => null_value
      end
  | Sqlite.Rejected _ => null_value
  end.

(** The scalar a MariaDB connection yields for [sql]. *)
Definition maria_scalar (x : Mysql.Conn) (sql : string) (null_value : Z) : Z :=
  match Mysql.conn_answer x sql with
  | Mysql.ResultSet fields (row :: _) =>
      if to_int32 (Z.of_nat (length fields)) <? 1 then null_value
      else match MariaQuery.row_at row 0 with
           | Some s => to_int32 (Mysql.strtol s)
           | None => null_value
           end
  | _ => null_value
  end.

(** How an SQL engine reads a string literal whose opening quote it has
    just consumed: up to the closing quote, a doubled quote standing for
    one quote character. *)
Fixpoint sql_literal (s : list ascii) : list ascii :=
  match s with
  | [] => []
  | c :: rest =>
      if Ascii.eqb c "'"%char then
        match rest with
        | c2 :: rest2 =>
            if Ascii.eqb c2 "'"%char then c :: sql_literal rest2 else []
        | [] => []
        end
      else c :: sql_literal rest
  end.

(** The table name the engine reads in the text [sql], whose literal
    starts after the first [prefix] characters. *)
Definition queried_name (prefix : nat) (sql : string) : list ascii :=
  sql_literal (drop prefix (String.list_ascii_of_string sql)).

(** The engine after [sqlite3_prepare_v2] compiled [p] on connection [d]:
    a fresh statement under the next handle. *)
Definition prepared_world (w : Sqlite.World) (d : nat) (p : Sqlite.Program)
  : Sqlite.World :=
  {| Sqlite.conns := Sqlite.conns w;
     Sqlite.stmts :=
       <[Sqlite.next_handle w :=
           {| Sqlite.stmt_conn := d;
              Sqlite.stmt_prog := p;
              Sqlite.stmt_vars :=
                replicate (Z.to_nat (Sqlite.prog_nvar p)) Sqlite.VNull;
              Sqlite.stmt_state := Sqlite.Ready;
              Sqlite.stmt_todo := Sqlite.prog_run p;
              Sqlite.stmt_row := None;
              Sqlite.stmt_rc := Sqlite.SQLITE_OK |}]> (Sqlite.stmts w);
     Sqlite.next_handle := S (Sqlite.next_handle w) |}.

(** The [char**] table [Sqlite3ResultSet] indexes with [RealIndex]: the
    column names, then the cells row by row. *)
Definition table_of (headers : list Cxx.cstr) (rows : list (list Cxx.cstr))
  : list Cxx.cstr :=
  headers ++ concat rows.

(** The cursor [ExecQuery] returns for [sql], and the engine state,
    after [k] calls of [NextRow]. *)
Definition sqlite_cursor_after (this : Sqlite3Db.t) (sql : string)
    (out : option Error.t) (w : Sqlite.World) (k : nat)
  : Sqlite3Query.t * Sqlite.World :=
  Sqlite3Query.NextRow_times k
    (Sqlite3Db.ExecQuery this (Some sql) out w).1.1
    (Sqlite3Db.ExecQuery this (Some sql) out w).2.

Definition maria_cursor_after (this : MariaDb.t) (sql : string)
    (out : option Error.t) (w : Mysql.World) (k : nat)
  : MariaQuery.t * Mysql.World :=
  MariaQuery.NextRow_times k
    (MariaDb.ExecQuery this (Some sql) out w).1.1
    (MariaDb.ExecQuery this (Some sql) out w).2.


Definition maria_result_set_after (this : MariaDb.t) (sql : string)
    (out : option Error.t) (w : Mysql.World) (k : nat)
  : MariaResultSet.t * Mysql.World :=
  MariaResultSet.NextRow_times k
    (MariaDb.GetResultSet this (Some sql) out w).1.1
    (MariaDb.GetResultSet this (Some sql) out w).2.

(** The DSN text of a list of fields: the fields with a colon between
    them. *)
Fixpoint join_fields (fs : list (list ascii)) : list ascii :=
  match fs with
  | [] => []
  | [f] => f
  | f :: rest => f ++ ":"%char :: join_fields rest
  end.

End Spec.

(* ===================================================================== *)
(** ** Concrete engines and objects the statements are evaluated on *)
(* ===================================================================== *)

Module Examples.
Import Cxx.

(** An integer cell of a SQLite row. *)
Definition int_cell (n : Z) (text : string) : Sqlite.Cell :=
  {| Sqlite.col_type := Sqlite.SQLITE_INTEGER; Sqlite.col_int := n;
     Sqlite.col_int64 := n; Sqlite.col_double := 0;
     Sqlite.col_text := Some text |}.

Definition null_cell : Sqlite.Cell :=
  {| Sqlite.col_type := Sqlite.SQLITE_NULL; Sqlite.col_int := 0;
     Sqlite.col_int64 := 0; Sqlite.col_double := 0;
     Sqlite.col_text := None |}.

(** [SELECT id, name FROM emp WHERE id > ?]: one parameter, two columns,
    two rows, the second with a NULL name. *)
Definition select_program : Sqlite.Program :=
  {| Sqlite.prog_nvar := 1;
     Sqlite.prog_columns := [Some "id"; Some "name"]%string;
     Sqlite.prog_run :=
       [Sqlite.Row [int_cell 1 "1"; int_cell 0 "Alice"];
        Sqlite.Row [int_cell 2 "2"; null_cell]];
     Sqlite.prog_changes := None |}.

(** A count query answering 1. *)
Definition count_program : Sqlite.Program :=
  {| Sqlite.prog_nvar := 0;
     Sqlite.prog_columns := [Some "count(*)"]%string;
     Sqlite.prog_run := [Sqlite.Row [int_cell 1 "1"]];
     Sqlite.prog_changes := None |}.

(** A SQLite connection that compiles every text starting with
    [SELECT count] to [count_program] and every other one to
    [select_program], and takes every text for one statement. *)
Definition sqlite_conn : Sqlite.Conn :=
  {| Sqlite.conn_errmsg := EmptyString; Sqlite.conn_changes := 0;
     Sqlite.conn_prepare := fun sql =>
       if String.prefix "SELECT count" sql
       then Sqlite.Prepared count_program
       else Sqlite.Prepared select_program;
     Sqlite.conn_statements := fun sql => [sql] |}.

(** One open connection (handle 0), no statement. *)
Definition sqlite_world : Sqlite.World :=
  {| Sqlite.conns := {[ 0%nat := sqlite_conn ]}; Sqlite.stmts := ∅;
     Sqlite.next_handle := 1 |}.

Definition sqlite_db : Sqlite3Db.t := {| Sqlite3Db.db_ := Some 0%nat |}.

Definition select_sql : string := "SELECT id, name FROM emp WHERE id > ?".

(** The statement [CompileStatement] makes of [select_sql], and the
    engine after it. *)
Definition sqlite_stmt : Sqlite3Statement.t :=
  (Sqlite3Db.CompileStatement sqlite_db (Some select_sql) None sqlite_world).1.1.
Definition sqlite_world1 : Sqlite.World :=
  (Sqlite3Db.CompileStatement sqlite_db (Some select_sql) None sqlite_world).2.

(** The cursor [ExecQuery] makes of [select_sql], and the engine after
    it. *)
Definition sqlite_query : Sqlite3Query.t :=
  (Sqlite3Db.ExecQuery sqlite_db (Some select_sql) None sqlite_world).1.1.
Definition sqlite_world2 : Sqlite.World :=
  (Sqlite3Db.ExecQuery sqlite_db (Some select_sql) None sqlite_world).2.

(** An empty materialized result set: no rows, no columns. *)
Definition empty_result_set : Sqlite3ResultSet.t :=
  Sqlite3ResultSet.ctor (Some []) 0 0.

(** Three rows of two columns, as text; the last name is NULL. *)
Definition emp_headers : list cstr :=
  [Some "empno"%string; Some "empname"%string].
Definition emp_rows : list (list cstr) :=
  [[Some "1"%string; Some "Alice"%string];
   [Some "2"%string; Some "Bob"%string];
   [Some "3"%string; None]].

(** The materialized result set of these rows on the embedded backend. *)
Definition emp_result_set : Sqlite3ResultSet.t :=
  Sqlite3ResultSet.ctor (Some (Spec.table_of emp_headers emp_rows)) 3 2.

(** A prepared [SELECT] with two parameters on the server: every native
    call on it succeeds. *)
Definition maria_select : Mysql.Stmt :=
  {| Mysql.ps_conn := 0; Mysql.ps_param_count := 2;
     Mysql.ps_bind_ok := true; Mysql.ps_execute_ok := true;
     Mysql.ps_metadata := Some [Mysql.mkField (Some "empno"%string)];
     Mysql.ps_store_ok := true; Mysql.ps_reset_ok := true;
     Mysql.ps_error := EmptyString; Mysql.ps_affected := 0;
     Mysql.ps_num_rows := 1; Mysql.ps_unread := false |}.

(** A server that answers every query with two rows of one column and
    prepares every text to [maria_select]. *)
Definition maria_conn : Mysql.Conn :=
  {| Mysql.conn_error := EmptyString;
     Mysql.conn_answer := fun _ =>
       Mysql.ResultSet [Mysql.mkField (Some "n"%string)]
         [[Some "1"%string]; [None]];
     Mysql.conn_prepare := fun _ => Some maria_select;
     Mysql.conn_pending := None; Mysql.conn_field_count := 0;
     Mysql.conn_affected := 0 |}.

Definition maria_world : Mysql.World :=
  {| Mysql.conns := {[ 0%nat := maria_conn ]}; Mysql.results := ∅;
     Mysql.pstmts := ∅; Mysql.next_handle := 1 |}.

Definition maria_db : MariaDb.t :=
  {| MariaDb.conn_ := Some 0%nat; MariaDb.in_transaction_ := false |}.

Definition maria_sql : string := "SELECT empno FROM emp WHERE empno > ? AND empno < ?".

(** The statement [CompileStatement] makes, and the engine after it. *)
Definition maria_stmt : MariaStatement.t :=
  (MariaDb.CompileStatement maria_db (Some maria_sql) None maria_world).1.1.
Definition maria_world1 : Mysql.World :=
  (MariaDb.CompileStatement maria_db (Some maria_sql) None maria_world).2.

(** The engine after an [ExecDml] of that statement: the execution
    leaves the result set of the [SELECT] open and unread. *)
Definition maria_world2 : Mysql.World :=
  (MariaStatement.ExecDml maria_stmt None maria_world1).2.

(** A prepared [SELECT] on a server that has gone away, live under
    handle 1: the execute and the reset fail. *)
Definition gone_select : Mysql.Stmt :=
  {| Mysql.ps_conn := 0; Mysql.ps_param_count := 0;
     Mysql.ps_bind_ok := true; Mysql.ps_execute_ok := false;
     Mysql.ps_metadata := Some [Mysql.mkField (Some "empno"%string)];
     Mysql.ps_store_ok := true; Mysql.ps_reset_ok := false;
     Mysql.ps_error := "MySQL server has gone away";
     Mysql.ps_affected := -1; Mysql.ps_num_rows := 0;
     Mysql.ps_unread := false |}.

Definition gone_world : Mysql.World :=
  {| Mysql.conns := {[ 0%nat := maria_conn ]}; Mysql.results := ∅;
     Mysql.pstmts := {[ 1%nat := gone_select ]}; Mysql.next_handle := 2 |}.

Definition gone_stmt : MariaStatement.t :=
  MariaStatement.ctor gone_world (Some 0%nat) (Some 1%nat).

(** The cursor [ExecQuery] makes on the connection. *)
Definition maria_query : MariaQuery.t :=
  (MariaDb.ExecQuery maria_db (Some maria_sql) None maria_world).1.1.

(** The same three rows stored on the client under handle 1, and the
    result set built on them. *)
Definition emp_world : Mysql.World :=
  {| Mysql.conns := {[ 0%nat := maria_conn ]};
     Mysql.results :=
       {[ 1%nat := {| Mysql.res_fields :=
                        [Mysql.mkField (Some "empno"%string);
                         Mysql.mkField (Some "empname"%string)];
                      Mysql.res_rows := emp_rows;
                      Mysql.res_next := 0;
                      Mysql.res_current := None |} ]};
     Mysql.pstmts := ∅; Mysql.next_handle := 2 |}.
Definition maria_result_set : MariaResultSet.t :=
  (MariaResultSet.ctor emp_world (Some 1%nat)).1.
Definition emp_world1 : Mysql.World :=
  (MariaResultSet.ctor emp_world (Some 1%nat)).2.

(** A table name with a quote in it. *)
Definition quoted_name : string := "emp' OR 'a'='a".

(** A format without conversions expands to itself. *)
Definition plain_format (fmt : string) (_ : unit) : list ascii :=
  String.list_ascii_of_string fmt.

(** An [INSERT] with two parameters: no column, no row, one row
    changed. *)
Definition insert_program : Sqlite.Program :=
  {| Sqlite.prog_nvar := 2; Sqlite.prog_columns := [];
     Sqlite.prog_run := []; Sqlite.prog_changes := Some 1 |}.

Definition insert_sql : string := "INSERT INTO emp VALUES(?, ?);".

(** A SQLite connection that compiles every text to [insert_program]
    and takes every text for one statement, open under handle 0. *)
Definition dml_conn : Sqlite.Conn :=
  {| Sqlite.conn_errmsg := EmptyString; Sqlite.conn_changes := 0;
     Sqlite.conn_prepare := fun _ => Sqlite.Prepared insert_program;
     Sqlite.conn_statements := fun sql => [sql] |}.

Definition dml_world : Sqlite.World :=
  {| Sqlite.conns := {[ 0%nat := dml_conn ]}; Sqlite.stmts := ∅;
     Sqlite.next_handle := 1 |}.

(** A server that answers every query with a result of one column and
    no row, connected under handle 0. *)
Definition empty_answer_conn : Mysql.Conn :=
  {| Mysql.conn_error := EmptyString;
     Mysql.conn_answer := fun _ =>
       Mysql.ResultSet [Mysql.mkField (Some "n"%string)] [];
     Mysql.conn_prepare := fun _ => None;
     Mysql.conn_pending := None; Mysql.conn_field_count := 0;
     Mysql.conn_affected := 0 |}.

Definition empty_answer_world : Mysql.World :=
  {| Mysql.conns := {[ 0%nat := empty_answer_conn ]}; Mysql.results := ∅;
     Mysql.pstmts := ∅; Mysql.next_handle := 1 |}.

(** The fields of the DSN [db.example.org:3307::s3cret:shop:eu]: no
    user, and a database name with a colon in it. *)
Definition dsn_fields : list (list ascii) :=
  String.list_ascii_of_string
    <$> ["db.example.org"; "3307"; ""; "s3cret"; "shop:eu"]%string.

(** An engine that opens every path, and a network on which every
    connection is accepted. *)
Definition every_file (_ : string) : Z * option Sqlite.Conn :=
  (Sqlite.SQLITE_OK, Some sqlite_conn).

Definition every_host (_ : MariaDb.Dsn) : Mysql.Connect :=
  Mysql.Accepted maria_conn.

End Examples.

(* ===================================================================== *)
(** * Proofs *)
(* ===================================================================== *)

(** ** C strings and the message buffer *)

Section MessageBuffer.
Import Cxx.

Lemma c_str_no_nul (buf : list ascii) : Forall (fun c => c <> NUL) (c_str buf).
Proof.
  induction buf as [|c rest IH]; simpl; [constructor|].
  destruct (Ascii.eqb c NUL) eqn:E; [constructor|].
  constructor; [|exact IH]. apply Ascii.eqb_neq. exact E.
Qed.

Lemma c_str_app_nul (body rest : list ascii) :
  Forall (fun c => c <> NUL) body -> c_str (body ++ NUL :: rest) = body.
Proof.
  induction 1 as [|c l Hc _ IH]; simpl.
  - reflexivity.
  - apply Ascii.eqb_neq in Hc. rewrite Hc, IH. reflexivity.
Qed.

Lemma c_str_length (buf : list ascii) : (length (c_str buf) <= length buf)%nat.
Proof.
  induction buf as [|c rest IH]; simpl; [lia|].
  destruct (Ascii.eqb c NUL); simpl; lia.
Qed.

Lemma c_str_app_prefix (body rest : list ascii) :
  c_str (body ++ NUL :: rest) = c_str body.
Proof.
  induction body as [|c l IH]; simpl; [reflexivity|].
  destruct (Ascii.eqb c NUL); [reflexivity|]. rewrite IH. reflexivity.
Qed.

(** The byte that follows the C string of [body ++ NUL :: rest] is a
    NUL. *)
Lemma c_str_terminator (body rest : list ascii) :
  (body ++ NUL :: rest) !! length (c_str body) = Some NUL.
Proof.
  induction body as [|x tl IH]; simpl; [reflexivity|].
  destruct (Ascii.eqb x NUL) eqn:E; simpl.
  - apply Ascii.eqb_eq in E. subst x. reflexivity.
  - exact IH.
Qed.

(** [strncpy] into the first [n] bytes of an [n + 1]-byte buffer,
    followed by the assignment of NUL to the last byte. *)
Lemma strncpy_terminated (dest : list ascii) (src : string) (n : nat) :
  length dest = S n ->
  <[n := NUL]> (strncpy dest src n)
  = take n (c_str (String.list_ascii_of_string src))
    ++ replicate
         (S n - length (take n (c_str (String.list_ascii_of_string src))))
         NUL.
Proof.
  intros Hlen. unfold strncpy.
  set (body := take n (c_str (String.list_ascii_of_string src))).
  assert (Hb : (length body <= n)%nat) by (subst body; rewrite length_take; lia).
  destruct (drop n dest) as [|x tl] eqn:Hd.
  { apply (f_equal length) in Hd. rewrite length_drop in Hd. simpl in Hd. lia. }
  assert (tl = []) as ->.
  { apply (f_equal length) in Hd. rewrite length_drop in Hd. simpl in Hd.
    destruct tl; [reflexivity | simpl in Hd; lia]. }
  rewrite app_assoc.
  rewrite insert_app_r_alt by (rewrite length_app, length_replicate; lia).
  rewrite length_app, length_replicate.
  replace (n - (length body + (n - length body)))%nat with 0%nat by lia.
  simpl. rewrite <- app_assoc. f_equal.
  replace (S n - length body)%nat with (S (n - length body)) by lia.
  rewrite replicate_S_end. reflexivity.
Qed.

Lemma Make_code (c : Error.ErrorCode) (msg : cstr) :
  Error.code (Error.Make c msg) = c.
Proof. unfold Error.Make, Error.Set_. destruct msg; reflexivity. Qed.

Lemma Set_code (e : Error.t) (c : Error.ErrorCode) (msg : cstr) :
  Error.code (Error.Set_ e c msg) = c.
Proof. unfold Error.Set_. destruct msg; reflexivity. Qed.

Lemma holds_empty_message (e : Error.t) (c : Error.ErrorCode) :
  length (Error.message e) = Error.kMaxMessageLen ->
  Spec.holds_message
    {| Error.code := c; Error.message := <[0%nat := NUL]> (Error.message e) |}
    c [].
Proof.
  intros Hlen. unfold Spec.holds_message, Error.text. simpl.
  destruct (Error.message e) as [|x tl] eqn:Hm; [discriminate Hlen|].
  simpl. repeat split; try reflexivity; try assumption.
  unfold Error.kMaxMessageLen. lia.
Qed.

Lemma Set_holds_message (e : Error.t) (c : Error.ErrorCode) (m : string) :
  length (Error.message e) = Error.kMaxMessageLen ->
  Spec.holds_message (Error.Set_ e c (Some m)) c
    (take 255 (c_str (String.list_ascii_of_string m))).
Proof.
  intros Hlen. unfold Spec.holds_message, Error.text, Error.Set_.
  simpl Error.code. simpl Error.message.
  change (Error.kMaxMessageLen - 1)%nat with 255%nat.
  rewrite strncpy_terminated by exact Hlen.
  set (body := take 255 (c_str (String.list_ascii_of_string m))).
  assert (Hb : (length body <= 255)%nat) by (subst body; rewrite length_take; lia).
  assert (Hn : Forall (fun c => c <> NUL) body).
  { subst body. apply Forall_take, c_str_no_nul. }
  replace (256 - length body)%nat with (S (255 - length body)) by lia.
  simpl replicate.
  split; [reflexivity|]. split.
  { rewrite length_app. simpl. rewrite length_replicate.
    unfold Error.kMaxMessageLen. lia. }
  split; [apply c_str_app_nul; exact Hn|].
  split; [unfold Error.kMaxMessageLen; lia|].
  rewrite lookup_app_r by lia.
  replace (length body - length body)%nat with 0%nat by lia.
  reflexivity.
Qed.

Lemma SetFormat_holds_message {Args : Type}
    (vformat : string -> Args -> list ascii)
    (e : Error.t) (c : Error.ErrorCode) (f : string) (ap : Args) :
  length (Error.message e) = Error.kMaxMessageLen ->
  Spec.holds_message (Error.SetFormat vformat e c (Some f) ap) c
    (c_str (take 255 (vformat f ap))).
Proof.
  intros Hlen. unfold Spec.holds_message, Error.text, Error.SetFormat.
  simpl Error.code. simpl Error.message.
  unfold vsnprintf, Error.kMaxMessageLen.
  set (body := take 255 (vformat f ap)).
  assert (Hb : (length body <= 255)%nat) by (subst body; rewrite length_take; lia).
  split; [reflexivity|]. split.
  { rewrite length_app. simpl. rewrite length_drop, Hlen.
    unfold Error.kMaxMessageLen. lia. }
  split; [apply c_str_app_prefix|].
  pose proof (c_str_length body) as Hc.
  split; [lia|]. apply c_str_terminator.
Qed.

End MessageBuffer.

(** ** The SQLite engine *)

Section SqliteEngine.
Import Cxx Sqlite.

Lemma stmts_put_stmt w h s : stmts (put_stmt w h s) !! h = Some s.
Proof. unfold put_stmt; simpl. apply lookup_insert_eq. Qed.

Lemma stmts_set_changes w d n : stmts (set_changes w d n) = stmts w.
Proof. unfold set_changes. destruct (conns w !! d), n; reflexivity. Qed.

Lemma stmts_set_errmsg w d m : stmts (set_errmsg w d m) = stmts w.
Proof. unfold set_errmsg. destruct (conns w !! d); reflexivity. Qed.

(** Stepping a statement that is not halted and has a row left. *)
Lemma step_row w h s cells rest :
  stmts w !! h = Some s -> stmt_state s <> Halted ->
  stmt_todo s = Row cells :: rest ->
  exists s', sqlite3_step w h = (SQLITE_ROW, put_stmt w h s') /\
             stmt_state s' = Running /\ stmt_todo s' = rest /\
             stmt_row s' = Some cells /\ stmt_prog s' = stmt_prog s /\
             stmt_vars s' = stmt_vars s.
Proof.
  intros Hs Hst Htodo. unfold sqlite3_step. rewrite Hs.
  destruct (stmt_state s) eqn:E; try congruence; rewrite Htodo;
    eexists; (split; [reflexivity|]); simpl; auto.
Qed.

(** Stepping a statement that is not halted and has nothing left. *)
Lemma step_done w h s :
  stmts w !! h = Some s -> stmt_state s <> Halted -> stmt_todo s = [] ->
  exists w', sqlite3_step w h = (SQLITE_DONE, w').
Proof.
  intros Hs Hst Htodo. unfold sqlite3_step. rewrite Hs.
  destruct (stmt_state s) eqn:E; try congruence; rewrite Htodo;
    eexists; reflexivity.
Qed.

(** A step leaves the statement live, with its program and bindings. *)
Lemma step_keeps w h s :
  stmts w !! h = Some s ->
  exists s1, stmts (sqlite3_step w h).2 !! h = Some s1 /\
             stmt_prog s1 = stmt_prog s /\ stmt_vars s1 = stmt_vars s.
Proof.
  intros Hs. unfold sqlite3_step. rewrite Hs.
  destruct (match stmt_state s with
            | Halted => prog_run (stmt_prog s)
            | _ => stmt_todo s
            end) as [|[cells|f msg] rest]; cbn [snd].
  - rewrite stmts_set_changes, stmts_put_stmt.
    eexists; split; [reflexivity|]. auto.
  - rewrite stmts_put_stmt. eexists; split; [reflexivity|]. auto.
  - rewrite stmts_set_errmsg, stmts_put_stmt.
    eexists; split; [reflexivity|]. auto.
Qed.

(** A reset rewinds the statement and keeps its bindings. *)
Lemma reset_rewinds w h s :
  stmts w !! h = Some s ->
  stmts (sqlite3_reset w h).2 !! h
  = Some {| stmt_conn := stmt_conn s; stmt_prog := stmt_prog s;
            stmt_vars := stmt_vars s; stmt_state := Ready;
            stmt_todo := prog_run (stmt_prog s); stmt_row := None;
            stmt_rc := SQLITE_OK |}.
Proof.
  intros Hs. unfold sqlite3_reset. rewrite Hs. cbn [snd]. apply stmts_put_stmt.
Qed.


End SqliteEngine.

(** ** The SQLite cursor *)

Section SqliteCursor.
Import Cxx Sqlite.

Lemma sqlite_NextRow_eof_sticky q w :
  Sqlite3Query.eof_ q = true ->
  Sqlite3Query.eof_ (Sqlite3Query.NextRow q w).1 = true.
Proof.
  intros He. unfold Sqlite3Query.NextRow.
  destruct (Sqlite3Query.stmt_ q) as [h|]; [|exact He].
  destruct (sqlite3_step w h) as [rc w1].
  destruct (rc =? SQLITE_DONE); [reflexivity|].
  destruct (negb (rc =? SQLITE_ROW)); [reflexivity|exact He].
Qed.

Lemma sqlite_NextRow_times_eof_sticky k q w :
  Sqlite3Query.eof_ q = true ->
  Sqlite3Query.eof_ (Sqlite3Query.NextRow_times k q w).1 = true.
Proof.
  revert q w. induction k as [|k IH]; intros q w He; [exact He|].
  cbn [Sqlite3Query.NextRow_times].
  pose proof (sqlite_NextRow_eof_sticky q w He) as H1.
  destruct (Sqlite3Query.NextRow q w) as [q1 w1]. apply IH. exact H1.
Qed.

(** A cursor on a running statement that has [rows] left reaches the end
    after exactly [length rows + 1] calls of [NextRow]. *)
Lemma sqlite_running_cursor_eof rows : forall q w h s k,
  Sqlite3Query.stmt_ q = Some h -> Sqlite3Query.eof_ q = false ->
  stmts w !! h = Some s -> stmt_state s <> Halted ->
  stmt_todo s = Row <$> rows ->
  Sqlite3Query.Eof (Sqlite3Query.NextRow_times k q w).1
  = bool_decide (length rows < k)%nat.
Proof.
  induction rows as [|r rows IH]; intros q w h s k Hq He Hs Hst Htodo.
  - destruct k as [|k]; [simpl; exact He|].
    cbn [Sqlite3Query.NextRow_times].
    destruct (step_done w h s Hs Hst Htodo) as [w' Hstep].
    unfold Sqlite3Query.NextRow. rewrite Hq, Hstep.
    change (SQLITE_DONE =? SQLITE_DONE) with true. cbv iota.
    rewrite bool_decide_eq_true_2 by (simpl; lia).
    apply sqlite_NextRow_times_eof_sticky. reflexivity.
  - destruct k as [|k]; [simpl; exact He|].
    cbn [Sqlite3Query.NextRow_times]. rewrite fmap_cons in Htodo.
    destruct (step_row w h s r (fmap (M:=list) Row rows) Hs Hst Htodo)
      as (s' & Hstep & Hst' & Htodo' & _).
    unfold Sqlite3Query.NextRow. rewrite Hq, Hstep.
    change (SQLITE_ROW =? SQLITE_DONE) with false.
    change (negb (SQLITE_ROW =? SQLITE_ROW)) with false. cbv iota.
    rewrite (IH q (put_stmt w h s') h s' k Hq He (stmts_put_stmt _ _ _)
               ltac:(congruence) Htodo').
    apply bool_decide_ext. simpl. lia.
Qed.

(** The first step of a fresh statement, as both [ExecQuery] functions
    take it, followed by [k] calls of [NextRow]. *)
Lemma sqlite_first_step_cursor_eof w h s rows db k :
  stmts w !! h = Some s -> stmt_state s <> Halted ->
  stmt_todo s = Row <$> rows ->
  Sqlite3Query.Eof
    (Sqlite3Query.NextRow_times k
       (Sqlite3Query.ctor (sqlite3_step w h).2 db (Some h)
          ((sqlite3_step w h).1 =? SQLITE_DONE))
       (sqlite3_step w h).2).1
  = bool_decide (length rows <= k)%nat.
Proof.
  intros Hs Hst Hrun. destruct rows as [|r rest].
  - destruct (step_done w h s Hs Hst Hrun) as [w' Hstep].
    rewrite Hstep. cbn [fst snd].
    rewrite bool_decide_eq_true_2 by (simpl; lia).
    apply sqlite_NextRow_times_eof_sticky. reflexivity.
  - rewrite fmap_cons in Hrun.
    destruct (step_row w h s r (fmap (M:=list) Row rest) Hs Hst Hrun)
      as (s' & Hstep & Hst' & Htodo' & _).
    rewrite Hstep. cbn [fst snd].
    etransitivity.
    { apply (sqlite_running_cursor_eof rest) with (h := h) (s := s');
        [reflexivity | reflexivity | apply stmts_put_stmt | congruence
        | exact Htodo']. }
    apply bool_decide_ext. simpl. lia.
Qed.

(** Both [ExecQuery] functions build their cursor from the first step
    when it reports a row or completion. *)
Lemma sqlite_stmt_ExecQuery_first_step this d h out w :
  Sqlite3Statement.db_ this = Some d -> Sqlite3Statement.stmt_ this = Some h ->
  (sqlite3_step w h).1 = SQLITE_ROW \/ (sqlite3_step w h).1 = SQLITE_DONE ->
  Sqlite3Statement.ExecQuery this out w
  = (Sqlite3Query.ctor (sqlite3_step w h).2 (Some d) (Some h)
       ((sqlite3_step w h).1 =? SQLITE_DONE),
     {| Sqlite3Statement.db_ := Some d; Sqlite3Statement.stmt_ := None |},
     out, (sqlite3_step w h).2).
Proof.
  intros Hd Hh Hrc. unfold Sqlite3Statement.ExecQuery. rewrite Hd, Hh.
  destruct (sqlite3_step w h) as [rc w1]. cbn [fst snd] in *.
  destruct Hrc as [-> | ->]; reflexivity.
Qed.

End SqliteCursor.

Section SqliteExecQuery.
Import Cxx Sqlite.

Lemma sqlite_db_ExecQuery_rows this d c sql p rows out w :
  Sqlite3Db.db_ this = Some d -> conns w !! d = Some c ->
  conn_prepare c sql = Prepared p -> prog_run p = Row <$> rows ->
  Sqlite3Db.ExecQuery this (Some sql) out w
  = (Sqlite3Query.ctor (sqlite3_step (Spec.prepared_world w d p) (next_handle w)).2
       (Some d) (Some (next_handle w))
       ((sqlite3_step (Spec.prepared_world w d p) (next_handle w)).1
        =? SQLITE_DONE),
     out, (sqlite3_step (Spec.prepared_world w d p) (next_handle w)).2).
Proof.
  intros Hd Hc Hp Hrun.
  unfold Sqlite3Db.ExecQuery, Sqlite3Db.Compile, sqlite3_prepare_v2.
  rewrite Hd, Hc, Hp.
  change (negb (SQLITE_OK =? SQLITE_OK)) with false. cbv iota beta.
  fold (Spec.prepared_world w d p).
  assert (Hs0 : stmts (Spec.prepared_world w d p) !! next_handle w
                = Some {| stmt_conn := d; stmt_prog := p;
                          stmt_vars := replicate (Z.to_nat (prog_nvar p)) VNull;
                          stmt_state := Ready; stmt_todo := prog_run p;
                          stmt_row := None; stmt_rc := SQLITE_OK |})
    by apply lookup_insert_eq.
  destruct rows as [|r rest].
  - destruct (step_done _ _ _ Hs0 ltac:(discriminate) Hrun) as [w' Hstep].
    rewrite Hstep. reflexivity.
  - rewrite fmap_cons in Hrun.
    destruct (step_row _ _ _ r (fmap (M:=list) Row rest) Hs0
                ltac:(discriminate) Hrun) as (s' & Hstep & _).
    rewrite Hstep. reflexivity.
Qed.

Lemma sqlite_db_cursor_eof this d c sql p rows out w k :
  Sqlite3Db.db_ this = Some d -> conns w !! d = Some c ->
  conn_prepare c sql = Prepared p -> prog_run p = Row <$> rows ->
  Sqlite3Query.Eof
    (Sqlite3Query.NextRow_times k
       (Sqlite3Db.ExecQuery this (Some sql) out w).1.1
       (Sqlite3Db.ExecQuery this (Some sql) out w).2).1
  = bool_decide (length rows <= k)%nat.
Proof.
  intros Hd Hc Hp Hrun.
  rewrite (sqlite_db_ExecQuery_rows this d c sql p rows out w Hd Hc Hp Hrun).
  cbn [fst snd].
  eapply sqlite_first_step_cursor_eof;
    [apply lookup_insert_eq | discriminate | exact Hrun].
Qed.

Lemma sqlite_stmt_cursor_eof this d h s rows out w k :
  Sqlite3Statement.db_ this = Some d -> Sqlite3Statement.stmt_ this = Some h ->
  stmts w !! h = Some s -> stmt_state s = Ready ->
  stmt_todo s = Row <$> rows ->
  Sqlite3Query.Eof
    (Sqlite3Query.NextRow_times k
       (Sqlite3Statement.ExecQuery this out w).1.1.1
       (Sqlite3Statement.ExecQuery this out w).2).1
  = bool_decide (length rows <= k)%nat.
Proof.
  intros Hd Hh Hs Hst Hrun.
  assert (Hrc : (sqlite3_step w h).1 = SQLITE_ROW \/
                (sqlite3_step w h).1 = SQLITE_DONE).
  { destruct rows as [|r rest].
    - destruct (step_done w h s Hs ltac:(congruence) Hrun) as [w' ->].
      right; reflexivity.
    - rewrite fmap_cons in Hrun.
      destruct (step_row w h s r (fmap (M:=list) Row rest) Hs
                  ltac:(congruence) Hrun) as (s' & -> & _).
      left; reflexivity. }
  rewrite (sqlite_stmt_ExecQuery_first_step this d h out w Hd Hh Hrc).
  cbn [fst snd].
  eapply sqlite_first_step_cursor_eof; [exact Hs | congruence | exact Hrun].
Qed.

End SqliteExecQuery.

(** ** The SQLite statement *)

Section SqliteStatementFacts.
Import Cxx Sqlite.

Lemma sqlite_ExecDml_keeps_statement this out w :
  (Sqlite3Statement.ExecDml this out w).1.1.2 = this.
Proof.
  unfold Sqlite3Statement.ExecDml.
  destruct (Sqlite3Statement.db_ this) as [d|],
           (Sqlite3Statement.stmt_ this) as [h|]; try reflexivity.
  destruct (sqlite3_step w h) as [rc w1].
  destruct (rc =? SQLITE_DONE);
    destruct (sqlite3_reset w1 h) as [rrc w2]; reflexivity.
Qed.

Lemma sqlite_ExecDml_world this d h out w :
  Sqlite3Statement.db_ this = Some d -> Sqlite3Statement.stmt_ this = Some h ->
  (Sqlite3Statement.ExecDml this out w).2
  = (sqlite3_reset (sqlite3_step w h).2 h).2.
Proof.
  intros Hd Hh. unfold Sqlite3Statement.ExecDml. rewrite Hd, Hh.
  destruct (sqlite3_step w h) as [rc w1]. cbn [snd].
  destruct (rc =? SQLITE_DONE);
    destruct (sqlite3_reset w1 h) as [rrc w2]; reflexivity.
Qed.

(** After [ExecDml] the native statement is live and rewound, with the
    bindings it had. *)
Lemma sqlite_ExecDml_reusable this d h s out w :
  Sqlite3Statement.db_ this = Some d -> Sqlite3Statement.stmt_ this = Some h ->
  stmts w !! h = Some s ->
  exists s', stmts (Sqlite3Statement.ExecDml this out w).2 !! h = Some s' /\
             stmt_state s' = Ready /\ stmt_prog s' = stmt_prog s /\
             stmt_vars s' = stmt_vars s.
Proof.
  intros Hd Hh Hs. rewrite (sqlite_ExecDml_world this d h out w Hd Hh).
  destruct (step_keeps w h s Hs) as (s1 & Hs1 & Hp & Hv).
  rewrite (reset_rewinds _ h s1 Hs1).
  eexists; split; [reflexivity|]. cbn. rewrite Hp, Hv. auto.
Qed.


Lemma sqlite_Reset_world this h w :
  Sqlite3Statement.stmt_ this = Some h ->
  (Sqlite3Statement.Reset this w).2 = (sqlite3_reset w h).2.
Proof.
  intros Hh. unfold Sqlite3Statement.Reset. rewrite Hh.
  destruct (sqlite3_reset w h) as [rc w1]. destruct (negb _); reflexivity.
Qed.

End SqliteStatementFacts.

(** ** Typed getters of the SQLite cursor *)

Section SqliteGetters.
Import Cxx Sqlite.

Lemma sqlite_FieldIsNull_no_value q w col :
  Spec.sqlite_no_value q w col -> Sqlite3Query.FieldIsNull q w col = true.
Proof.
  unfold Spec.sqlite_no_value, Sqlite3Query.FieldIsNull. intros H.
  destruct (Sqlite3Query.stmt_ q) as [h|]; [|reflexivity].
  destruct ((col <? 0) || (Sqlite3Query.num_fields_ q <=? col)) eqn:E;
    [reflexivity|].
  apply orb_false_iff in E. destruct E as [E1 E2].
  apply Z.ltb_ge in E1. apply Z.leb_gt in E2.
  destruct H as [H|[H|H]]; [lia|lia|]. rewrite H. reflexivity.
Qed.

Lemma sqlite_FieldIndex_from_unresolved w h nm n : forall i,
  (forall j, i <= j < i + Z.of_nat n -> sqlite3_column_name w h j <> Some nm) ->
  Sqlite3Query.FieldIndex_from w h nm i n = -1.
Proof.
  induction n as [|n IH]; intros i H; [reflexivity|].
  cbn [Sqlite3Query.FieldIndex_from].
  assert (Hrest : Sqlite3Query.FieldIndex_from w h nm (i + 1) n = -1).
  { apply IH. intros j Hj. apply H. lia. }
  destruct (sqlite3_column_name w h i) as [col_name|] eqn:E; [|exact Hrest].
  unfold strcmp_eq. destruct (String.eqb nm col_name) eqn:Eq; [|exact Hrest].
  apply String.eqb_eq in Eq. subst col_name.
  exfalso. apply (H i); [lia|exact E].
Qed.

Lemma sqlite_FieldIndex_unresolved q w name :
  Spec.sqlite_no_column q w name -> Sqlite3Query.FieldIndex q w name = -1.
Proof.
  unfold Spec.sqlite_no_column, Sqlite3Query.FieldIndex. intros H.
  destruct (Sqlite3Query.stmt_ q) as [h|]; [|reflexivity].
  destruct name as [nm|]; [|reflexivity].
  apply sqlite_FieldIndex_from_unresolved. intros j Hj. apply H. lia.
Qed.

Lemma sqlite_getters_by_position q w col d32 d64 dd ds :
  Spec.sqlite_no_value q w col ->
  Sqlite3Query.GetInt q w col d32 = d32 /\
  Sqlite3Query.GetInt64 q w col d64 = d64 /\
  Sqlite3Query.GetDouble q w col dd = dd /\
  Sqlite3Query.GetString q w col ds = ds.
Proof.
  intros H. apply sqlite_FieldIsNull_no_value in H.
  unfold Sqlite3Query.GetInt, Sqlite3Query.GetInt64, Sqlite3Query.GetDouble,
    Sqlite3Query.GetString. rewrite H. auto.
Qed.

Lemma sqlite_getters_by_name q w name d32 dd ds :
  Spec.sqlite_no_column q w name \/
  Spec.sqlite_no_value q w (Sqlite3Query.FieldIndex q w name) ->
  Sqlite3Query.GetInt_name q w name d32 = d32 /\
  Sqlite3Query.GetDouble_name q w name dd = dd /\
  Sqlite3Query.GetString_name q w name ds = ds.
Proof.
  unfold Sqlite3Query.GetInt_name, Sqlite3Query.GetDouble_name,
    Sqlite3Query.GetString_name.
  intros [H|H].
  - rewrite (sqlite_FieldIndex_unresolved q w name H). auto.
  - destruct (sqlite_getters_by_position q w _ d32 0 dd ds H)
      as (H1 & _ & H3 & H4).
    rewrite H1, H3, H4. destruct (0 <=? _); auto.
Qed.

(** What [ExecScalar] returns, read off the engine's answer. *)
Lemma sqlite_ExecScalar_value this d c sql null_value w :
  Sqlite3Db.db_ this = Some d -> conns w !! d = Some c ->
  (Sqlite3Db.ExecScalar this (Some sql) null_value None w).1.1
  = Spec.sqlite_scalar c sql null_value.
Proof.
  intros Hd Hc.
  unfold Sqlite3Db.ExecScalar, Sqlite3Db.ExecQuery, Sqlite3Db.Compile,
    sqlite3_prepare_v2, Spec.sqlite_scalar.
  rewrite Hd, Hc.
  destruct (conn_prepare c sql) as [p|msg]; [|reflexivity].
  change (negb (SQLITE_OK =? SQLITE_OK)) with false. cbv iota beta.
  unfold sqlite3_step. cbn [stmts]. rewrite lookup_insert_eq.
  cbn [stmt_state stmt_todo stmt_prog stmt_conn stmt_vars].
  destruct (prog_run p) as [|[cells|f msg] rest].
  - reflexivity.
  - change (SQLITE_ROW =? SQLITE_DONE) with false.
    change (SQLITE_ROW =? SQLITE_ROW) with true. cbv iota.
    unfold Sqlite3Query.ctor, Sqlite3Query.Eof, Sqlite3Query.NumFields.
    cbn [Sqlite3Query.eof_ Sqlite3Query.num_fields_ orb].
    unfold sqlite3_column_count. rewrite stmts_put_stmt.
    cbn [stmt_prog].
    destruct (Z.of_nat (length (prog_columns p)) <? 1) eqn:Hn; [reflexivity|].
    cbn [fst].
    unfold Sqlite3Query.GetInt, Sqlite3Query.FieldIsNull, Sqlite3Query.native.
    cbn [Sqlite3Query.stmt_ Sqlite3Query.num_fields_].
    apply Z.ltb_ge in Hn.
    replace ((0 <? 0) || (Z.of_nat (length (prog_columns p)) <=? 0)) with false
      by (symmetry; apply orb_false_iff; split;
          [reflexivity | apply Z.leb_gt; lia]).
    unfold sqlite3_column_type, sqlite3_column_int, cell.
    rewrite stmts_put_stmt. cbn [stmt_row]. change (0 <? 0) with false.
    cbv iota. change (Z.to_nat 0) with 0%nat.
    destruct (cells !! 0%nat) as [x|]; cbn [from_option]; [|reflexivity].
    destruct (col_type x =? SQLITE_NULL); reflexivity.
  - assert (Hne1 : (failure_code f =? SQLITE_DONE) = false)
      by (destruct f; reflexivity).
    assert (Hne2 : (failure_code f =? SQLITE_ROW) = false)
      by (destruct f; reflexivity).
    rewrite Hne1, Hne2. reflexivity.
Qed.

Lemma substring_all (s : string) (n : nat) :
  (String.length s <= n)%nat -> String.substring 0 n s = s.
Proof.
  revert n. induction s as [|c s IH]; intros n Hn.
  - destruct n; reflexivity.
  - destruct n as [|n]; [simpl in Hn; lia|].
    simpl. rewrite IH by (simpl in Hn; lia). reflexivity.
Qed.

End SqliteGetters.

(** ** The MariaDB cursor *)

Section MariaCursor.
Import Cxx Mysql.

Lemma results_put_res w h r : results (put_res w h r) !! h = Some r.
Proof. unfold put_res; simpl. apply lookup_insert_eq. Qed.

Lemma maria_NextRow_eof_sticky q w :
  MariaQuery.eof_ q = true -> MariaQuery.eof_ (MariaQuery.NextRow q w).1 = true.
Proof.
  intros He. unfold MariaQuery.NextRow.
  destruct (MariaQuery.res_ q) as [h|]; [|exact He].
  destruct (mysql_fetch_row w h) as [[row|] w1]; [exact He|reflexivity].
Qed.

Lemma maria_NextRow_times_eof_sticky k q w :
  MariaQuery.eof_ q = true ->
  MariaQuery.eof_ (MariaQuery.NextRow_times k q w).1 = true.
Proof.
  revert q w. induction k as [|k IH]; intros q w He; [exact He|].
  cbn [MariaQuery.NextRow_times].
  pose proof (maria_NextRow_eof_sticky q w He) as H1.
  destruct (MariaQuery.NextRow q w) as [q1 w1]. apply IH. exact H1.
Qed.

(** A cursor over a stored result with [m] rows still to fetch reaches
    the end after exactly [m + 1] calls of [NextRow]. *)
Lemma maria_running_cursor_eof (m : nat) : forall q w h r k,
  MariaQuery.res_ q = Some h -> MariaQuery.eof_ q = false ->
  results w !! h = Some r ->
  (length (res_rows r) - res_next r)%nat = m ->
  MariaQuery.Eof (MariaQuery.NextRow_times k q w).1 = bool_decide (m < k)%nat.
Proof.
  induction m as [|m IH]; intros q w h r k Hq He Hr Hm.
  - destruct k as [|k]; [exact He|].
    cbn [MariaQuery.NextRow_times]. unfold MariaQuery.NextRow, mysql_fetch_row.
    rewrite Hq, Hr.
    rewrite (lookup_ge_None_2 (res_rows r) (res_next r)) by lia.
    rewrite bool_decide_eq_true_2 by lia.
    apply maria_NextRow_times_eof_sticky. reflexivity.
  - destruct k as [|k]; [exact He|].
    cbn [MariaQuery.NextRow_times]. unfold MariaQuery.NextRow, mysql_fetch_row.
    rewrite Hq, Hr.
    destruct (lookup_lt_is_Some_2 (res_rows r) (res_next r) ltac:(lia))
      as [row Hrow].
    rewrite Hrow.
    etransitivity.
    { eapply (IH _ _ h); [reflexivity | exact He | apply results_put_res
                         | simpl; lia]. }
    apply bool_decide_ext. lia.
Qed.

End MariaCursor.

Section MariaExecQuery.
Import Cxx Mysql.

(** What [MariaDb::ExecQuery] does when the server answers with a result
    set: the rows are stored under a new handle and the cursor is built
    on it. *)
Lemma maria_db_ExecQuery_stored this c x sql fields rows out w :
  MariaDb.conn_ this = Some c -> conns w !! c = Some x ->
  conn_answer x sql = ResultSet fields rows ->
  exists w2,
    results w2 !! next_handle w
    = Some {| res_fields := fields; res_rows := rows; res_next := 0%nat;
              res_current := None |} /\
    MariaDb.ExecQuery this (Some sql) out w
    = ((MariaQuery.ctor w2 (Some (next_handle w))
          (Z.of_nat (length rows) =? 0)).1, out,
       (MariaQuery.ctor w2 (Some (next_handle w))
          (Z.of_nat (length rows) =? 0)).2).
Proof.
  intros Hc Hx Ha.
  unfold MariaDb.ExecQuery, mysql_query. rewrite Hc, Hx, Ha.
  change (negb (0 =? 0)) with false. cbv iota.
  unfold mysql_store_result, put_conn. cbn [conns].
  rewrite lookup_insert_eq. cbn [conn_pending next_handle].
  match goal with |- context [MariaQuery.ctor ?W _ _] => exists W end.
  split.
  - cbn [results]. apply lookup_insert_eq.
  - unfold mysql_num_rows at 1. cbn [results]. rewrite lookup_insert_eq.
    cbn [from_option res_rows].
    destruct (MariaQuery.ctor _ _ _) as [q w3]. reflexivity.
Qed.

Lemma maria_ctor_cursor_eof w h r k :
  results w !! h = Some r -> res_next r = 0%nat ->
  MariaQuery.Eof
    (MariaQuery.NextRow_times k
       (MariaQuery.ctor w (Some h) (Z.of_nat (length (res_rows r)) =? 0)).1
       (MariaQuery.ctor w (Some h) (Z.of_nat (length (res_rows r)) =? 0)).2).1
  = bool_decide (length (res_rows r) <= k)%nat.
Proof.
  intros Hr Hn. unfold MariaQuery.ctor.
  destruct (res_rows r) as [|row rest] eqn:Hrows.
  - change (Z.of_nat (length (@nil MYSQL_ROW)) =? 0) with true.
    cbn [negb fst snd].
    rewrite bool_decide_eq_true_2 by (simpl; lia).
    apply maria_NextRow_times_eof_sticky. reflexivity.
  - replace (Z.of_nat (length (row :: rest)) =? 0) with false
      by (symmetry; apply Z.eqb_neq; simpl; lia).
    cbn [negb]. unfold mysql_fetch_row. rewrite Hr. cbv beta iota.
    rewrite Hn, Hrows. cbn [lookup list_lookup fst snd].
    etransitivity.
    { eapply (maria_running_cursor_eof (length rest) _ _ h);
        [reflexivity | reflexivity | apply results_put_res
        | cbn [res_rows res_next]; simpl; lia]. }
    apply bool_decide_ext. simpl. lia.
Qed.

Lemma maria_db_cursor_eof this c x sql fields rows out w k :
  MariaDb.conn_ this = Some c -> conns w !! c = Some x ->
  conn_answer x sql = ResultSet fields rows ->
  MariaQuery.Eof
    (MariaQuery.NextRow_times k
       (MariaDb.ExecQuery this (Some sql) out w).1.1
       (MariaDb.ExecQuery this (Some sql) out w).2).1
  = bool_decide (length rows <= k)%nat.
Proof.
  intros Hc Hx Ha.
  destruct (maria_db_ExecQuery_stored this c x sql fields rows out w Hc Hx Ha)
    as (w2 & Hr & ->).
  cbn [fst snd].
  apply (maria_ctor_cursor_eof w2 (next_handle w) _ k Hr eq_refl).
Qed.

(** What [ExecScalar] returns, read off the server's answer. *)
Lemma maria_ExecScalar_value this c x sql null_value w :
  MariaDb.conn_ this = Some c -> conns w !! c = Some x ->
  (MariaDb.ExecScalar this (Some sql) null_value None w).1.1
  = Spec.maria_scalar x sql null_value.
Proof.
  intros Hc Hx.
  unfold MariaDb.ExecScalar, MariaDb.ExecQuery, mysql_query, Spec.maria_scalar.
  rewrite Hc, Hx.
  destruct (conn_answer x sql) as [msg|n|fields rows|n msg].
  - reflexivity.
  - change (negb (0 =? 0)) with false. cbv iota.
    unfold mysql_store_result, put_conn. cbn [conns].
    rewrite lookup_insert_eq. reflexivity.
  - change (negb (0 =? 0)) with false. cbv iota.
    unfold mysql_store_result, put_conn. cbn [conns].
    rewrite lookup_insert_eq. cbn [conn_pending next_handle].
    unfold mysql_num_rows at 1. cbn [results]. rewrite lookup_insert_eq.
    cbn [from_option res_rows].
    destruct rows as [|row rest].
    + reflexivity.
    + replace (Z.of_nat (length (row :: rest)) =? 0) with false
        by (symmetry; apply Z.eqb_neq; simpl; lia).
      unfold MariaQuery.ctor. cbn [negb].
      unfold mysql_fetch_row. cbn [results]. rewrite lookup_insert_eq.
      cbn [res_rows res_next lookup list_lookup].
      unfold MariaQuery.Eof, MariaQuery.NumFields.
      cbn [MariaQuery.eof_ MariaQuery.num_fields_ orb].
      unfold mysql_num_fields. cbn [results]. rewrite lookup_insert_eq.
      cbn [from_option res_fields].
      destruct (to_int32 (Z.of_nat (length fields)) <? 1) eqn:Hn;
        [reflexivity|].
      cbn [fst].
      unfold MariaQuery.GetInt, MariaQuery.FieldIsNull, MariaQuery.convert.
      cbn [MariaQuery.row_ MariaQuery.num_fields_].
      apply Z.ltb_ge in Hn.
      replace ((0 <? 0) || (to_int32 (Z.of_nat (length fields)) <=? 0))
        with false
        by (symmetry; apply orb_false_iff; split;
            [reflexivity | apply Z.leb_gt; lia]).
      destruct (MariaQuery.row_at row 0); reflexivity.
  - change (negb (0 =? 0)) with false. cbv iota.
    unfold mysql_store_result, put_conn. cbn [conns].
    rewrite lookup_insert_eq. reflexivity.
Qed.

End MariaExecQuery.

(** ** Typed getters of the MariaDB cursor *)

Section MariaGetters.
Import Cxx Mysql.

Lemma maria_FieldIsNull_no_value q col :
  Spec.maria_no_value q col -> MariaQuery.FieldIsNull q col = true.
Proof.
  unfold Spec.maria_no_value, MariaQuery.FieldIsNull. intros H.
  destruct (MariaQuery.row_ q) as [row|]; [|reflexivity].
  destruct ((col <? 0) || (MariaQuery.num_fields_ q <=? col)) eqn:E;
    [reflexivity|].
  apply orb_false_iff in E. destruct E as [E1 E2].
  apply Z.ltb_ge in E1. apply Z.leb_gt in E2.
  destruct H as [H|[H|H]]; [lia|lia|]. rewrite H. reflexivity.
Qed.

Lemma maria_FieldIndex_from_unresolved fields nm n : forall i,
  (forall j, i <= j < i + Z.of_nat n ->
             MariaQuery.field_name fields j <> Some nm) ->
  MariaQuery.FieldIndex_from fields nm i n = -1.
Proof.
  induction n as [|n IH]; intros i H; [reflexivity|].
  cbn [MariaQuery.FieldIndex_from].
  assert (Hrest : MariaQuery.FieldIndex_from fields nm (i + 1) n = -1).
  { apply IH. intros j Hj. apply H. lia. }
  destruct (MariaQuery.field_name fields i) as [col_name|] eqn:E;
    [|exact Hrest].
  unfold strcmp_eq. destruct (String.eqb nm col_name) eqn:Eq; [|exact Hrest].
  apply String.eqb_eq in Eq. subst col_name.
  exfalso. apply (H i); [lia|exact E].
Qed.

Lemma maria_FieldIndex_unresolved q name :
  Spec.maria_no_column q name -> MariaQuery.FieldIndex q name = -1.
Proof.
  unfold Spec.maria_no_column, MariaQuery.FieldIndex. intros H.
  destruct (MariaQuery.fields_ q) as [fields|]; [|reflexivity].
  destruct name as [nm|]; [|reflexivity].
  apply maria_FieldIndex_from_unresolved. intros j Hj. apply H. lia.
Qed.

Lemma maria_getters_by_position strtod q col d32 d64 dd ds :
  Spec.maria_no_value q col ->
  MariaQuery.GetInt q col d32 = d32 /\
  MariaQuery.GetInt64 q col d64 = d64 /\
  MariaQuery.GetDouble strtod q col dd = dd /\
  MariaQuery.GetString q col ds = ds.
Proof.
  intros H. apply maria_FieldIsNull_no_value in H.
  unfold MariaQuery.GetInt, MariaQuery.GetInt64, MariaQuery.GetDouble,
    MariaQuery.GetString. rewrite H. auto.
Qed.

Lemma maria_getters_by_name strtod q name d32 dd ds :
  Spec.maria_no_column q name \/
  Spec.maria_no_value q (MariaQuery.FieldIndex q name) ->
  MariaQuery.GetInt_name q name d32 = d32 /\
  MariaQuery.GetDouble_name strtod q name dd = dd /\
  MariaQuery.GetString_name q name ds = ds.
Proof.
  unfold MariaQuery.GetInt_name, MariaQuery.GetDouble_name,
    MariaQuery.GetString_name.
  intros [H|H].
  - rewrite (maria_FieldIndex_unresolved q name H). auto.
  - destruct (maria_getters_by_position strtod q _ d32 0 dd ds H)
      as (H1 & _ & H3 & H4).
    rewrite H1, H3, H4. destruct (0 <=? _); auto.
Qed.

End MariaGetters.

(** ** The MariaDB statement *)

Section MariaStatementFacts.
Import Cxx Mysql.

Lemma maria_ExecDml_keeps_statement this out w :
  (MariaStatement.ExecDml this out w).1.1.2 = this.
Proof.
  unfold MariaStatement.ExecDml.
  destruct (MariaStatement.stmt_ this) as [h|]; [|reflexivity].
  destruct (_ && _); [reflexivity|].
  destruct (mysql_stmt_execute w h) as [rc w1].
  destruct (negb _); reflexivity.
Qed.

(** [MariaStatement::ExecQuery] never hands out its handle: whatever the
    engine answers, the statement is left as it was and the cursor is the
    empty one. *)
Lemma maria_ExecQuery_never_transfers this out w :
  (MariaStatement.ExecQuery this out w).1.1.1 = MariaQuery.default /\
  (MariaStatement.ExecQuery this out w).1.1.2 = this.
Proof.
  unfold MariaStatement.ExecQuery.
  destruct (MariaStatement.stmt_ this) as [h|],
           (MariaStatement.conn_ this) as [c|]; try (split; reflexivity).
  destruct (_ && _); [split; reflexivity|].
  destruct (mysql_stmt_execute w h) as [rc w0].
  destruct (negb (rc =? 0)); [split; reflexivity|].
  destruct (mysql_stmt_result_metadata w0 h) as [[m|] w1];
    [|split; reflexivity].
  destruct (mysql_stmt_store_result _ h) as [rc2 w3].
  destruct (negb _); split; reflexivity.
Qed.


Lemma zero_binds_lookup n bs i b :
  MariaStatement.zero_binds n bs !! i = Some b -> (i < n)%nat ->
  b = MariaStatement.zero_bind.
Proof.
  unfold MariaStatement.zero_binds. intros Hl Hi.
  destruct (decide (i < length (take n bs))%nat) as [Hlt|Hge].
  - rewrite lookup_app_l in Hl by (rewrite length_replicate; exact Hlt).
    apply lookup_replicate in Hl. tauto.
  - rewrite length_take in Hge.
    rewrite lookup_app_r in Hl by (rewrite length_replicate, length_take; lia).
    rewrite lookup_drop in Hl. apply lookup_lt_Some in Hl.
    rewrite length_replicate, length_take in Hl. lia.
Qed.

End MariaStatementFacts.

(* ===================================================================== *)
(** * The claims *)
(* ===================================================================== *)

(** ** C1: ExecQuery consumes, ExecDml does not *)

(** C1, as the code has it.  On the embedded backend, an [ExecQuery]
    whose first step reports a row or completion hands the statement's
    native handle to the returned cursor, leaves the statement empty
    ([Valid] false) and leaves the native statement live; [ExecDml]
    leaves the statement object as it was, holding its handle, and the
    native statement live, rewound and with its bindings.  On the
    client/server backend [ExecDml] also leaves the statement as it was,
    but [ExecQuery] never hands over anything: in every case the
    statement keeps all it holds and the returned cursor is the empty
    one. *)
Theorem C1_exec_ownership
    (s : Sqlite3Statement.t) (d h : nat) (st : Sqlite.Stmt) (w : Sqlite.World)
    (m : MariaStatement.t) (mw : Mysql.World) (out : option Error.t) :
  Sqlite3Statement.db_ s = Some d ->
  Sqlite3Statement.stmt_ s = Some h ->
  Sqlite.stmts w !! h = Some st ->
  ((Sqlite.sqlite3_step w h).1 = Sqlite.SQLITE_ROW \/
   (Sqlite.sqlite3_step w h).1 = Sqlite.SQLITE_DONE ->
   Sqlite3Query.stmt_ (Sqlite3Statement.ExecQuery s out w).1.1.1 = Some h /\
   Sqlite3Statement.stmt_ (Sqlite3Statement.ExecQuery s out w).1.1.2 = None /\
   Sqlite3Statement.Valid (Sqlite3Statement.ExecQuery s out w).1.1.2 = false /\
   is_Some (Sqlite.stmts (Sqlite3Statement.ExecQuery s out w).2 !! h)) /\
  ((Sqlite3Statement.ExecDml s out w).1.1.2 = s /\
   Sqlite3Statement.Valid (Sqlite3Statement.ExecDml s out w).1.1.2 = true /\
   exists st',
     Sqlite.stmts (Sqlite3Statement.ExecDml s out w).2 !! h = Some st' /\
     Sqlite.stmt_state st' = Sqlite.Ready /\
     Sqlite.stmt_prog st' = Sqlite.stmt_prog st /\
     Sqlite.stmt_vars st' = Sqlite.stmt_vars st) /\
  (MariaStatement.ExecDml m out mw).1.1.2 = m /\
  (MariaStatement.ExecQuery m out mw).1.1.2 = m /\
  (MariaStatement.ExecQuery m out mw).1.1.1 = MariaQuery.default.
Proof.
  intros Hd Hh Hs. split; [|split; [|split; [|split]]].
  - intros Hrc.
    rewrite (sqlite_stmt_ExecQuery_first_step s d h out w Hd Hh Hrc).
    cbn [fst snd]. repeat split.
    destruct (step_keeps w h st Hs) as (s1 & Hs1 & _). rewrite Hs1. eauto.
  - rewrite sqlite_ExecDml_keeps_statement.
    split; [reflexivity|]. split.
    + unfold Sqlite3Statement.Valid. rewrite Hh. reflexivity.
    + apply (sqlite_ExecDml_reusable s d h st out w Hd Hh Hs).
  - apply maria_ExecDml_keeps_statement.
  - apply maria_ExecQuery_never_transfers.
  - apply maria_ExecQuery_never_transfers.
Qed.

(** C1 at the compiled statement of [Examples]. *)
Lemma C1_exec_ownership_witness :
  Sqlite3Query.stmt_
    (Sqlite3Statement.ExecQuery Examples.sqlite_stmt None
       Examples.sqlite_world1).1.1.1 = Some 1%nat /\
  Sqlite3Statement.Valid
    (Sqlite3Statement.ExecQuery Examples.sqlite_stmt None
       Examples.sqlite_world1).1.1.2 = false /\
  (Sqlite3Statement.ExecDml Examples.sqlite_stmt None
     Examples.sqlite_world1).1.1.2 = Examples.sqlite_stmt /\
  (MariaStatement.ExecQuery Examples.maria_stmt None
     Examples.maria_world1).1.1.2 = Examples.maria_stmt.
Proof.
  destruct (C1_exec_ownership Examples.sqlite_stmt 0%nat 1%nat
              (Sqlite.mkStmt 0%nat Examples.select_program [Sqlite.VNull]
                 Sqlite.Ready (Sqlite.prog_run Examples.select_program)
                 None Sqlite.SQLITE_OK)
              Examples.sqlite_world1 Examples.maria_stmt
              Examples.maria_world1 None eq_refl eq_refl eq_refl)
    as (Hq & Hdml & _ & Hmq & _).
  destruct (Hq (or_introl eq_refl)) as (H1 & _ & H3 & _).
  destruct Hdml as (H4 & _).
  exact (conj H1 (conj H3 (conj H4 Hmq))).
Defined.

(** C1 fails on the client/server backend: the execute of the prepared
    SELECT reports completion, and yet the statement is still valid and
    the cursor holds nothing. *)
Lemma C1_maria_counterexample :
  (Mysql.mysql_stmt_execute Examples.maria_world1 1%nat).1 = 0 /\
  MariaStatement.stmt_ Examples.maria_stmt = Some 1%nat /\
  MariaStatement.Valid
    (MariaStatement.ExecQuery Examples.maria_stmt None
       Examples.maria_world1).1.1.2 = true /\
  MariaQuery.res_
    (MariaStatement.ExecQuery Examples.maria_stmt None
       Examples.maria_world1).1.1.1 = None.
Proof. repeat split; reflexivity. Qed.

(** ** C2: moves *)

Section Moves.
Import Cxx.

(** X1: the move constructors of the seven other classes hand
    everything over: the new object is the old one, and the source is
    left in the default (empty) state. *)
Lemma move_ctor_hands_over :
  (forall x, Sqlite3Db.move_ctor x = (x, Sqlite3Db.default)) /\
  (forall x, Sqlite3Statement.move_ctor x = (x, Sqlite3Statement.default)) /\
  (forall x, Sqlite3Query.move_ctor x = (x, Sqlite3Query.default)) /\
  (forall x, Sqlite3ResultSet.move_ctor x = (x, Sqlite3ResultSet.default)) /\
  (forall x, MariaDb.move_ctor x = (x, MariaDb.default)) /\
  (forall x, MariaQuery.move_ctor x = (x, MariaQuery.default)) /\
  (forall x, MariaResultSet.move_ctor x = (x, MariaResultSet.default)).
Proof. repeat split; intros []; reflexivity. Qed.

(** X2: move assignment (to a different object) releases what the
    target held, then does the same. *)
Lemma move_assign_hands_over :
  (forall x y w, Sqlite3Db.move_assign x y w
                 = (y, Sqlite3Db.default, (Sqlite3Db.Close x w).2)) /\
  (forall x y w, Sqlite3Statement.move_assign x y w
                 = (y, Sqlite3Statement.default,
                    (Sqlite3Statement.Finalize x w).2)) /\
  (forall x y w, Sqlite3Query.move_assign x y w
                 = (y, Sqlite3Query.default, (Sqlite3Query.Finalize x w).2)) /\
  (forall x y, Sqlite3ResultSet.move_assign x y
               = (y, Sqlite3ResultSet.default)) /\
  (forall x y w, MariaDb.move_assign x y w
                 = (y, MariaDb.default, (MariaDb.Close x w).2)) /\
  (forall x y w, MariaQuery.move_assign x y w
                 = (y, MariaQuery.default, (MariaQuery.Finalize x w).2)) /\
  (forall x y w, MariaResultSet.move_assign x y w
                 = (y, MariaResultSet.default,
                    (MariaResultSet.Finalize x w).2)).
Proof.
  repeat split.
  - intros x [] w. unfold Sqlite3Db.move_assign.
    destruct (Sqlite3Db.Close x w). reflexivity.
  - intros x [] w. unfold Sqlite3Statement.move_assign.
    destruct (Sqlite3Statement.Finalize x w). reflexivity.
  - intros x [] w. reflexivity.
  - intros x []. reflexivity.
  - intros x [] w. reflexivity.
  - intros x [] w. reflexivity.
  - intros x [] w. reflexivity.
Qed.

Lemma set_bind_keeps_storage s idx b s1 :
  MariaStatement.set_bind s idx b = MariaStatement.Done s1 ->
  MariaStatement.int_storage_ s1 = MariaStatement.int_storage_ s /\
  MariaStatement.int64_storage_ s1 = MariaStatement.int64_storage_ s /\
  MariaStatement.double_storage_ s1 = MariaStatement.double_storage_ s.
Proof.
  unfold MariaStatement.set_bind.
  destruct (MariaStatement.store _ _ _) as [bs|]; [|discriminate].
  intros [= <-]. auto.
Qed.

(** A store through a null storage pointer. *)
Lemma Store_null_undefined s idx v :
  (MariaStatement.int_storage_ s = None ->
   MariaStatement.StoreInt32 s idx v = MariaStatement.Undefined) /\
  (MariaStatement.int64_storage_ s = None ->
   MariaStatement.StoreInt64 s idx v = MariaStatement.Undefined) /\
  (MariaStatement.double_storage_ s = None ->
   MariaStatement.StoreDouble s idx v = MariaStatement.Undefined).
Proof.
  unfold MariaStatement.StoreInt32, MariaStatement.StoreInt64,
    MariaStatement.StoreDouble.
  repeat split; intros ->; reflexivity.
Qed.

(** On a moved-to [MariaStatement] every numeric [Bind] at a valid
    position writes through a null storage pointer. *)
Lemma maria_moved_statement_bind_undefined other param v :
  MariaStatement.ValidParam other (to_int32 (param - 1)) = true ->
  MariaStatement.Bind_int32 (MariaStatement.move_ctor other).1 param v
  = MariaStatement.Undefined /\
  MariaStatement.Bind_int64 (MariaStatement.move_ctor other).1 param v
  = MariaStatement.Undefined /\
  MariaStatement.Bind_double (MariaStatement.move_ctor other).1 param v
  = MariaStatement.Undefined.
Proof.
  intros Hv.
  unfold MariaStatement.Bind_int32, MariaStatement.Bind_int64,
    MariaStatement.Bind_double.
  assert (Hv' : MariaStatement.ValidParam (MariaStatement.move_ctor other).1
                  (to_int32 (param - 1)) = true) by exact Hv.
  rewrite Hv'. cbn [negb].
  destruct (MariaStatement.set_bind _ _ _) as [s1|] eqn:E; [|auto].
  apply set_bind_keeps_storage in E. destruct E as (E1 & E2 & E3).
  destruct (Store_null_undefined s1 (to_int32 (param - 1)) v)
    as (H1 & H2 & H3).
  rewrite (H1 E1), (H2 E2), (H3 E3). auto.
Qed.

End Moves.

(** C2 fails on [MariaStatement].  For the two-parameter statement of
    [Examples]: the moved-to statement is valid and has its two bind
    descriptors but none of the three storage arrays, which the source
    still holds after the move; and [Bind] of an integer at position 1
    of the moved-to statement (what the move-semantics test of the
    repository does next) writes through the null [int_storage_]. *)
Theorem C2_maria_statement_move_drops_storage :
  MariaStatement.Valid (MariaStatement.move_ctor Examples.maria_stmt).1 = true /\
  MariaStatement.num_params_ (MariaStatement.move_ctor Examples.maria_stmt).1
  = 2 /\
  MariaStatement.int_storage_ (MariaStatement.move_ctor Examples.maria_stmt).1
  = None /\
  MariaStatement.int_storage_ (MariaStatement.move_ctor Examples.maria_stmt).2
  = Some [0; 0] /\
  MariaStatement.Bind_int32 Examples.maria_stmt 1 1
  = MariaStatement.Done
      (Error.Ok,
       {| MariaStatement.conn_ := Some 0%nat;
          MariaStatement.stmt_ := Some 1%nat;
          MariaStatement.binds_ :=
            Some [ {| MariaStatement.buffer_type := Mysql.MYSQL_TYPE_LONG;
                      MariaStatement.buffer := MariaStatement.BufIntCell 0;
                      MariaStatement.buffer_length := 0;
                      MariaStatement.is_null_value := 0;
                      MariaStatement.is_unsigned := 0 |};
                   MariaStatement.zero_bind ];
          MariaStatement.int_storage_ := Some [1; 0];
          MariaStatement.int64_storage_ := Some [0; 0];
          MariaStatement.double_storage_ := Some [0; 0];
          MariaStatement.num_params_ := 2 |}) /\
  MariaStatement.Bind_int32
    (MariaStatement.move_ctor Examples.maria_stmt).1 1 1
  = MariaStatement.Undefined.
Proof. repeat split; reflexivity. Qed.

(** ** C3: binding at a position out of range *)




(** ** C4: Reset *)

(** C4, as the code has it.  [Reset] keeps the compiled handle on both
    backends, whatever the engine answers.  On the embedded backend it
    rewinds the native statement (ready again, no current row, the whole
    program still to run) and leaves every bound value in place.  On the
    client/server backend [Reset] never touches the handle, the three
    storage arrays or the parameter count; a reset the server accepts
    discards the result set the last execution left unread on the native
    statement and zeroes every bind descriptor of the statement; a reset
    the server refuses returns [kError] with the engine's message and
    leaves the statement object as it was. *)
Theorem C4_reset
    (s : Sqlite3Statement.t) (h : nat) (st : Sqlite.Stmt) (w : Sqlite.World)
    (m : MariaStatement.t) (mh : nat) (mw : Mysql.World) :
  Sqlite3Statement.stmt_ s = Some h ->
  Sqlite.stmts w !! h = Some st ->
  MariaStatement.stmt_ m = Some mh ->
  (Sqlite3Statement.Valid s = true /\
   exists st',
     Sqlite.stmts (Sqlite3Statement.Reset s w).2 !! h = Some st' /\
     Sqlite.stmt_state st' = Sqlite.Ready /\
     Sqlite.stmt_row st' = None /\
     Sqlite.stmt_todo st' = Sqlite.prog_run (Sqlite.stmt_prog st) /\
     Sqlite.stmt_vars st' = Sqlite.stmt_vars st) /\
  (MariaStatement.stmt_ (MariaStatement.Reset m mw).1.2 = Some mh /\
   MariaStatement.Valid (MariaStatement.Reset m mw).1.2 = true /\
   MariaStatement.num_params_ (MariaStatement.Reset m mw).1.2
   = MariaStatement.num_params_ m /\
   MariaStatement.int_storage_ (MariaStatement.Reset m mw).1.2
   = MariaStatement.int_storage_ m /\
   MariaStatement.int64_storage_ (MariaStatement.Reset m mw).1.2
   = MariaStatement.int64_storage_ m /\
   MariaStatement.double_storage_ (MariaStatement.Reset m mw).1.2
   = MariaStatement.double_storage_ m /\
   (is_Some (Mysql.pstmts mw !! mh) ->
    is_Some (Mysql.pstmts (MariaStatement.Reset m mw).2 !! mh))) /\
  ((Mysql.mysql_stmt_reset mw mh).1 = 0 ->
   Error.code (MariaStatement.Reset m mw).1.1 = Error.kOk /\
   (exists ps',
      Mysql.pstmts (MariaStatement.Reset m mw).2 !! mh = Some ps' /\
      Mysql.ps_unread ps' = false) /\
   forall bs (i : nat) b,
     MariaStatement.binds_ (MariaStatement.Reset m mw).1.2 = Some bs ->
     bs !! i = Some b ->
     Z.of_nat i < Cxx.to_uint32 (MariaStatement.num_params_ m) ->
     b = MariaStatement.zero_bind) /\
  ((Mysql.mysql_stmt_reset mw mh).1 <> 0 ->
   (MariaStatement.Reset m mw).1
   = (Error.Make Error.kError (Mysql.mysql_stmt_error mw mh), m)).
Proof.
  intros Hh Hs Hmh. split; [|split; [|split]].
  - split; [unfold Sqlite3Statement.Valid; rewrite Hh; reflexivity|].
    rewrite (sqlite_Reset_world s h w Hh), (reset_rewinds w h st Hs).
    eexists; split; [reflexivity|]. cbn. auto.
  - unfold MariaStatement.Reset, MariaStatement.Valid. rewrite Hmh.
    unfold Mysql.mysql_stmt_reset.
    destruct (Mysql.pstmts mw !! mh) as [ps|] eqn:Hps.
    + destruct (Mysql.ps_reset_ok ps).
      * change (negb (0 =? 0)) with false. cbv iota. cbn [fst snd].
        assert (Hlive : is_Some (Mysql.pstmts (Mysql.set_unread mw mh ps false)
                                   !! mh))
          by (unfold Mysql.set_unread; cbn [Mysql.pstmts];
              rewrite lookup_insert_eq; eauto).
        destruct (MariaStatement.binds_ m) as [bs0|]; cbn; rewrite Hmh;
          repeat split; try reflexivity; intros _; exact Hlive.
      * change (negb (1 =? 0)) with true. cbv iota. cbn [fst snd].
        rewrite Hmh, Hps. repeat split; eauto.
    + change (negb (1 =? 0)) with true. cbv iota. cbn [fst snd].
      rewrite Hmh, Hps. repeat split; eauto.
  - intros Hok. unfold MariaStatement.Reset. rewrite Hmh.
    unfold Mysql.mysql_stmt_reset in *.
    destruct (Mysql.pstmts mw !! mh) as [ps|]; [|discriminate Hok].
    destruct (Mysql.ps_reset_ok ps); [|discriminate Hok].
    change (negb (0 =? 0)) with false. cbv iota. cbn [fst snd].
    split; [reflexivity|]. split.
    + eexists. split; [apply lookup_insert_eq|reflexivity].
    + destruct (MariaStatement.binds_ m) as [bs0|] eqn:Hb.
      * intros bs i b [= <-] Hl Hi.
        apply (zero_binds_lookup _ _ _ _ Hl). lia.
      * intros bs i b Hbs. congruence.
  - intros Hno. unfold MariaStatement.Reset. rewrite Hmh.
    unfold Mysql.mysql_stmt_reset in *.
    destruct (Mysql.pstmts mw !! mh) as [ps|] eqn:Hps.
    + destruct (Mysql.ps_reset_ok ps); [contradiction Hno; reflexivity|].
      reflexivity.
    + reflexivity.
Qed.

(** C4 at the compiled statements of [Examples], the client/server one
    after an [ExecDml] that left its result set unread. *)
Lemma C4_reset_witness :
  Sqlite3Statement.Valid Examples.sqlite_stmt = true /\
  Mysql.ps_unread <$> Mysql.pstmts Examples.maria_world2 !! 1%nat
  = Some true /\
  MariaStatement.Valid
    (MariaStatement.Reset Examples.maria_stmt Examples.maria_world2).1.2
  = true /\
  MariaStatement.int_storage_
    (MariaStatement.Reset Examples.maria_stmt Examples.maria_world2).1.2
  = MariaStatement.int_storage_ Examples.maria_stmt /\
  (exists ps',
     Mysql.pstmts
       (MariaStatement.Reset Examples.maria_stmt Examples.maria_world2).2
       !! 1%nat = Some ps' /\
     Mysql.ps_unread ps' = false).
Proof.
  destruct (C4_reset Examples.sqlite_stmt 1%nat
              (Sqlite.mkStmt 0%nat Examples.select_program [Sqlite.VNull]
                 Sqlite.Ready (Sqlite.prog_run Examples.select_program)
                 None Sqlite.SQLITE_OK)
              Examples.sqlite_world1 Examples.maria_stmt 1%nat
              Examples.maria_world2 eq_refl eq_refl eq_refl)
    as ((H1 & _) & (_ & H2 & _ & H3 & _) & Hok & _).
  destruct (Hok eq_refl) as (_ & H4 & _).
  exact (conj H1 (conj eq_refl (conj H2 (conj H3 H4)))).
Defined.

(** C4 fails on the embedded backend: after binding 42 to the parameter
    of the compiled statement of [Examples] and calling [Reset], the
    native statement still holds 42 for it, so the bound value still
    applies to the next execution. *)
Lemma C4_sqlite_counterexample :
  Error.code
    (Sqlite3Statement.Bind_int32 Examples.sqlite_stmt Examples.sqlite_world1
       1 42).1 = Error.kOk /\
  Error.code
    (Sqlite3Statement.Reset Examples.sqlite_stmt
       (Sqlite3Statement.Bind_int32 Examples.sqlite_stmt
          Examples.sqlite_world1 1 42).2).1 = Error.kOk /\
  Sqlite.stmt_vars
    <$> Sqlite.stmts
          (Sqlite3Statement.Reset Examples.sqlite_stmt
             (Sqlite3Statement.Bind_int32 Examples.sqlite_stmt
                Examples.sqlite_world1 1 42).2).2 !! 1%nat
  = Some [Sqlite.VInt 42].
Proof. repeat split; vm_compute; reflexivity. Qed.

(** ** C5: SeekRow *)

Section SeekRow.
Import Cxx.

(** X3: on a non-empty embedded result set a row at or past the end
    lands on the last row. *)
Lemma sqlite_SeekRow_clamps rs row :
  0 < Sqlite3ResultSet.num_rows_ rs < 2 ^ 32 ->
  Sqlite3ResultSet.num_rows_ rs <= row ->
  Sqlite3ResultSet.CurrentRow (Sqlite3ResultSet.SeekRow rs row)
  = Sqlite3ResultSet.num_rows_ rs - 1.
Proof.
  intros Hr Hrow. unfold Sqlite3ResultSet.SeekRow.
  replace (Sqlite3ResultSet.num_rows_ rs <=? row) with true
    by (symmetry; apply Z.leb_le; lia).
  replace (0 <? Sqlite3ResultSet.num_rows_ rs) with true
    by (symmetry; apply Z.ltb_lt; lia).
  cbn. unfold to_uint32. apply Z.mod_small. lia.
Qed.

(** X3 on three rows: [SeekRow(999)] lands on row 2. *)
Lemma sqlite_SeekRow_clamps_witness :
  Sqlite3ResultSet.CurrentRow
    (Sqlite3ResultSet.SeekRow Examples.emp_result_set 999)
  = Sqlite3ResultSet.num_rows_ Examples.emp_result_set - 1.
Proof.
  apply (sqlite_SeekRow_clamps Examples.emp_result_set 999).
  - vm_compute. split; reflexivity.
  - vm_compute. discriminate.
Defined.

(** X4: on the client/server backend too, and there an empty result set
    is left as it was. *)
Lemma maria_SeekRow_clamps rs h row w :
  MariaResultSet.res_ rs = Some h ->
  (0 < MariaResultSet.num_rows_ rs -> MariaResultSet.num_rows_ rs <= row ->
   MariaResultSet.current_row_ (MariaResultSet.SeekRow rs row w).1
   = MariaResultSet.num_rows_ rs - 1) /\
  (MariaResultSet.num_rows_ rs = 0 -> MariaResultSet.SeekRow rs row w = (rs, w)).
Proof.
  intros Hh. unfold MariaResultSet.SeekRow. rewrite Hh. split.
  - intros Hr Hrow.
    replace (MariaResultSet.num_rows_ rs =? 0) with false
      by (symmetry; apply Z.eqb_neq; lia).
    replace (MariaResultSet.num_rows_ rs <=? row) with true
      by (symmetry; apply Z.leb_le; lia).
    destruct (Mysql.mysql_fetch_row _ _) as [fetched w2]. reflexivity.
  - intros ->. reflexivity.
Qed.

(** X4 on three rows: [SeekRow(999)] lands on row 2. *)
Lemma maria_SeekRow_clamps_witness :
  MariaResultSet.current_row_
    (MariaResultSet.SeekRow Examples.maria_result_set 999
       Examples.emp_world1).1
  = MariaResultSet.num_rows_ Examples.maria_result_set - 1.
Proof.
  assert (Hh : MariaResultSet.res_ Examples.maria_result_set = Some 1%nat)
    by (vm_compute; reflexivity).
  assert (H0 : 0 < MariaResultSet.num_rows_ Examples.maria_result_set)
    by (vm_compute; reflexivity).
  assert (H1 : MariaResultSet.num_rows_ Examples.maria_result_set <= 999)
    by (vm_compute; discriminate).
  exact (proj1 (maria_SeekRow_clamps Examples.maria_result_set 1%nat 999
                  Examples.emp_world1 Hh) H0 H1).
Defined.

End SeekRow.

(** C5 fails on the embedded backend for an empty result set: there
    [SeekRow(5)] is no no-op, it stores 5 as the current row (the
    client/server [SeekRow] returns at once when there are no rows). *)
Theorem C5_sqlite_seek_on_empty_moves :
  Sqlite3ResultSet.NumRows Examples.empty_result_set = 0 /\
  Sqlite3ResultSet.CurrentRow Examples.empty_result_set = 0 /\
  Sqlite3ResultSet.CurrentRow
    (Sqlite3ResultSet.SeekRow Examples.empty_result_set 5) = 5.
Proof. repeat split; reflexivity. Qed.

(** ** Rows in their original order *)

Section SqliteOrder.
Import Cxx.

(** Cell [col] of row [k] in a row-major table of [c] columns. *)
Lemma lookup_concat_row {A : Type} (c : nat) (rows : list (list A)) :
  forall (k col : nat),
  Forall (fun r => length r = c) rows -> (col < c)%nat ->
  concat rows !! (k * c + col)%nat = rows !! k ≫= (fun r => r !! col).
Proof.
  induction rows as [|r rows IH]; intros k col Hall Hcol.
  - simpl. rewrite !lookup_nil. reflexivity.
  - inversion Hall as [|? ? Hr Hrest]; subst.
    destruct k as [|k]; simpl.
    + rewrite lookup_app_l by lia. reflexivity.
    + rewrite lookup_app_r by lia.
      replace (length r + k * length r + col - length r)%nat
        with (k * length r + col)%nat by lia.
      apply IH; assumption.
Qed.

(** [NextRow] below the end adds one to the current row. *)
Lemma sqlite_NextRow_times_current rs : forall (k : nat),
  0 <= Sqlite3ResultSet.current_row_ rs ->
  Sqlite3ResultSet.current_row_ rs + Z.of_nat k <= Sqlite3ResultSet.num_rows_ rs ->
  Sqlite3ResultSet.num_rows_ rs < 2 ^ 32 ->
  Sqlite3ResultSet.NextRow_times k rs
  = Sqlite3ResultSet.set_current_row rs
      (Sqlite3ResultSet.current_row_ rs + Z.of_nat k).
Proof.
  intros k. revert rs. induction k as [|k IH]; intros rs H0 Hk Hr.
  - simpl. rewrite Z.add_0_r. destruct rs; reflexivity.
  - cbn [Sqlite3ResultSet.NextRow_times]. unfold Sqlite3ResultSet.NextRow.
    replace (Sqlite3ResultSet.current_row_ rs <? Sqlite3ResultSet.num_rows_ rs)
      with true by (symmetry; apply Z.ltb_lt; lia).
    unfold to_uint32. rewrite Z.mod_small by lia.
    rewrite IH by (cbn; lia). cbn.
    unfold Sqlite3ResultSet.set_current_row. cbn. f_equal. lia.
Qed.

(** X5: after [SeekRow(0)], [k] calls of [NextRow] stand on row [k] of
    the table, and [FieldValue] reads that row's cells: the rows are
    visited in their original order. *)
Lemma sqlite_rows_in_order headers rows (c : nat) rs0 (k col : nat) :
  length headers = c -> Forall (fun r => length r = c) rows ->
  Sqlite3ResultSet.results_ rs0 = Some (Spec.table_of headers rows) ->
  Sqlite3ResultSet.num_rows_ rs0 = Z.of_nat (length rows) ->
  Sqlite3ResultSet.num_cols_ rs0 = Z.of_nat c ->
  (Z.of_nat (length rows) + 1) * Z.of_nat c < 2 ^ 31 ->
  (k < length rows)%nat -> (col < c)%nat ->
  Sqlite3ResultSet.CurrentRow
    (Sqlite3ResultSet.NextRow_times k (Sqlite3ResultSet.SeekRow rs0 0))
  = Z.of_nat k /\
  Sqlite3ResultSet.FieldValue
    (Sqlite3ResultSet.NextRow_times k (Sqlite3ResultSet.SeekRow rs0 0))
    (Z.of_nat col)
  = mjoin (rows !! k ≫= (fun r => r !! col)).
Proof.
  intros Hh Hall Hres Hnr Hnc Hsmall Hk Hcol. unfold cstr in *.
  assert (Hseek : Sqlite3ResultSet.SeekRow rs0 0
                  = Sqlite3ResultSet.set_current_row rs0 0).
  { unfold Sqlite3ResultSet.SeekRow. rewrite Hnr.
    replace (Z.of_nat (length rows) <=? 0) with false
      by (symmetry; apply Z.leb_gt; lia). reflexivity. }
  rewrite Hseek.
  rewrite sqlite_NextRow_times_current by (cbn; nia).
  cbn [Sqlite3ResultSet.set_current_row Sqlite3ResultSet.current_row_
         Sqlite3ResultSet.CurrentRow].
  split; [lia|].
  unfold Sqlite3ResultSet.FieldValue, Sqlite3ResultSet.RealIndex,
    Sqlite3ResultSet.set_current_row.
  cbn [Sqlite3ResultSet.results_ Sqlite3ResultSet.num_cols_
         Sqlite3ResultSet.current_row_].
  rewrite Hres, Hnc.
  replace ((Z.of_nat col <? 0) || (Z.of_nat c <=? Z.of_nat col)) with false
    by (symmetry; apply orb_false_iff; split;
        [apply Z.ltb_ge; lia | apply Z.leb_gt; lia]).
  assert (Hidx : to_int32 (to_int32 (to_int32 (0 + Z.of_nat k) * Z.of_nat c)
                           + Z.of_nat c + Z.of_nat col)
                 = Z.of_nat (c + (k * c + col))).
  { assert (Hwrap : forall z, 0 <= z < 2 ^ 31 -> to_int32 z = z).
    { intros z Hz. unfold to_int32.
      rewrite Z.mod_small by lia. lia. }
    assert (Hkc : Z.of_nat k * Z.of_nat c + Z.of_nat c
                  <= Z.of_nat (length rows) * Z.of_nat c) by nia.
    assert (Hc1 : 1 <= Z.of_nat c) by lia.
    assert (Hk1 : Z.of_nat k <= Z.of_nat k * Z.of_nat c) by nia.
    rewrite Z.add_0_l.
    rewrite (Hwrap (Z.of_nat k)) by lia.
    rewrite (Hwrap (Z.of_nat k * Z.of_nat c)) by nia.
    rewrite Hwrap by lia.
    rewrite !Nat2Z.inj_add, Nat2Z.inj_mul. lia. }
  rewrite Hidx.
  replace (Z.of_nat (c + (k * c + col)) <? 0) with false
    by (symmetry; apply Z.ltb_ge; lia).
  rewrite Nat2Z.id. unfold Spec.table_of.
  rewrite lookup_app_r by lia. rewrite Hh.
  replace (c + (k * c + col) - c)%nat with (k * c + col)%nat by lia.
  f_equal. apply lookup_concat_row; assumption.
Qed.

(** X5 on three rows: two [NextRow] calls reach the third row, whose
    second cell is NULL. *)
Lemma sqlite_rows_in_order_witness :
  Sqlite3ResultSet.CurrentRow
    (Sqlite3ResultSet.NextRow_times 2
       (Sqlite3ResultSet.SeekRow Examples.emp_result_set 0))
  = Z.of_nat 2 /\
  Sqlite3ResultSet.FieldValue
    (Sqlite3ResultSet.NextRow_times 2
       (Sqlite3ResultSet.SeekRow Examples.emp_result_set 0))
    (Z.of_nat 1)
  = mjoin (Examples.emp_rows !! 2%nat ≫= (fun r => r !! 1%nat)).
Proof.
  assert (Hall : Forall (fun r : list cstr => length r = 2%nat)
                   Examples.emp_rows)
    by (repeat constructor).
  assert (Hsmall : (Z.of_nat (length Examples.emp_rows) + 1) * Z.of_nat 2
                   < 2 ^ 31)
    by (vm_compute; reflexivity).
  assert (Hk : (2 < length Examples.emp_rows)%nat) by (cbn; lia).
  assert (Hcol : (1 < 2)%nat) by lia.
  exact (sqlite_rows_in_order Examples.emp_headers Examples.emp_rows 2
           Examples.emp_result_set 2 1 eq_refl Hall eq_refl eq_refl eq_refl
           Hsmall Hk Hcol).
Defined.

End SqliteOrder.

Section MariaOrder.
Import Cxx Mysql.

(** [NextRow] fetches the rows of the stored result one after the
    other. *)
Lemma maria_NextRow_times_in_order h rows (k : nat) : forall rs w r (j : nat),
  MariaResultSet.res_ rs = Some h -> results w !! h = Some r ->
  res_rows r = rows ->
  res_next r = S j -> MariaResultSet.current_row_ rs = Z.of_nat j ->
  MariaResultSet.row_ rs = rows !! j ->
  MariaResultSet.num_rows_ rs = Z.of_nat (length rows) ->
  Z.of_nat (length rows) < 2 ^ 64 ->
  (j + k < length rows)%nat ->
  MariaResultSet.current_row_ (MariaResultSet.NextRow_times k rs w).1
  = Z.of_nat (j + k) /\
  MariaResultSet.row_ (MariaResultSet.NextRow_times k rs w).1
  = rows !! (j + k)%nat.
Proof.
  induction k as [|k IH];
    intros rs w r j Hh Hr Hrows Hnext Hcur Hrow Hnr Hsmall Hk.
  - rewrite Nat.add_0_r. split; assumption.
  - cbn [MariaResultSet.NextRow_times]. unfold MariaResultSet.NextRow.
    rewrite Hh, Hnr, Hcur.
    replace (Z.of_nat (length rows) <=? Z.of_nat j) with false
      by (symmetry; apply Z.leb_gt; lia).
    unfold to_uint64. rewrite Z.mod_small by lia.
    replace (Z.of_nat j + 1 <? Z.of_nat (length rows)) with true
      by (symmetry; apply Z.ltb_lt; lia).
    unfold mysql_fetch_row. rewrite Hr, Hnext, Hrows.
    destruct (lookup_lt_is_Some_2 rows (S j) ltac:(lia)) as [row Hl].
    rewrite Hl.
    replace (j + S k)%nat with (S j + k)%nat by lia.
    eapply (IH _ _ _ (S j));
      [reflexivity | apply results_put_res | reflexivity | reflexivity
      | cbn; lia | cbn; symmetry; exact Hl | cbn; first [reflexivity | exact Hnr] | exact Hsmall
      | lia].
Qed.

(** X6: after [SeekRow(0)], [k] calls of [NextRow] stand on row [k] of
    the stored result: the rows are visited in their original order. *)
Lemma maria_rows_in_order rs h w r (k : nat) :
  MariaResultSet.res_ rs = Some h -> results w !! h = Some r ->
  MariaResultSet.num_rows_ rs = Z.of_nat (length (res_rows r)) ->
  Z.of_nat (length (res_rows r)) < 2 ^ 64 ->
  (k < length (res_rows r))%nat ->
  MariaResultSet.current_row_
    (MariaResultSet.NextRow_times k (MariaResultSet.SeekRow rs 0 w).1
       (MariaResultSet.SeekRow rs 0 w).2).1 = Z.of_nat k /\
  MariaResultSet.row_
    (MariaResultSet.NextRow_times k (MariaResultSet.SeekRow rs 0 w).1
       (MariaResultSet.SeekRow rs 0 w).2).1 = res_rows r !! k.
Proof.
  intros Hh Hr Hnr Hsmall Hk.
  unfold MariaResultSet.SeekRow. rewrite Hh, Hnr.
  replace (Z.of_nat (length (res_rows r)) =? 0) with false
    by (symmetry; apply Z.eqb_neq; lia).
  replace (Z.of_nat (length (res_rows r)) <=? 0) with false
    by (symmetry; apply Z.leb_gt; lia).
  unfold mysql_data_seek. rewrite Hr.
  unfold mysql_fetch_row. rewrite results_put_res.
  cbn [res_rows res_next Z.to_nat].
  destruct (lookup_lt_is_Some_2 (res_rows r) 0%nat ltac:(lia)) as [row Hl].
  change (Z.to_nat 0) with 0%nat.
  rewrite Hl. cbn [fst snd].
  eapply (maria_NextRow_times_in_order h (res_rows r) k _ _ _ 0%nat);
    [reflexivity | apply results_put_res | reflexivity | reflexivity
    | reflexivity | cbn; symmetry; exact Hl | cbn; first [reflexivity | exact Hnr] | exact Hsmall
    | lia].
Qed.


(** X6 on three rows: two [NextRow] calls reach the third row. *)
Lemma maria_rows_in_order_witness :
  MariaResultSet.current_row_
    (MariaResultSet.NextRow_times 2
       (MariaResultSet.SeekRow Examples.maria_result_set 0
          Examples.emp_world1).1
       (MariaResultSet.SeekRow Examples.maria_result_set 0
          Examples.emp_world1).2).1 = Z.of_nat 2 /\
  MariaResultSet.row_
    (MariaResultSet.NextRow_times 2
       (MariaResultSet.SeekRow Examples.maria_result_set 0
          Examples.emp_world1).1
       (MariaResultSet.SeekRow Examples.maria_result_set 0
          Examples.emp_world1).2).1
  = Examples.emp_rows !! 2%nat.
Proof.
  assert (Hh : MariaResultSet.res_ Examples.maria_result_set = Some 1%nat)
    by (vm_compute; reflexivity).
  assert (Hr : results Examples.emp_world1 !! 1%nat
               = Some {| res_fields :=
                           [mkField (Some "empno"%string);
                            mkField (Some "empname"%string)];
                         res_rows := Examples.emp_rows;
                         res_next := 1;
                         res_current := Examples.emp_rows !! 0%nat |})
    by (vm_compute; reflexivity).
  assert (Hnr : MariaResultSet.num_rows_ Examples.maria_result_set
                = Z.of_nat (length Examples.emp_rows))
    by (vm_compute; reflexivity).
  assert (Hsmall : Z.of_nat (length Examples.emp_rows) < 2 ^ 64)
    by (vm_compute; reflexivity).
  assert (Hk : (2 < length Examples.emp_rows)%nat) by (cbn; lia).
  exact (maria_rows_in_order Examples.maria_result_set 1%nat
           Examples.emp_world1 _ 2 Hh Hr Hnr Hsmall Hk).
Defined.

End MariaOrder.

(** ** C6: TableExists *)

Section TableExists.
Import Cxx.

Lemma chars_substring (s : string) (n : nat) :
  String.list_ascii_of_string (String.substring 0 n s)
  = take n (String.list_ascii_of_string s).
Proof.
  revert n. induction s as [|c s IH]; intros [|n]; simpl; try reflexivity.
  rewrite IH. reflexivity.
Qed.

Lemma chars_append (a b : string) :
  String.list_ascii_of_string (a +:+ b)
  = String.list_ascii_of_string a ++ String.list_ascii_of_string b.
Proof.
  induction a as [|c a IH]; simpl; [reflexivity|]. rewrite IH. reflexivity.
Qed.

Lemma sqlite_TableExists_result this d c name w :
  Sqlite3Db.db_ this = Some d -> Sqlite.conns w !! d = Some c ->
  (Sqlite3Db.TableExists this (Some name) w).1
  = (0 <? Spec.sqlite_scalar c (Sqlite3Db.TableExists_sql name) 0).
Proof.
  intros Hd Hc.
  rewrite <- (sqlite_ExecScalar_value this d c _ 0 w Hd Hc).
  unfold Sqlite3Db.TableExists. rewrite Hd.
  destruct (Sqlite3Db.ExecScalar _ _ _ _ _) as [[n e] w1]. reflexivity.
Qed.

Lemma maria_TableExists_result this c x name w :
  MariaDb.conn_ this = Some c -> Mysql.conns w !! c = Some x ->
  (MariaDb.TableExists this (Some name) w).1
  = (0 <? Spec.maria_scalar x (MariaDb.TableExists_sql name) 0).
Proof.
  intros Hc Hx.
  rewrite <- (maria_ExecScalar_value this c x _ 0 w Hc Hx).
  unfold MariaDb.TableExists. rewrite Hc.
  destruct (MariaDb.ExecScalar _ _ _ _ _) as [[n e] w1]. reflexivity.
Qed.

End TableExists.

(** C6, as the code has it.  On an open connection of either backend
    [TableExists(name)] issues the engine's catalog count query with the
    characters of [name] copied as they are between two quote
    characters (the whole text cut to the 255 characters its buffer
    holds), binds no parameter, and returns true if and only if the
    scalar that query yields (the count, 0 when the query yields none)
    is greater than 0. *)
Theorem C6_table_exists
    (sdb : Sqlite3Db.t) (d : nat) (sc : Sqlite.Conn) (sw : Sqlite.World)
    (mdb : MariaDb.t) (c : nat) (mx : Mysql.Conn) (mw : Mysql.World)
    (name : string) :
  Sqlite3Db.db_ sdb = Some d -> Sqlite.conns sw !! d = Some sc ->
  MariaDb.conn_ mdb = Some c -> Mysql.conns mw !! c = Some mx ->
  String.list_ascii_of_string (Sqlite3Db.TableExists_sql name)
  = take 255
      (String.list_ascii_of_string
         "SELECT count(*) FROM sqlite_master WHERE type='table' AND name='"
       ++ String.list_ascii_of_string name ++ ["'"%char]) /\
  String.list_ascii_of_string (MariaDb.TableExists_sql name)
  = take 255
      (String.list_ascii_of_string
         "SELECT COUNT(*) FROM information_schema.tables WHERE table_schema = DATABASE() AND table_name = '"
       ++ String.list_ascii_of_string name ++ ["'"%char]) /\
  ((Sqlite3Db.TableExists sdb (Some name) sw).1 = true <->
   0 < Spec.sqlite_scalar sc (Sqlite3Db.TableExists_sql name) 0) /\
  ((MariaDb.TableExists mdb (Some name) mw).1 = true <->
   0 < Spec.maria_scalar mx (MariaDb.TableExists_sql name) 0).
Proof.
  intros Hd Hsc Hc Hmx. repeat apply conj.
  - unfold Sqlite3Db.TableExists_sql, Sqlite3Db.TableExists_format,
      Cxx.snprintf_str.
    rewrite chars_substring, !chars_append. reflexivity.
  - unfold MariaDb.TableExists_sql, MariaDb.TableExists_format,
      Cxx.snprintf_str.
    rewrite chars_substring, !chars_append. reflexivity.
  - rewrite (sqlite_TableExists_result sdb d sc name sw Hd Hsc).
    apply Z.ltb_lt.
  - rewrite (sqlite_TableExists_result sdb d sc name sw Hd Hsc).
    apply Z.ltb_lt.
  - rewrite (maria_TableExists_result mdb c mx name mw Hc Hmx).
    apply Z.ltb_lt.
  - rewrite (maria_TableExists_result mdb c mx name mw Hc Hmx).
    apply Z.ltb_lt.
Qed.

(** C6 on the connections of [Examples], for the table [emp]. *)
Lemma C6_table_exists_witness :
  (Sqlite3Db.TableExists Examples.sqlite_db (Some "emp"%string)
     Examples.sqlite_world).1 = true /\
  (MariaDb.TableExists Examples.maria_db (Some "emp"%string)
     Examples.maria_world).1 = true.
Proof.
  destruct (C6_table_exists Examples.sqlite_db 0%nat Examples.sqlite_conn
              Examples.sqlite_world Examples.maria_db 0%nat
              Examples.maria_conn Examples.maria_world "emp"
              eq_refl eq_refl eq_refl eq_refl)
    as (_ & _ & Hs & Hm).
  split; [apply Hs | apply Hm]; vm_compute; reflexivity.
Defined.

(** C6 fails on both backends: the name is neither escaped nor bound.
    For a name with a quote in it, the text sent carries the name as it
    is, and the string literal an SQL engine reads after [name='] is
    [emp], not the name; what follows the literal is read as SQL. *)
Lemma C6_quote_counterexample :
  Sqlite3Db.TableExists_sql Examples.quoted_name
  = "SELECT count(*) FROM sqlite_master WHERE type='table' AND name='emp' OR 'a'='a'"%string /\
  Spec.queried_name 64 (Sqlite3Db.TableExists_sql Examples.quoted_name)
  = String.list_ascii_of_string "emp" /\
  Spec.queried_name 97 (MariaDb.TableExists_sql Examples.quoted_name)
  = String.list_ascii_of_string "emp" /\
  String.eqb "emp" Examples.quoted_name = false.
Proof. repeat split; vm_compute; reflexivity. Qed.

(** ** C7: Eof and NextRow *)

(** C7.  A forward cursor made by [ExecQuery] over a result of [R] rows
    (on the embedded connection, on an embedded prepared statement, on
    the client/server connection) reports [Eof] after [k] calls of
    [NextRow] exactly when [R <= k]: at once when the result is empty,
    otherwise not before the [R]-th call, upon it, and ever after. *)
Theorem C7_eof_after_R_rows
    (sdb : Sqlite3Db.t) (d : nat) (sc : Sqlite.Conn) (sql : string)
    (p : Sqlite.Program) (rows : list (list Sqlite.Cell)) (w : Sqlite.World)
    (s : Sqlite3Statement.t) (d' h : nat) (st : Sqlite.Stmt)
    (rows' : list (list Sqlite.Cell)) (w' : Sqlite.World)
    (mdb : MariaDb.t) (c : nat) (mx : Mysql.Conn) (msql : string)
    (fields : list Mysql.MYSQL_FIELD) (mrows : list Mysql.MYSQL_ROW)
    (mw : Mysql.World) (out : option Error.t) (k : nat) :
  Sqlite3Db.db_ sdb = Some d -> Sqlite.conns w !! d = Some sc ->
  Sqlite.conn_prepare sc sql = Sqlite.Prepared p ->
  Sqlite.prog_run p = Sqlite.Row <$> rows ->
  Sqlite3Statement.db_ s = Some d' -> Sqlite3Statement.stmt_ s = Some h ->
  Sqlite.stmts w' !! h = Some st -> Sqlite.stmt_state st = Sqlite.Ready ->
  Sqlite.stmt_todo st = Sqlite.Row <$> rows' ->
  MariaDb.conn_ mdb = Some c -> Mysql.conns mw !! c = Some mx ->
  Mysql.conn_answer mx msql = Mysql.ResultSet fields mrows ->
  Sqlite3Query.Eof
    (Sqlite3Query.NextRow_times k
       (Sqlite3Db.ExecQuery sdb (Some sql) out w).1.1
       (Sqlite3Db.ExecQuery sdb (Some sql) out w).2).1
  = bool_decide (length rows <= k)%nat /\
  Sqlite3Query.Eof
    (Sqlite3Query.NextRow_times k
       (Sqlite3Statement.ExecQuery s out w').1.1.1
       (Sqlite3Statement.ExecQuery s out w').2).1
  = bool_decide (length rows' <= k)%nat /\
  MariaQuery.Eof
    (MariaQuery.NextRow_times k
       (MariaDb.ExecQuery mdb (Some msql) out mw).1.1
       (MariaDb.ExecQuery mdb (Some msql) out mw).2).1
  = bool_decide (length mrows <= k)%nat.
Proof.
  intros Hd Hsc Hp Hrun Hd' Hh Hst Hready Htodo Hc Hmx Hans.
  split; [|split].
  - exact (sqlite_db_cursor_eof sdb d sc sql p rows out w k Hd Hsc Hp Hrun).
  - exact (sqlite_stmt_cursor_eof s d' h st rows' out w' k Hd' Hh Hst
             Hready Htodo).
  - exact (maria_db_cursor_eof mdb c mx msql fields mrows out mw k Hc Hmx
             Hans).
Qed.

(** C7 on the two-row results of [Examples], after one call of
    [NextRow]: not yet at the end. *)
Lemma C7_eof_after_R_rows_witness :
  Sqlite3Query.Eof
    (Sqlite3Query.NextRow_times 1 Examples.sqlite_query
       Examples.sqlite_world2).1 = false /\
  Sqlite3Query.Eof
    (Sqlite3Query.NextRow_times 1
       (Sqlite3Statement.ExecQuery Examples.sqlite_stmt None
          Examples.sqlite_world1).1.1.1
       (Sqlite3Statement.ExecQuery Examples.sqlite_stmt None
          Examples.sqlite_world1).2).1 = false /\
  MariaQuery.Eof
    (MariaQuery.NextRow_times 1 Examples.maria_query
       (MariaDb.ExecQuery Examples.maria_db (Some Examples.maria_sql) None
          Examples.maria_world).2).1 = false.
Proof.
  exact (C7_eof_after_R_rows
           Examples.sqlite_db 0%nat Examples.sqlite_conn Examples.select_sql
           Examples.select_program
           [[Examples.int_cell 1 "1"; Examples.int_cell 0 "Alice"];
            [Examples.int_cell 2 "2"; Examples.null_cell]]
           Examples.sqlite_world
           Examples.sqlite_stmt 0%nat 1%nat
           (Sqlite.mkStmt 0%nat Examples.select_program [Sqlite.VNull]
              Sqlite.Ready (Sqlite.prog_run Examples.select_program)
              None Sqlite.SQLITE_OK)
           [[Examples.int_cell 1 "1"; Examples.int_cell 0 "Alice"];
            [Examples.int_cell 2 "2"; Examples.null_cell]]
           Examples.sqlite_world1
           Examples.maria_db 0%nat Examples.maria_conn Examples.maria_sql
           [Mysql.mkField (Some "n"%string)]
           [[Some "1"%string]; [None]]
           Examples.maria_world None 1%nat
           eq_refl eq_refl eq_refl eq_refl eq_refl eq_refl eq_refl eq_refl
           eq_refl eq_refl eq_refl eq_refl).
Defined.

(** ** C8: typed getters fall back to the default *)

(** C8.  On the cursor of either backend, every typed getter the class
    declares ([GetInt], [GetInt64], [GetDouble], [GetString] by
    position; [GetInt], [GetDouble], [GetString] by name) returns the
    caller's default when the addressed field has no value: the position
    is out of range or the field is NULL (or the cursor is empty), the
    name is null or names no column, or the name resolves to such a
    field.  The getters are total functions that return a value of the
    field's type; they have no way to report an error. *)
Theorem C8_getters_return_default
    (q : Sqlite3Query.t) (w : Sqlite.World) (mq : MariaQuery.t)
    (strtod : string -> Cxx.double) (col mcol : Z) (name mname : Cxx.cstr)
    (d32 d64 : Z) (dd : Cxx.double) (ds : Cxx.cstr) :
  Spec.sqlite_no_value q w col ->
  Spec.sqlite_no_column q w name \/
  Spec.sqlite_no_value q w (Sqlite3Query.FieldIndex q w name) ->
  Spec.maria_no_value mq mcol ->
  Spec.maria_no_column mq mname \/
  Spec.maria_no_value mq (MariaQuery.FieldIndex mq mname) ->
  (Sqlite3Query.GetInt q w col d32 = d32 /\
   Sqlite3Query.GetInt64 q w col d64 = d64 /\
   Sqlite3Query.GetDouble q w col dd = dd /\
   Sqlite3Query.GetString q w col ds = ds) /\
  (Sqlite3Query.GetInt_name q w name d32 = d32 /\
   Sqlite3Query.GetDouble_name q w name dd = dd /\
   Sqlite3Query.GetString_name q w name ds = ds) /\
  (MariaQuery.GetInt mq mcol d32 = d32 /\
   MariaQuery.GetInt64 mq mcol d64 = d64 /\
   MariaQuery.GetDouble strtod mq mcol dd = dd /\
   MariaQuery.GetString mq mcol ds = ds) /\
  (MariaQuery.GetInt_name mq mname d32 = d32 /\
   MariaQuery.GetDouble_name strtod mq mname dd = dd /\
   MariaQuery.GetString_name mq mname ds = ds).
Proof.
  intros H1 H2 H3 H4. split; [|split; [|split]].
  - exact (sqlite_getters_by_position q w col d32 d64 dd ds H1).
  - exact (sqlite_getters_by_name q w name d32 dd ds H2).
  - exact (maria_getters_by_position strtod mq mcol d32 d64 dd ds H3).
  - exact (maria_getters_by_name strtod mq mname d32 dd ds H4).
Qed.

(** C8 on the cursors of [Examples]: position 5 of the two-column
    embedded cursor, the name [salary] that no column has, the NULL
    second column of the second row on the client/server cursor, and a
    null name. *)
Lemma C8_getters_return_default_witness :
  Sqlite3Query.GetInt Examples.sqlite_query Examples.sqlite_world2 5 99 = 99 /\
  Sqlite3Query.GetString_name Examples.sqlite_query Examples.sqlite_world2
    (Some "salary"%string) (Some "none"%string) = Some "none"%string /\
  MariaQuery.GetInt64
    (MariaQuery.NextRow Examples.maria_query
       (MariaDb.ExecQuery Examples.maria_db (Some Examples.maria_sql) None
          Examples.maria_world).2).1 0 77 = 77 /\
  MariaQuery.GetInt_name
    (MariaQuery.NextRow Examples.maria_query
       (MariaDb.ExecQuery Examples.maria_db (Some Examples.maria_sql) None
          Examples.maria_world).2).1 None 7 = 7.
Proof.
  assert (H1 : Spec.sqlite_no_value Examples.sqlite_query
                 Examples.sqlite_world2 5)
    by (right; left; vm_compute; discriminate).
  assert (H2 : Spec.sqlite_no_column Examples.sqlite_query
                 Examples.sqlite_world2 (Some "salary"%string)).
  { change (forall i, 0 <= i < 2 ->
                      Sqlite.sqlite3_column_name Examples.sqlite_world2 1 i
                      <> Some "salary"%string).
    intros i Hi.
    assert (Hc : i = 0 \/ i = 1) by lia.
    destruct Hc as [-> | ->]; vm_compute; discriminate. }
  assert (H3 : Spec.maria_no_value
                 (MariaQuery.NextRow Examples.maria_query
                    (MariaDb.ExecQuery Examples.maria_db
                       (Some Examples.maria_sql) None
                       Examples.maria_world).2).1 0)
    by (right; right; vm_compute; reflexivity).
  assert (H4 : Spec.maria_no_column
                 (MariaQuery.NextRow Examples.maria_query
                    (MariaDb.ExecQuery Examples.maria_db
                       (Some Examples.maria_sql) None
                       Examples.maria_world).2).1 None)
    by (vm_compute; exact I).
  destruct (C8_getters_return_default Examples.sqlite_query
              Examples.sqlite_world2 _ (fun _ => 0) 5 0
              (Some "salary"%string) None 99 77 0 (Some "none"%string)
              H1 (or_introl H2) H3 (or_introl H4))
    as ((Ha & _) & (_ & _ & Hb) & _).
  destruct (C8_getters_return_default Examples.sqlite_query
              Examples.sqlite_world2 _ (fun _ => 0) 5 0
              (Some "salary"%string) None 7 77 0 None
              H1 (or_introl H2) H3 (or_introl H4))
    as (_ & _ & (_ & Hc & _) & (Hd & _)).
  exact (conj Ha (conj Hb (conj Hc Hd))).
Defined.

(** ** C9: a prepared SELECT on the client/server backend *)

(** C9, as the code has it.  [ExecQuery] of a compiled client/server
    statement always returns the empty cursor, leaves the statement as it
    was and, when an error slot is given, leaves an error of kind
    [kError] (GenericFailure) in it.  For a prepared SELECT (the
    statement has result metadata) the message depends on the native
    calls: when the parameters bind (or there is none to bind), the
    statement executes and its result is stored, the message is
    "Prepared SELECT not yet supported, use Db::ExecQuery"; when the
    bind, the execute or the store fails, the message is the engine's
    error text for the statement. *)
Theorem C9_prepared_select_unsupported
    (m : MariaStatement.t) (h c : nat) (ps : Mysql.Stmt)
    (fields : list Mysql.MYSQL_FIELD) (e : Error.t) (w : Mysql.World) :
  MariaStatement.stmt_ m = Some h -> MariaStatement.conn_ m = Some c ->
  Mysql.pstmts w !! h = Some ps ->
  Mysql.ps_metadata ps = Some fields ->
  ((MariaStatement.ExecQuery m (Some e) w).1.1.1 = MariaQuery.default /\
   (MariaStatement.ExecQuery m (Some e) w).1.1.2 = m /\
   exists msg,
     (MariaStatement.ExecQuery m (Some e) w).1.2
     = Some (Error.Set_ e Error.kError msg) /\
     Error.code (Error.Set_ e Error.kError msg) = Error.kError) /\
  ((0 < MariaStatement.num_params_ m -> MariaStatement.binds_ m <> None ->
    Mysql.ps_bind_ok ps = true) ->
   Mysql.ps_execute_ok ps = true -> Mysql.ps_store_ok ps = true ->
   (MariaStatement.ExecQuery m (Some e) w).1.2
   = Some (Error.Set_ e Error.kError
             (Some "Prepared SELECT not yet supported, use Db::ExecQuery"%string))) /\
  (0 < MariaStatement.num_params_ m -> MariaStatement.binds_ m <> None ->
   Mysql.ps_bind_ok ps = false ->
   (MariaStatement.ExecQuery m (Some e) w).1.2
   = Some (Error.Set_ e Error.kError (Some (Mysql.ps_error ps)))) /\
  ((0 < MariaStatement.num_params_ m -> MariaStatement.binds_ m <> None ->
    Mysql.ps_bind_ok ps = true) ->
   Mysql.ps_execute_ok ps = false ->
   (MariaStatement.ExecQuery m (Some e) w).1.2
   = Some (Error.Set_ e Error.kError (Some (Mysql.ps_error ps)))) /\
  ((0 < MariaStatement.num_params_ m -> MariaStatement.binds_ m <> None ->
    Mysql.ps_bind_ok ps = true) ->
   Mysql.ps_execute_ok ps = true -> Mysql.ps_store_ok ps = false ->
   (MariaStatement.ExecQuery m (Some e) w).1.2
   = Some (Error.Set_ e Error.kError (Some (Mysql.ps_error ps)))) /\
  (forall m' w', MariaStatement.stmt_ m' = Some h ->
                 MariaStatement.conn_ m' = Some c ->
     (MariaStatement.ExecQuery m' (Some e) w').1.1.1 = MariaQuery.default /\
     exists e', (MariaStatement.ExecQuery m' (Some e) w').1.2 = Some e' /\
                Error.code e' = Error.kError).
Proof.
  intros Hh Hc Hps Hmeta.
  (* every path sets the slot to [kError] *)
  assert (Hall : forall m' w', MariaStatement.stmt_ m' = Some h ->
                   MariaStatement.conn_ m' = Some c ->
            exists msg, (MariaStatement.ExecQuery m' (Some e) w').1.2
                        = Some (Error.Set_ e Error.kError msg)).
  { intros m' w' Hh' Hc'. unfold MariaStatement.ExecQuery. rewrite Hh', Hc'.
    destruct (_ && _); [eexists; reflexivity|].
    destruct (Mysql.mysql_stmt_execute w' h) as [rc w0].
    destruct (negb (rc =? 0)); [eexists; reflexivity|].
    destruct (Mysql.mysql_stmt_result_metadata w0 h) as [[mt|] w1];
      [|eexists; reflexivity].
    destruct (Mysql.mysql_stmt_store_result _ h) as [rc2 w3].
    destruct (negb _); eexists; reflexivity. }
  (* whether the bind call is made and fails *)
  assert (Hbind :
            (0 < MariaStatement.num_params_ m ->
             MariaStatement.binds_ m <> None -> Mysql.ps_bind_ok ps = true) ->
            (0 <? MariaStatement.num_params_ m)
            && match MariaStatement.binds_ m with
               | Some _ => true
               | None => false
               end
            && negb (Mysql.mysql_stmt_bind_param w h =? 0) = false).
  { intros Hb. unfold Mysql.mysql_stmt_bind_param. rewrite Hps.
    destruct (Z.ltb_spec 0 (MariaStatement.num_params_ m)) as [Hn|Hn];
      [|reflexivity].
    destruct (MariaStatement.binds_ m) as [bs|] eqn:Hbs; [|reflexivity].
    rewrite (Hb Hn ltac:(discriminate)). reflexivity. }
  split; [|split; [|split; [|split; [|split]]]].
  - split; [apply maria_ExecQuery_never_transfers|].
    split; [apply maria_ExecQuery_never_transfers|].
    destruct (Hall m w Hh Hc) as [msg Hmsg].
    exists msg. split; [exact Hmsg|apply Set_code].
  - intros Hb Hx Hst. unfold MariaStatement.ExecQuery. rewrite Hh, Hc.
    rewrite (Hbind Hb).
    unfold Mysql.mysql_stmt_execute. rewrite Hps, Hx, Hmeta.
    change (negb (0 =? 0)) with false. cbv iota.
    unfold Mysql.mysql_stmt_result_metadata, Mysql.set_unread.
    cbn [Mysql.pstmts]. rewrite lookup_insert_eq.
    cbn [Mysql.ps_metadata]. rewrite Hmeta.
    unfold Mysql.mysql_stmt_store_result, Mysql.mysql_free_result.
    cbn [Mysql.pstmts]. rewrite lookup_insert_eq.
    cbn [Mysql.ps_store_ok]. rewrite Hst.
    change (negb (0 =? 0)) with false. reflexivity.
  - intros Hn Hbs Hb. unfold MariaStatement.ExecQuery. rewrite Hh, Hc.
    unfold Mysql.mysql_stmt_bind_param, Mysql.mysql_stmt_error.
    rewrite Hps, Hb.
    replace (0 <? MariaStatement.num_params_ m) with true
      by (symmetry; apply Z.ltb_lt; exact Hn).
    destruct (MariaStatement.binds_ m) as [bs|];
      [|contradiction Hbs; reflexivity].
    reflexivity.
  - intros Hb Hx. unfold MariaStatement.ExecQuery. rewrite Hh, Hc.
    rewrite (Hbind Hb).
    unfold Mysql.mysql_stmt_execute, Mysql.mysql_stmt_error.
    rewrite Hps, Hx. change (negb (1 =? 0)) with true. cbv iota.
    cbn [fst snd]. rewrite Hps. reflexivity.
  - intros Hb Hx Hst. unfold MariaStatement.ExecQuery. rewrite Hh, Hc.
    rewrite (Hbind Hb).
    unfold Mysql.mysql_stmt_execute. rewrite Hps, Hx, Hmeta.
    change (negb (0 =? 0)) with false. cbv iota.
    unfold Mysql.mysql_stmt_result_metadata, Mysql.set_unread.
    cbn [Mysql.pstmts]. rewrite lookup_insert_eq.
    cbn [Mysql.ps_metadata]. rewrite Hmeta.
    unfold Mysql.mysql_stmt_store_result, Mysql.mysql_free_result,
      Mysql.mysql_stmt_error.
    cbn [Mysql.pstmts]. rewrite lookup_insert_eq.
    cbn [Mysql.ps_store_ok]. rewrite Hst.
    change (negb (1 =? 0)) with true. cbv iota. cbn [fst snd Mysql.pstmts].
    rewrite lookup_insert_eq. reflexivity.
  - intros m' w' Hh' Hc'. split; [apply maria_ExecQuery_never_transfers|].
    destruct (Hall m' w' Hh' Hc') as [msg Hmsg].
    eexists. split; [exact Hmsg|apply Set_code].
Qed.

(** C9 on the prepared SELECT of [Examples], with a fresh error slot:
    every native call succeeds, and the message is the directive. *)
Lemma C9_prepared_select_unsupported_witness :
  (MariaStatement.ExecQuery Examples.maria_stmt (Some Error.default)
     Examples.maria_world1).1.1.1 = MariaQuery.default /\
  (MariaStatement.ExecQuery Examples.maria_stmt (Some Error.default)
     Examples.maria_world1).1.2
  = Some (Error.Set_ Error.default Error.kError
            (Some "Prepared SELECT not yet supported, use Db::ExecQuery"%string)).
Proof.
  destruct (C9_prepared_select_unsupported Examples.maria_stmt 1%nat 0%nat
              Examples.maria_select
              [Mysql.mkField (Some "empno"%string)] Error.default
              Examples.maria_world1 eq_refl eq_refl eq_refl eq_refl)
    as ((H1 & _) & H2 & _).
  exact (conj H1 (H2 (fun _ _ => eq_refl) eq_refl eq_refl)).
Defined.

(** C9 fails when a native call fails: the prepared SELECT of
    [Examples] on a server that has gone away has result metadata, its
    execute fails, and the error [ExecQuery] reports carries the engine's
    text, "MySQL server has gone away", which is not the message that
    directs the caller to the non-prepared query path. *)
Lemma C9_execute_fails_counterexample :
  MariaStatement.Valid Examples.gone_stmt = true /\
  Mysql.ps_metadata Examples.gone_select
  = Some [Mysql.mkField (Some "empno"%string)] /\
  (Mysql.mysql_stmt_execute Examples.gone_world 1%nat).1 <> 0 /\
  (MariaStatement.ExecQuery Examples.gone_stmt (Some Error.default)
     Examples.gone_world).1.2
  = Some (Error.Set_ Error.default Error.kError
            (Some "MySQL server has gone away"%string)) /\
  Error.Set_ Error.default Error.kError
    (Some "MySQL server has gone away"%string)
  <> Error.Set_ Error.default Error.kError
       (Some "Prepared SELECT not yet supported, use Db::ExecQuery"%string).
Proof.
  split; [reflexivity|]. split; [reflexivity|].
  split; [vm_compute; discriminate|]. split; [reflexivity|].
  vm_compute. discriminate.
Qed.

(** ** C10: the error message stays inside its buffer *)

(** C10.  After [Set] or [SetFormat] on an error object (whose message
    buffer has its 256 bytes), with any code and any message or format
    argument, the code is the given one, the buffer still has 256 bytes
    and holds a NUL-terminated string of at most 255 characters: the
    characters of the message cut to 255 (for [SetFormat], the expansion
    of the format cut to 255), the empty string when the argument is
    null. *)
Theorem C10_message_bounded {Args : Type}
    (vformat : string -> Args -> list ascii)
    (e : Error.t) (c : Error.ErrorCode) (msg fmt : Cxx.cstr) (ap : Args) :
  length (Error.message e) = Error.kMaxMessageLen ->
  Spec.holds_message (Error.Set_ e c msg) c
    match msg with
    | Some m => take 255 (Cxx.c_str (String.list_ascii_of_string m))
    | None => []
    end /\
  Spec.holds_message (Error.SetFormat vformat e c fmt ap) c
    match fmt with
    | Some f => Cxx.c_str (take 255 (vformat f ap))
    | None => []
    end.
Proof.
  intros Hlen. split.
  - destruct msg as [m|].
    + apply Set_holds_message. exact Hlen.
    + apply holds_empty_message. exact Hlen.
  - destruct fmt as [f|].
    + apply SetFormat_holds_message. exact Hlen.
    + apply holds_empty_message. exact Hlen.
Qed.

(** C10 on a fresh error object, a short message and a null format. *)
Lemma C10_message_bounded_witness :
  Spec.holds_message
    (Error.Set_ Error.default Error.kMisuse
       (Some "Statement not initialized"%string))
    Error.kMisuse
    (String.list_ascii_of_string "Statement not initialized") /\
  Spec.holds_message
    (Error.SetFormat Examples.plain_format Error.default Error.kMisuse None tt)
    Error.kMisuse [].
Proof.
  exact (C10_message_bounded Examples.plain_format Error.default Error.kMisuse
           (Some "Statement not initialized"%string) None tt eq_refl).
Defined.

(** * Further properties of the connections, cursors and statements *)

(** ** Column names: [FieldIndex] and [FieldName] *)

Section FirstMatch.
Import Cxx.

(** The [FieldIndex] loops of the four cursor classes are one loop over
    a way [name_at] to read the name of a column. *)
Variable name_at : Z -> cstr.
Variable loop : string -> Z -> nat -> Z.
Hypothesis loop_end : forall nm i, loop nm i O = -1.
Hypothesis loop_round : forall nm i n,
  loop nm i (S n)
  = match name_at i with
    | Some col_name =>
        if strcmp_eq nm col_name then i else loop nm (i + 1) n
    | None => loop nm (i + 1) n
    end.

Lemma loop_first_match nm n : forall i,
  (loop nm i n = -1 /\
   forall j, i <= j < i + Z.of_nat n -> name_at j <> Some nm) \/
  (i <= loop nm i n < i + Z.of_nat n /\
   name_at (loop nm i n) = Some nm /\
   forall j, i <= j < loop nm i n -> name_at j <> Some nm).
Proof.
  induction n as [|n IH]; intros i.
  - left. rewrite loop_end. split; [reflexivity|]. intros j Hj. lia.
  - rewrite loop_round.
    assert (Hstep : name_at i <> Some nm ->
      (loop nm (i + 1) n = -1 /\
       forall j, i <= j < i + Z.of_nat (S n) -> name_at j <> Some nm) \/
      (i <= loop nm (i + 1) n < i + Z.of_nat (S n) /\
       name_at (loop nm (i + 1) n) = Some nm /\
       forall j, i <= j < loop nm (i + 1) n -> name_at j <> Some nm)).
    { intros Hi. destruct (IH (i + 1)) as [[Hr Hall]|(Hr & Hat & Hall)].
      - left. split; [exact Hr|]. intros j Hj.
        destruct (decide (j = i)) as [->|]; [exact Hi|]. apply Hall. lia.
      - right. split; [lia|]. split; [exact Hat|]. intros j Hj.
        destruct (decide (j = i)) as [->|]; [exact Hi|]. apply Hall. lia. }
    destruct (name_at i) as [col_name|] eqn:E.
    + unfold strcmp_eq. destruct (String.eqb_spec nm col_name) as [<-|Hne].
      * right. split; [lia|]. split; [exact E|]. intros j Hj. lia.
      * apply Hstep. congruence.
    + apply Hstep. discriminate.
Qed.

End FirstMatch.

Section FieldIndex.
Import Cxx.

(** X7: [Sqlite3Query::FieldIndex] finds the first column of that name.
    Either it returns -1 and [FieldName] gives that name at no position,
    or it returns a position inside [0, NumFields) where [FieldName]
    gives the name, and no earlier position does. *)
Theorem sqlite_query_FieldIndex_first (q : Sqlite3Query.t) (w : Sqlite.World)
    (nm : string) :
  (Sqlite3Query.FieldIndex q w (Some nm) = -1 /\
   forall j, Sqlite3Query.FieldName q w j <> Some nm) \/
  (0 <= Sqlite3Query.FieldIndex q w (Some nm) < Sqlite3Query.NumFields q /\
   Sqlite3Query.FieldName q w (Sqlite3Query.FieldIndex q w (Some nm))
   = Some nm /\
   forall j, j < Sqlite3Query.FieldIndex q w (Some nm) ->
             Sqlite3Query.FieldName q w j <> Some nm).
Proof.
  unfold Sqlite3Query.FieldIndex, Sqlite3Query.FieldName,
    Sqlite3Query.NumFields.
  destruct (Sqlite3Query.stmt_ q) as [h|];
    [|left; split; [reflexivity|discriminate]].
  assert (Hout : forall j,
    (j <? 0) || (Sqlite3Query.num_fields_ q <=? j) = false ->
    0 <= j < 0 + Z.of_nat (Z.to_nat (Sqlite3Query.num_fields_ q))).
  { intros j Hj. apply orb_false_iff in Hj. destruct Hj as [H1 H2].
    apply Z.ltb_ge in H1. apply Z.leb_gt in H2. lia. }
  destruct (loop_first_match (Sqlite.sqlite3_column_name w h)
              (Sqlite3Query.FieldIndex_from w h)
              ltac:(reflexivity) ltac:(reflexivity) nm
              (Z.to_nat (Sqlite3Query.num_fields_ q)) 0)
    as [[Hr Hall]|(Hr & Hat & Hall)].
  - left. split; [exact Hr|]. intros j.
    destruct ((j <? 0) || (Sqlite3Query.num_fields_ q <=? j)) eqn:Hj;
      [discriminate|]. apply Hall, Hout, Hj.
  - right. split; [lia|]. split.
    + replace ((_ <? 0) || (Sqlite3Query.num_fields_ q <=? _)) with false;
        [exact Hat|].
      symmetry. apply orb_false_iff.
      split; [apply Z.ltb_ge|apply Z.leb_gt]; lia.
    + intros j Hlt.
      destruct ((j <? 0) || (Sqlite3Query.num_fields_ q <=? j)) eqn:Hj;
        [discriminate|]. apply Hall. specialize (Hout j Hj). lia.
Qed.

(** X8: the same for [Sqlite3ResultSet::FieldIndex]. *)
Theorem sqlite_result_set_FieldIndex_first (rs : Sqlite3ResultSet.t)
    (nm : string) :
  (Sqlite3ResultSet.FieldIndex rs (Some nm) = -1 /\
   forall j, Sqlite3ResultSet.FieldName rs j <> Some nm) \/
  (0 <= Sqlite3ResultSet.FieldIndex rs (Some nm)
   < Sqlite3ResultSet.NumFields rs /\
   Sqlite3ResultSet.FieldName rs (Sqlite3ResultSet.FieldIndex rs (Some nm))
   = Some nm /\
   forall j, j < Sqlite3ResultSet.FieldIndex rs (Some nm) ->
             Sqlite3ResultSet.FieldName rs j <> Some nm).
Proof.
  unfold Sqlite3ResultSet.FieldIndex, Sqlite3ResultSet.FieldName,
    Sqlite3ResultSet.NumFields.
  destruct (Sqlite3ResultSet.results_ rs) as [results|];
    [|left; split; [reflexivity|discriminate]].
  assert (Hout : forall j,
    (j <? 0) || (Sqlite3ResultSet.num_cols_ rs <=? j) = false ->
    0 <= j < 0 + Z.of_nat (Z.to_nat (Sqlite3ResultSet.num_cols_ rs))).
  { intros j Hj. apply orb_false_iff in Hj. destruct Hj as [H1 H2].
    apply Z.ltb_ge in H1. apply Z.leb_gt in H2. lia. }
  destruct (loop_first_match (fun i => mjoin (results !! Z.to_nat i))
              (Sqlite3ResultSet.FieldIndex_from results)
              ltac:(reflexivity) ltac:(reflexivity) nm
              (Z.to_nat (Sqlite3ResultSet.num_cols_ rs)) 0)
    as [[Hr Hall]|(Hr & Hat & Hall)].
  - left. split; [exact Hr|]. intros j.
    destruct ((j <? 0) || (Sqlite3ResultSet.num_cols_ rs <=? j)) eqn:Hj;
      [discriminate|]. apply Hall, Hout, Hj.
  - right. split; [lia|]. split.
    + replace ((_ <? 0) || (Sqlite3ResultSet.num_cols_ rs <=? _)) with false;
        [exact Hat|].
      symmetry. apply orb_false_iff.
      split; [apply Z.ltb_ge|apply Z.leb_gt]; lia.
    + intros j Hlt.
      destruct ((j <? 0) || (Sqlite3ResultSet.num_cols_ rs <=? j)) eqn:Hj;
        [discriminate|]. apply Hall. specialize (Hout j Hj). lia.
Qed.

(** The two client/server classes share one loop. *)
Lemma maria_fields_first_match fields nm (n : Z) :
  (MariaQuery.FieldIndex_from fields nm 0 (Z.to_nat n) = -1 /\
   forall j, 0 <= j < n -> MariaQuery.field_name fields j <> Some nm) \/
  (0 <= MariaQuery.FieldIndex_from fields nm 0 (Z.to_nat n) < n /\
   MariaQuery.field_name fields
     (MariaQuery.FieldIndex_from fields nm 0 (Z.to_nat n)) = Some nm /\
   forall j, 0 <= j < MariaQuery.FieldIndex_from fields nm 0 (Z.to_nat n) ->
             MariaQuery.field_name fields j <> Some nm).
Proof.
  destruct (loop_first_match (MariaQuery.field_name fields)
              (MariaQuery.FieldIndex_from fields)
              ltac:(reflexivity) ltac:(reflexivity) nm (Z.to_nat n) 0)
    as [[Hr Hall]|(Hr & Hat & Hall)].
  - left. split; [exact Hr|]. intros j Hj. apply Hall. lia.
  - right. split; [lia|]. split; [exact Hat|exact Hall].
Qed.

(** X9: the same for [MariaQuery::FieldIndex] and
    [MariaResultSet::FieldIndex]. *)
Theorem maria_FieldIndex_first (q : MariaQuery.t) (rs : MariaResultSet.t)
    (nm : string) :
  ((MariaQuery.FieldIndex q (Some nm) = -1 /\
    forall j, MariaQuery.FieldName q j <> Some nm) \/
   (0 <= MariaQuery.FieldIndex q (Some nm) < MariaQuery.NumFields q /\
    MariaQuery.FieldName q (MariaQuery.FieldIndex q (Some nm)) = Some nm /\
    forall j, j < MariaQuery.FieldIndex q (Some nm) ->
              MariaQuery.FieldName q j <> Some nm)) /\
  ((MariaResultSet.FieldIndex rs (Some nm) = -1 /\
    forall j, MariaResultSet.FieldName rs j <> Some nm) \/
   (0 <= MariaResultSet.FieldIndex rs (Some nm)
    < MariaResultSet.NumFields rs /\
    MariaResultSet.FieldName rs (MariaResultSet.FieldIndex rs (Some nm))
    = Some nm /\
    forall j, j < MariaResultSet.FieldIndex rs (Some nm) ->
              MariaResultSet.FieldName rs j <> Some nm)).
Proof.
  split.
  - unfold MariaQuery.FieldIndex, MariaQuery.FieldName, MariaQuery.NumFields.
    destruct (MariaQuery.fields_ q) as [fields|];
      [|left; split; [reflexivity|discriminate]].
    destruct (maria_fields_first_match fields nm (MariaQuery.num_fields_ q))
      as [[Hr Hall]|(Hr & Hat & Hall)].
    + left. split; [exact Hr|]. intros j.
      destruct ((j <? 0) || (MariaQuery.num_fields_ q <=? j)) eqn:Hj;
        [discriminate|].
      apply orb_false_iff in Hj. destruct Hj as [H1 H2].
      apply Z.ltb_ge in H1. apply Z.leb_gt in H2. apply Hall. lia.
    + right. split; [exact Hr|]. split.
      * replace ((_ <? 0) || (MariaQuery.num_fields_ q <=? _)) with false;
          [exact Hat|].
        symmetry. apply orb_false_iff.
        split; [apply Z.ltb_ge|apply Z.leb_gt]; lia.
      * intros j Hlt.
        destruct ((j <? 0) || (MariaQuery.num_fields_ q <=? j)) eqn:Hj;
          [discriminate|].
        apply orb_false_iff in Hj. destruct Hj as [H1 H2].
        apply Z.ltb_ge in H1. apply Hall. lia.
  - unfold MariaResultSet.FieldIndex, MariaResultSet.FieldName,
      MariaResultSet.NumFields.
    destruct (MariaResultSet.fields_ rs) as [fields|];
      [|left; split; [reflexivity|discriminate]].
    destruct (maria_fields_first_match fields nm (MariaResultSet.num_cols_ rs))
      as [[Hr Hall]|(Hr & Hat & Hall)].
    + left. split; [exact Hr|]. intros j.
      destruct ((j <? 0) || (MariaResultSet.num_cols_ rs <=? j)) eqn:Hj;
        [discriminate|].
      apply orb_false_iff in Hj. destruct Hj as [H1 H2].
      apply Z.ltb_ge in H1. apply Z.leb_gt in H2. apply Hall. lia.
    + right. split; [exact Hr|]. split.
      * replace ((_ <? 0) || (MariaResultSet.num_cols_ rs <=? _)) with false;
          [exact Hat|].
        symmetry. apply orb_false_iff.
        split; [apply Z.ltb_ge|apply Z.leb_gt]; lia.
      * intros j Hlt.
        destruct ((j <? 0) || (MariaResultSet.num_cols_ rs <=? j)) eqn:Hj;
          [discriminate|].
        apply orb_false_iff in Hj. destruct Hj as [H1 H2].
        apply Z.ltb_ge in H1. apply Hall. lia.
Qed.

End FieldIndex.

(** ** Walking a result set to its end *)

Section ResultSetWalk.
Import Cxx.

Lemma sqlite_NextRow_times_at_end k : forall rs,
  Sqlite3ResultSet.num_rows_ rs <= Sqlite3ResultSet.current_row_ rs ->
  Sqlite3ResultSet.NextRow_times k rs = rs.
Proof.
  induction k as [|k IH]; intros rs Hend; [reflexivity|].
  cbn [Sqlite3ResultSet.NextRow_times].
  assert (Hrs : Sqlite3ResultSet.NextRow rs = rs).
  { unfold Sqlite3ResultSet.NextRow.
    replace (Sqlite3ResultSet.current_row_ rs <? Sqlite3ResultSet.num_rows_ rs)
      with false by (symmetry; apply Z.ltb_ge; lia). reflexivity. }
  rewrite Hrs. apply IH. exact Hend.
Qed.

(** X10: [NextRow] on a [Sqlite3ResultSet] counts up to the number of
    rows and stops there: after [k] calls from row [c] the current row
    is [min (c + k) R], and [Eof] holds exactly when [R <= c + k]. *)
Theorem sqlite_result_set_NextRow_saturates (rs : Sqlite3ResultSet.t)
    (k : nat) :
  0 <= Sqlite3ResultSet.CurrentRow rs <= Sqlite3ResultSet.NumRows rs ->
  Sqlite3ResultSet.NumRows rs < 2 ^ 32 ->
  Sqlite3ResultSet.CurrentRow (Sqlite3ResultSet.NextRow_times k rs)
  = Z.min (Sqlite3ResultSet.CurrentRow rs + Z.of_nat k)
          (Sqlite3ResultSet.NumRows rs) /\
  Sqlite3ResultSet.Eof (Sqlite3ResultSet.NextRow_times k rs)
  = (Sqlite3ResultSet.NumRows rs
     <=? Sqlite3ResultSet.CurrentRow rs + Z.of_nat k) /\
  Sqlite3ResultSet.NumRows (Sqlite3ResultSet.NextRow_times k rs)
  = Sqlite3ResultSet.NumRows rs /\
  Sqlite3ResultSet.NumFields (Sqlite3ResultSet.NextRow_times k rs)
  = Sqlite3ResultSet.NumFields rs.
Proof.
  unfold Sqlite3ResultSet.CurrentRow, Sqlite3ResultSet.NumRows,
    Sqlite3ResultSet.Eof, Sqlite3ResultSet.NumFields.
  revert rs. induction k as [|k IH]; intros rs Hc Hr.
  - cbn [Sqlite3ResultSet.NextRow_times]. rewrite Z.add_0_r.
    rewrite Z.min_l by lia. auto.
  - cbn [Sqlite3ResultSet.NextRow_times].
    destruct (Z.ltb_spec (Sqlite3ResultSet.current_row_ rs)
                (Sqlite3ResultSet.num_rows_ rs)) as [Hlt|Hge].
    + assert (Hn : Sqlite3ResultSet.NextRow rs
                   = Sqlite3ResultSet.set_current_row rs
                       (Sqlite3ResultSet.current_row_ rs + 1)).
      { unfold Sqlite3ResultSet.NextRow.
        replace (Sqlite3ResultSet.current_row_ rs
                 <? Sqlite3ResultSet.num_rows_ rs)
          with true by (symmetry; apply Z.ltb_lt; lia).
        unfold to_uint32. rewrite Z.mod_small by lia. reflexivity. }
      rewrite Hn.
      destruct (IH (Sqlite3ResultSet.set_current_row rs
                      (Sqlite3ResultSet.current_row_ rs + 1)))
        as (H1 & H2 & H3 & H4); [cbn; lia | cbn; lia |].
      cbn [Sqlite3ResultSet.set_current_row Sqlite3ResultSet.current_row_
             Sqlite3ResultSet.num_rows_ Sqlite3ResultSet.num_cols_]
        in H1, H2, H3, H4.
      rewrite H2, H1, H3, H4.
      replace (Sqlite3ResultSet.current_row_ rs + 1 + Z.of_nat k)
        with (Sqlite3ResultSet.current_row_ rs + Z.of_nat (S k)) by lia.
      auto.
    + assert (Hn : Sqlite3ResultSet.NextRow rs = rs).
      { unfold Sqlite3ResultSet.NextRow.
        replace (Sqlite3ResultSet.current_row_ rs
                 <? Sqlite3ResultSet.num_rows_ rs)
          with false by (symmetry; apply Z.ltb_ge; lia). reflexivity. }
      rewrite Hn, sqlite_NextRow_times_at_end by lia.
      rewrite Z.min_r by lia.
      replace (Sqlite3ResultSet.num_rows_ rs
               <=? Sqlite3ResultSet.current_row_ rs + Z.of_nat (S k))
        with true by (symmetry; apply Z.leb_le; lia).
      replace (Sqlite3ResultSet.num_rows_ rs
               <=? Sqlite3ResultSet.current_row_ rs)
        with true by (symmetry; apply Z.leb_le; lia).
      repeat split; lia.
Qed.

(** X10 on three rows: four calls from the start stop at row 3, the end. *)
Lemma sqlite_result_set_NextRow_saturates_witness :
  Sqlite3ResultSet.CurrentRow
    (Sqlite3ResultSet.NextRow_times 4 Examples.emp_result_set)
  = Z.min (Sqlite3ResultSet.CurrentRow Examples.emp_result_set + Z.of_nat 4)
          (Sqlite3ResultSet.NumRows Examples.emp_result_set) /\
  Sqlite3ResultSet.Eof
    (Sqlite3ResultSet.NextRow_times 4 Examples.emp_result_set)
  = (Sqlite3ResultSet.NumRows Examples.emp_result_set
     <=? Sqlite3ResultSet.CurrentRow Examples.emp_result_set + Z.of_nat 4).
Proof.
  assert (Hc : 0 <= Sqlite3ResultSet.CurrentRow Examples.emp_result_set
               <= Sqlite3ResultSet.NumRows Examples.emp_result_set)
    by (vm_compute; split; discriminate).
  assert (Hr : Sqlite3ResultSet.NumRows Examples.emp_result_set < 2 ^ 32)
    by (vm_compute; reflexivity).
  destruct (sqlite_result_set_NextRow_saturates Examples.emp_result_set 4
              Hc Hr) as (H1 & H2 & _).
  exact (conj H1 H2).
Defined.

Import Mysql.

(** X11: the same on a [MariaResultSet] that holds a stored result; once
    the end is reached there is no current row, and every [FieldValue]
    is null. *)
Theorem maria_result_set_NextRow_saturates (k : nat) :
  forall (rs : MariaResultSet.t) (h : nat) (w : World),
  MariaResultSet.res_ rs = Some h ->
  0 <= MariaResultSet.current_row_ rs <= MariaResultSet.num_rows_ rs ->
  MariaResultSet.num_rows_ rs < 2 ^ 64 ->
  MariaResultSet.current_row_ (MariaResultSet.NextRow_times k rs w).1
  = Z.min (MariaResultSet.current_row_ rs + Z.of_nat k)
          (MariaResultSet.num_rows_ rs) /\
  MariaResultSet.Eof (MariaResultSet.NextRow_times k rs w).1
  = (MariaResultSet.num_rows_ rs
     <=? MariaResultSet.current_row_ rs + Z.of_nat k) /\
  MariaResultSet.num_rows_ (MariaResultSet.NextRow_times k rs w).1
  = MariaResultSet.num_rows_ rs /\
  (MariaResultSet.current_row_ rs < MariaResultSet.num_rows_ rs
   <= MariaResultSet.current_row_ rs + Z.of_nat k ->
   forall col,
     MariaResultSet.FieldValue (MariaResultSet.NextRow_times k rs w).1 col
     = None).
Proof.
  unfold MariaResultSet.Eof.
  induction k as [|k IH]; intros rs h w Hh Hc Hr.
  - cbn [MariaResultSet.NextRow_times fst]. rewrite Z.add_0_r.
    rewrite Z.min_l by lia. repeat split; try reflexivity. intros Hk. lia.
  - cbn [MariaResultSet.NextRow_times]. unfold MariaResultSet.NextRow.
    rewrite Hh.
    destruct (Z.leb_spec (MariaResultSet.num_rows_ rs)
                (MariaResultSet.current_row_ rs)) as [Hend|Hlt].
    + destruct (IH rs h w Hh Hc Hr) as (H1 & H2 & H3 & _).
      rewrite H2, H1, H3. rewrite !Z.min_r by lia.
      replace (MariaResultSet.num_rows_ rs
               <=? MariaResultSet.current_row_ rs + Z.of_nat k)
        with true by (symmetry; apply Z.leb_le; lia).
      replace (MariaResultSet.num_rows_ rs
               <=? MariaResultSet.current_row_ rs + Z.of_nat (S k))
        with true by (symmetry; apply Z.leb_le; lia).
      repeat split; try reflexivity. intros Hk. lia.
    + unfold to_uint64. rewrite Z.mod_small by lia.
      destruct (Z.ltb_spec (MariaResultSet.current_row_ rs + 1)
                  (MariaResultSet.num_rows_ rs)) as [Hmore|Hlast].
      * destruct (mysql_fetch_row w h) as [row w1].
        match goal with
        | |- context [MariaResultSet.NextRow_times k ?R ?W] =>
            destruct (IH R h W) as (H1 & H2 & H3 & H4)
        end; [reflexivity | cbn; lia | exact Hr |].
        cbn [MariaResultSet.current_row_ MariaResultSet.num_rows_]
          in H1, H2, H3, H4.
        rewrite H2, H1, H3.
        replace (MariaResultSet.current_row_ rs + 1 + Z.of_nat k)
          with (MariaResultSet.current_row_ rs + Z.of_nat (S k)) by lia.
        repeat split; try reflexivity.
        intros Hk. apply H4. lia.
      * match goal with
        | |- context [MariaResultSet.NextRow_times k ?R ?W] =>
            destruct (IH R h W) as (H1 & H2 & H3 & _);
            [reflexivity | cbn; lia | exact Hr |];
            pose proof (IH R h W eq_refl) as Hrow
        end.
        cbn [MariaResultSet.current_row_ MariaResultSet.num_rows_]
          in H1, H2, H3.
        rewrite H2, H1, H3.
        replace (MariaResultSet.current_row_ rs + 1 + Z.of_nat k)
          with (MariaResultSet.current_row_ rs + Z.of_nat (S k)) by lia.
        repeat split; try reflexivity.
        intros _ col. clear Hrow H1 H2 H3.
        (* at the end the object does not change any more *)
        assert (Hstay : forall n (r : MariaResultSet.t) (w' : World),
                  MariaResultSet.num_rows_ r <= MariaResultSet.current_row_ r ->
                  (MariaResultSet.NextRow_times n r w').1 = r).
        { clear. induction n as [|n IHn]; intros r w' Hend; [reflexivity|].
          cbn [MariaResultSet.NextRow_times]. unfold MariaResultSet.NextRow.
          destruct (MariaResultSet.res_ r); [|apply IHn; exact Hend].
          replace (MariaResultSet.num_rows_ r <=? MariaResultSet.current_row_ r)
            with true by (symmetry; apply Z.leb_le; lia).
          apply IHn. exact Hend. }
        rewrite Hstay by (cbn; lia). reflexivity.
Qed.


(** X11 on three rows: four calls from the start stop at the end, where
    [FieldValue] is null. *)
Lemma maria_result_set_NextRow_saturates_witness :
  MariaResultSet.current_row_
    (MariaResultSet.NextRow_times 4 Examples.maria_result_set
       Examples.emp_world1).1
  = Z.min (MariaResultSet.current_row_ Examples.maria_result_set
           + Z.of_nat 4)
          (MariaResultSet.num_rows_ Examples.maria_result_set) /\
  MariaResultSet.Eof
    (MariaResultSet.NextRow_times 4 Examples.maria_result_set
       Examples.emp_world1).1
  = (MariaResultSet.num_rows_ Examples.maria_result_set
     <=? MariaResultSet.current_row_ Examples.maria_result_set
         + Z.of_nat 4) /\
  MariaResultSet.FieldValue
    (MariaResultSet.NextRow_times 4 Examples.maria_result_set
       Examples.emp_world1).1 0 = None.
Proof.
  assert (Hh : MariaResultSet.res_ Examples.maria_result_set = Some 1%nat)
    by (vm_compute; reflexivity).
  assert (Hc : 0 <= MariaResultSet.current_row_ Examples.maria_result_set
               <= MariaResultSet.num_rows_ Examples.maria_result_set)
    by (vm_compute; split; discriminate).
  assert (Hr : MariaResultSet.num_rows_ Examples.maria_result_set < 2 ^ 64)
    by (vm_compute; reflexivity).
  assert (Hk : MariaResultSet.current_row_ Examples.maria_result_set
               < MariaResultSet.num_rows_ Examples.maria_result_set
               <= MariaResultSet.current_row_ Examples.maria_result_set
                  + Z.of_nat 4)
    by (vm_compute; split; [reflexivity|discriminate]).
  destruct (maria_result_set_NextRow_saturates 4 Examples.maria_result_set
              1%nat Examples.emp_world1 Hh Hc Hr) as (H1 & H2 & _ & H4).
  exact (conj H1 (conj H2 (H4 Hk 0))).
Defined.

End ResultSetWalk.

(** ** Forward cursors show the rows in the engine's order *)

Section SqliteCursorRows.
Import Cxx Sqlite.

(** A cursor standing on a row [cells0] of a running statement, with
    [rest] still to come: [k] calls of [NextRow] leave the cursor object
    as it is and make row [k] of [cells0 :: rest] the current one. *)
Lemma sqlite_NextRow_times_row k : forall q w h s cells0 rest cells,
  Sqlite3Query.stmt_ q = Some h -> stmts w !! h = Some s ->
  stmt_state s <> Halted -> stmt_row s = Some cells0 ->
  stmt_todo s = Row <$> rest ->
  (cells0 :: rest) !! k = Some cells ->
  (Sqlite3Query.NextRow_times k q w).1 = q /\
  exists s', stmts (Sqlite3Query.NextRow_times k q w).2 !! h = Some s' /\
             stmt_row s' = Some cells /\ stmt_prog s' = stmt_prog s.
Proof.
  induction k as [|k IH]; intros q w h s cells0 rest cells Hq Hs Hst Hrow
    Htodo Hk.
  - cbn in Hk. injection Hk as <-. cbn. split; [reflexivity|]. eauto.
  - cbn in Hk. destruct rest as [|r rest]; [discriminate|].
    rewrite fmap_cons in Htodo.
    destruct (step_row w h s r (fmap (M:=list) Row rest) Hs Hst Htodo)
      as (s' & Hstep & Hst' & Htodo' & Hrow' & Hprog' & _).
    cbn [Sqlite3Query.NextRow_times]. unfold Sqlite3Query.NextRow.
    rewrite Hq, Hstep.
    change (SQLITE_ROW =? SQLITE_DONE) with false.
    change (negb (SQLITE_ROW =? SQLITE_ROW)) with false. cbv iota.
    destruct (IH q (put_stmt w h s') h s' r rest cells Hq
                (stmts_put_stmt _ _ _) ltac:(congruence) Hrow' Htodo' Hk)
      as (H1 & s'' & H2 & H3 & H4).
    split; [exact H1|]. exists s''. rewrite <- Hprog'. auto.
Qed.

(** What the accessors of a cursor read when the engine's current row
    is [cells]. *)
Lemma sqlite_getters_on_row q w h s cells col x d32 d64 dd ds :
  Sqlite3Query.stmt_ q = Some h -> stmts w !! h = Some s ->
  stmt_row s = Some cells ->
  0 <= col < Sqlite3Query.num_fields_ q ->
  cells !! Z.to_nat col = Some x ->
  Sqlite3Query.FieldValue q w col = col_text x /\
  Sqlite3Query.FieldDataType q w col = col_type x /\
  Sqlite3Query.FieldIsNull q w col = (col_type x =? SQLITE_NULL) /\
  Sqlite3Query.GetInt q w col d32
  = (if col_type x =? SQLITE_NULL then d32 else col_int x) /\
  Sqlite3Query.GetInt64 q w col d64
  = (if col_type x =? SQLITE_NULL then d64 else col_int64 x) /\
  Sqlite3Query.GetDouble q w col dd
  = (if col_type x =? SQLITE_NULL then dd else col_double x) /\
  Sqlite3Query.GetString q w col ds
  = (if col_type x =? SQLITE_NULL then ds
     else match col_text x with Some t => Some t | None => ds end).
Proof.
  intros Hq Hs Hrow Hcol Hx.
  assert (Hcell : cell w h col = Some x).
  { unfold cell. rewrite Hs, Hrow.
    replace (col <? 0) with false by (symmetry; apply Z.ltb_ge; lia).
    exact Hx. }
  assert (Hin : (col <? 0) || (Sqlite3Query.num_fields_ q <=? col) = false).
  { apply orb_false_iff. split; [apply Z.ltb_ge|apply Z.leb_gt]; lia. }
  assert (Hnull : Sqlite3Query.FieldIsNull q w col
                  = (col_type x =? SQLITE_NULL)).
  { unfold Sqlite3Query.FieldIsNull. rewrite Hq, Hin.
    unfold sqlite3_column_type. rewrite Hcell. reflexivity. }
  assert (Hval : Sqlite3Query.FieldValue q w col = col_text x).
  { unfold Sqlite3Query.FieldValue. rewrite Hq, Hin.
    unfold sqlite3_column_text. rewrite Hcell. reflexivity. }
  unfold Sqlite3Query.GetInt, Sqlite3Query.GetInt64, Sqlite3Query.GetDouble,
    Sqlite3Query.GetString, Sqlite3Query.native, Sqlite3Query.FieldDataType.
  rewrite Hnull, Hval, Hq, Hin.
  unfold sqlite3_column_type, sqlite3_column_int, sqlite3_column_int64,
    sqlite3_column_double.
  rewrite Hcell. cbn [from_option]. repeat split; reflexivity.
Qed.

(** X12: the cursor of [Sqlite3Db::ExecQuery] over a query that yields
    the rows [rows] stands, after [k] calls of [NextRow] ([k] below the
    number of rows), on row [k]: it is not at the end, and every accessor
    reads the cell of that row in its column (the default where the cell
    is NULL). *)
Theorem sqlite_cursor_rows_in_order (this : Sqlite3Db.t) (d : nat) (c : Conn)
    (sql : string) (p : Program) (rows : list (list Cell))
    (out : option Error.t) (w : World) (k : nat) (cells : list Cell)
    (col : Z) (x : Cell) (d32 d64 : Z) (dd : double) (ds : cstr) :
  Sqlite3Db.db_ this = Some d -> conns w !! d = Some c ->
  conn_prepare c sql = Prepared p -> prog_run p = Row <$> rows ->
  rows !! k = Some cells ->
  0 <= col < Z.of_nat (length (prog_columns p)) ->
  cells !! Z.to_nat col = Some x ->
  Sqlite3Query.Eof (Spec.sqlite_cursor_after this sql out w k).1 = false /\
  Sqlite3Query.FieldValue (Spec.sqlite_cursor_after this sql out w k).1
    (Spec.sqlite_cursor_after this sql out w k).2 col = col_text x /\
  Sqlite3Query.FieldIsNull (Spec.sqlite_cursor_after this sql out w k).1
    (Spec.sqlite_cursor_after this sql out w k).2 col
  = (col_type x =? SQLITE_NULL) /\
  Sqlite3Query.GetInt (Spec.sqlite_cursor_after this sql out w k).1
    (Spec.sqlite_cursor_after this sql out w k).2 col d32
  = (if col_type x =? SQLITE_NULL then d32 else col_int x) /\
  Sqlite3Query.GetInt64 (Spec.sqlite_cursor_after this sql out w k).1
    (Spec.sqlite_cursor_after this sql out w k).2 col d64
  = (if col_type x =? SQLITE_NULL then d64 else col_int64 x) /\
  Sqlite3Query.GetDouble (Spec.sqlite_cursor_after this sql out w k).1
    (Spec.sqlite_cursor_after this sql out w k).2 col dd
  = (if col_type x =? SQLITE_NULL then dd else col_double x) /\
  Sqlite3Query.GetString (Spec.sqlite_cursor_after this sql out w k).1
    (Spec.sqlite_cursor_after this sql out w k).2 col ds
  = (if col_type x =? SQLITE_NULL then ds
     else match col_text x with Some t => Some t | None => ds end).
Proof.
  intros Hd Hc Hp Hrun Hk Hcol Hx.
  unfold Spec.sqlite_cursor_after.
  rewrite (sqlite_db_ExecQuery_rows this d c sql p rows out w Hd Hc Hp Hrun).
  cbn [fst snd].
  destruct rows as [|r rest]; [discriminate|].
  rewrite fmap_cons in Hrun.
  assert (Hs0 : stmts (Spec.prepared_world w d p) !! next_handle w
                = Some {| stmt_conn := d; stmt_prog := p;
                          stmt_vars := replicate (Z.to_nat (prog_nvar p)) VNull;
                          stmt_state := Ready; stmt_todo := prog_run p;
                          stmt_row := None; stmt_rc := SQLITE_OK |})
    by apply lookup_insert_eq.
  destruct (step_row _ _ _ r (fmap (M:=list) Row rest) Hs0
              ltac:(discriminate) Hrun)
    as (s' & Hstep & Hst' & Htodo' & Hrow' & Hprog' & _).
  rewrite Hstep. cbn [fst snd].
  change (SQLITE_ROW =? SQLITE_DONE) with false.
  set (q0 := Sqlite3Query.ctor _ _ _ false).
  destruct (sqlite_NextRow_times_row k q0
              (put_stmt (Spec.prepared_world w d p) (next_handle w) s')
              (next_handle w) s' r rest cells eq_refl (stmts_put_stmt _ _ _)
              ltac:(congruence) Hrow' Htodo' Hk)
    as (Hq & s'' & Hs'' & Hrow'' & Hprog'').
  rewrite Hq.
  assert (Hnf : Sqlite3Query.num_fields_ q0
                = Z.of_nat (length (prog_columns p))).
  { unfold q0, Sqlite3Query.ctor. cbn [Sqlite3Query.num_fields_].
    unfold sqlite3_column_count. rewrite stmts_put_stmt, Hprog'.
    reflexivity. }
  split; [reflexivity|].
  destruct (sqlite_getters_on_row q0 _ (next_handle w) s'' cells col x
              d32 d64 dd ds eq_refl Hs'' Hrow'' ltac:(lia) Hx)
    as (H1 & _ & H3 & H4 & H5 & H6 & H7).
  auto 10.
Qed.

(** X12 on the two rows of [Examples]: after one [NextRow] the cursor
    reads the second row. *)
Lemma sqlite_cursor_rows_in_order_witness :
  Sqlite3Query.Eof
    (Spec.sqlite_cursor_after Examples.sqlite_db Examples.select_sql None
       Examples.sqlite_world 1).1 = false /\
  Sqlite3Query.GetInt
    (Spec.sqlite_cursor_after Examples.sqlite_db Examples.select_sql None
       Examples.sqlite_world 1).1
    (Spec.sqlite_cursor_after Examples.sqlite_db Examples.select_sql None
       Examples.sqlite_world 1).2 0 (-1)
  = (if col_type (Examples.int_cell 2 "2") =? SQLITE_NULL then -1
     else col_int (Examples.int_cell 2 "2")).
Proof.
  assert (Hcol : 0 <= 0 < Z.of_nat (length (prog_columns
                                              Examples.select_program)))
    by (vm_compute; split; [discriminate|reflexivity]).
  destruct (sqlite_cursor_rows_in_order Examples.sqlite_db 0%nat
              Examples.sqlite_conn Examples.select_sql
              Examples.select_program
              [[Examples.int_cell 1 "1"; Examples.int_cell 0 "Alice"];
               [Examples.int_cell 2 "2"; Examples.null_cell]]
              None Examples.sqlite_world 1
              [Examples.int_cell 2 "2"; Examples.null_cell] 0
              (Examples.int_cell 2 "2") (-1) 0 0 None
              eq_refl eq_refl eq_refl eq_refl eq_refl Hcol eq_refl)
    as (H1 & _ & _ & H4 & _).
  exact (conj H1 H4).
Defined.

End SqliteCursorRows.

Section MariaCursorRows.
Import Cxx Mysql.

(** A cursor standing on row [j] of a stored result: [k] calls of
    [NextRow] bring it to row [j + k], with the lengths of that row. *)
Lemma maria_query_NextRow_times_row h rows (k : nat) : forall q w r (j : nat),
  MariaQuery.res_ q = Some h -> results w !! h = Some r ->
  res_rows r = rows -> res_next r = S j ->
  MariaQuery.row_ q = rows !! j ->
  MariaQuery.lengths_ q
  = (fun row : MYSQL_ROW =>
       (fun c : cstr =>
          match c with
          | Some s => Z.of_nat (String.length s)
          | None => 0
          end) <$> row) <$> rows !! j ->
  (j + k < length rows)%nat ->
  MariaQuery.row_ (MariaQuery.NextRow_times k q w).1 = rows !! (j + k)%nat /\
  MariaQuery.lengths_ (MariaQuery.NextRow_times k q w).1
  = (fun row : MYSQL_ROW =>
       (fun c : cstr =>
          match c with
          | Some s => Z.of_nat (String.length s)
          | None => 0
          end) <$> row) <$> rows !! (j + k)%nat /\
  MariaQuery.eof_ (MariaQuery.NextRow_times k q w).1 = MariaQuery.eof_ q /\
  MariaQuery.num_fields_ (MariaQuery.NextRow_times k q w).1
  = MariaQuery.num_fields_ q /\
  MariaQuery.fields_ (MariaQuery.NextRow_times k q w).1 = MariaQuery.fields_ q.
Proof.
  induction k as [|k IH]; intros q w r j Hh Hr Hrows Hnext Hrow Hlen Hk.
  - rewrite Nat.add_0_r. cbn. auto.
  - cbn [MariaQuery.NextRow_times]. unfold MariaQuery.NextRow.
    rewrite Hh. unfold mysql_fetch_row. rewrite Hr, Hnext, Hrows.
    destruct (lookup_lt_is_Some_2 rows (S j) ltac:(lia)) as [row Hl].
    rewrite Hl.
    replace (j + S k)%nat with (S j + k)%nat by lia.
    match goal with
    | |- context [MariaQuery.NextRow_times k ?Q ?W] =>
        destruct (IH Q W
                    {| res_fields := res_fields r; res_rows := rows;
                       res_next := S (S j); res_current := Some row |}
                    (S j))
          as (H1 & H2 & H3 & H4 & H5)
    end.
    + reflexivity.
    + apply results_put_res.
    + reflexivity.
    + reflexivity.
    + cbn. symmetry. exact Hl.
    + cbn [MariaQuery.lengths_]. unfold mysql_fetch_lengths.
      rewrite results_put_res. cbn [res_current]. rewrite Hl. reflexivity.
    + lia.
    + rewrite H1, H2, H3, H4, H5. cbn. auto.
Qed.

(** What the accessors of a cursor read on a row whose lengths it
    holds. *)
Lemma maria_getters_on_row strtod q row col cell d32 d64 dd ds :
  MariaQuery.row_ q = Some row ->
  MariaQuery.lengths_ q
  = Some ((fun c : cstr =>
             match c with
             | Some s => Z.of_nat (String.length s)
             | None => 0
             end) <$> row) ->
  0 <= col < MariaQuery.num_fields_ q ->
  row !! Z.to_nat col = Some cell ->
  MariaQuery.FieldValue q col = cell /\
  MariaQuery.FieldIsNull q col
  = match cell with Some _ => false | None => true end /\
  MariaQuery.GetInt q col d32
  = match cell with Some s => to_int32 (strtol s) | None => d32 end /\
  MariaQuery.GetInt64 q col d64
  = match cell with Some s => strtoll s | None => d64 end /\
  MariaQuery.GetDouble strtod q col dd
  = match cell with Some s => strtod s | None => dd end /\
  MariaQuery.GetString q col ds
  = match cell with Some s => Some s | None => ds end /\
  MariaQuery.GetBlob q col
  = match cell with
    | Some s => (Some s, to_int32 (Z.of_nat (String.length s)))
    | None => (None, 0)
    end.
Proof.
  intros Hrow Hlen Hcol Hcell.
  assert (Hin : (col <? 0) || (MariaQuery.num_fields_ q <=? col) = false).
  { apply orb_false_iff. split; [apply Z.ltb_ge|apply Z.leb_gt]; lia. }
  assert (Hat : MariaQuery.row_at row col = cell).
  { unfold MariaQuery.row_at. unfold MYSQL_ROW, cstr in *.
    rewrite Hcell. reflexivity. }
  unfold MariaQuery.GetInt, MariaQuery.GetInt64, MariaQuery.GetDouble,
    MariaQuery.GetString, MariaQuery.GetBlob, MariaQuery.convert,
    MariaQuery.FieldIsNull, MariaQuery.FieldValue, MariaQuery.length_at.
  rewrite Hrow, Hlen, Hin, Hat.
  unfold MYSQL_ROW, cstr in *.
  rewrite list_lookup_fmap, Hcell.
  destruct cell as [s|]; cbn; repeat split; reflexivity.
Qed.

(** X13: the cursor of [MariaDb::ExecQuery] over a query the server
    answers with the rows [rows] stands, after [k] calls of [NextRow]
    ([k] below the number of rows), on row [k]: it is not at the end, and
    every accessor reads the cell of that row in its column; [GetBlob]
    gives the cell with its length. *)
Theorem maria_cursor_rows_in_order (strtod : string -> double)
    (this : MariaDb.t) (c : nat) (x : Conn) (sql : string)
    (fields : list MYSQL_FIELD) (rows : list MYSQL_ROW)
    (out : option Error.t) (w : World) (k : nat) (row : MYSQL_ROW)
    (col : Z) (cell : cstr) (d32 d64 : Z) (dd : double) (ds : cstr) :
  MariaDb.conn_ this = Some c -> conns w !! c = Some x ->
  conn_answer x sql = ResultSet fields rows ->
  rows !! k = Some row ->
  0 <= col < to_int32 (Z.of_nat (length fields)) ->
  row !! Z.to_nat col = Some cell ->
  MariaQuery.Eof (Spec.maria_cursor_after this sql out w k).1 = false /\
  MariaQuery.FieldValue (Spec.maria_cursor_after this sql out w k).1 col
  = cell /\
  MariaQuery.GetInt (Spec.maria_cursor_after this sql out w k).1 col d32
  = match cell with Some s => to_int32 (strtol s) | None => d32 end /\
  MariaQuery.GetInt64 (Spec.maria_cursor_after this sql out w k).1 col d64
  = match cell with Some s => strtoll s | None => d64 end /\
  MariaQuery.GetDouble strtod (Spec.maria_cursor_after this sql out w k).1
    col dd
  = match cell with Some s => strtod s | None => dd end /\
  MariaQuery.GetString (Spec.maria_cursor_after this sql out w k).1 col ds
  = match cell with Some s => Some s | None => ds end /\
  MariaQuery.GetBlob (Spec.maria_cursor_after this sql out w k).1 col
  = match cell with
    | Some s => (Some s, to_int32 (Z.of_nat (String.length s)))
    | None => (None, 0)
    end.
Proof.
  intros Hc Hx Ha Hk Hcol Hcell.
  unfold Spec.maria_cursor_after.
  destruct (maria_db_ExecQuery_stored this c x sql fields rows out w Hc Hx Ha)
    as (w2 & Hr & ->).
  cbn [fst snd].
  destruct rows as [|row0 rest]; [discriminate|].
  replace (Z.of_nat (length (row0 :: rest)) =? 0) with false
    by (symmetry; apply Z.eqb_neq; simpl; lia).
  destruct (MariaQuery.ctor w2 (Some (next_handle w)) false) as [q0 w3]
    eqn:Hctor.
  unfold MariaQuery.ctor in Hctor. cbn [negb] in Hctor.
  unfold mysql_fetch_row in Hctor. rewrite Hr in Hctor.
  cbn [res_rows res_next lookup list_lookup fst snd res_fields] in Hctor.
  injection Hctor as <- <-. cbn [fst snd].
  match goal with
  | |- context [MariaQuery.NextRow_times k ?Q ?W] =>
      destruct (maria_query_NextRow_times_row (next_handle w) (row0 :: rest)
                  k Q W
                  {| res_fields := fields; res_rows := row0 :: rest;
                     res_next := 1; res_current := Some row0 |} 0%nat)
        as (H1 & H2 & H3 & H4 & H5);
      [reflexivity | apply results_put_res | reflexivity | reflexivity
      | reflexivity
      | cbn [MariaQuery.lengths_]; unfold mysql_fetch_lengths;
        rewrite results_put_res; reflexivity
      | apply lookup_lt_Some in Hk; lia |];
      set (q := (MariaQuery.NextRow_times k Q W).1) in *
  end.
  cbn [Nat.add] in H1, H2. rewrite Hk in H1, H2.
  cbn [fmap option_fmap option_map] in H2.
  cbn [MariaQuery.eof_ MariaQuery.num_fields_] in H3, H4.
  assert (Hnf : MariaQuery.num_fields_ q = to_int32 (Z.of_nat (length fields))).
  { rewrite H4. unfold mysql_num_fields. rewrite Hr. reflexivity. }
  split; [exact H3|].
  destruct (maria_getters_on_row strtod q row col cell d32 d64 dd ds H1 H2
              ltac:(lia) Hcell) as (G1 & _ & G3 & G4 & G5 & G6 & G7).
  exact (conj G1 (conj G3 (conj G4 (conj G5 (conj G6 G7))))).
Qed.

(** X13 on the two rows of [Examples]: the cursor starts on the first
    row, whose cell reads 1. *)
Lemma maria_cursor_rows_in_order_witness :
  MariaQuery.Eof
    (Spec.maria_cursor_after Examples.maria_db Examples.maria_sql None
       Examples.maria_world 0).1 = false /\
  MariaQuery.GetInt
    (Spec.maria_cursor_after Examples.maria_db Examples.maria_sql None
       Examples.maria_world 0).1 0 (-1)
  = to_int32 (strtol "1") /\
  MariaQuery.GetBlob
    (Spec.maria_cursor_after Examples.maria_db Examples.maria_sql None
       Examples.maria_world 0).1 0
  = (Some "1"%string, to_int32 (Z.of_nat (String.length "1"))).
Proof.
  assert (Hcol : 0 <= 0 < to_int32 (Z.of_nat (length [mkField
                                                       (Some "n"%string)])))
    by (vm_compute; split; [discriminate|reflexivity]).
  destruct (maria_cursor_rows_in_order (fun _ => 0) Examples.maria_db 0%nat
              Examples.maria_conn Examples.maria_sql
              [mkField (Some "n"%string)] [[Some "1"%string]; [None]]
              None Examples.maria_world 0 [Some "1"%string] 0
              (Some "1"%string) (-1) 0 0 None
              eq_refl eq_refl eq_refl eq_refl Hcol eq_refl)
    as (H1 & _ & H3 & _ & _ & _ & H7).
  exact (conj H1 (conj H3 H7)).
Defined.

End MariaCursorRows.

(** ** GetResultSet *)

Section SqliteGetResultSet.
Import Cxx Sqlite.







End SqliteGetResultSet.

Section MariaGetResultSet.
Import Cxx Mysql.

Lemma maria_result_set_NextRow_times_cols k : forall rs w,
  MariaResultSet.num_cols_ (MariaResultSet.NextRow_times k rs w).1
  = MariaResultSet.num_cols_ rs /\
  MariaResultSet.fields_ (MariaResultSet.NextRow_times k rs w).1
  = MariaResultSet.fields_ rs /\
  MariaResultSet.num_rows_ (MariaResultSet.NextRow_times k rs w).1
  = MariaResultSet.num_rows_ rs.
Proof.
  induction k as [|k IH]; intros rs w; [repeat split; reflexivity|].
  cbn [MariaResultSet.NextRow_times]. unfold MariaResultSet.NextRow.
  destruct (MariaResultSet.res_ rs) as [h|]; [|apply IH].
  destruct (MariaResultSet.num_rows_ rs <=? MariaResultSet.current_row_ rs);
    [apply IH|].
  destruct (_ <? _).
  - destruct (mysql_fetch_row w h) as [row w1].
    match goal with
    | |- context [MariaResultSet.NextRow_times k ?R ?W] =>
        destruct (IH R W) as (H1 & H2 & H3)
    end.
    exact (conj H1 (conj H2 H3)).
  - match goal with
    | |- context [MariaResultSet.NextRow_times k ?R ?W] =>
        destruct (IH R W) as (H1 & H2 & H3)
    end.
    exact (conj H1 (conj H2 H3)).
Qed.

(** X15: [MariaDb::GetResultSet] over a query the server answers with
    the rows [rows] leaves the error slot alone and returns a result set
    of as many rows; after [k] calls of [NextRow] ([k] below the number
    of rows) it stands on row [k], and [FieldValue] reads the cell of
    that row in its column. *)
Theorem maria_GetResultSet_rows (this : MariaDb.t) (c : nat) (x : Conn)
    (sql : string) (fields : list MYSQL_FIELD) (rows : list MYSQL_ROW)
    (out : option Error.t) (w : World) (k : nat) (row : MYSQL_ROW)
    (col : Z) :
  MariaDb.conn_ this = Some c -> conns w !! c = Some x ->
  conn_answer x sql = ResultSet fields rows ->
  Z.of_nat (length rows) < 2 ^ 32 ->
  rows !! k = Some row ->
  0 <= col < to_int32 (Z.of_nat (length fields)) ->
  (MariaDb.GetResultSet this (Some sql) out w).1.2 = out /\
  MariaResultSet.NumRows (Spec.maria_result_set_after this sql out w k).1
  = Z.of_nat (length rows) /\
  MariaResultSet.NumFields (Spec.maria_result_set_after this sql out w k).1
  = to_int32 (Z.of_nat (length fields)) /\
  MariaResultSet.FieldName (Spec.maria_result_set_after this sql out w k).1 col
  = MariaQuery.field_name fields col /\
  MariaResultSet.Eof (Spec.maria_result_set_after this sql out w k).1
  = false /\
  MariaResultSet.CurrentRow (Spec.maria_result_set_after this sql out w k).1
  = Z.of_nat k /\
  MariaResultSet.FieldValue (Spec.maria_result_set_after this sql out w k).1
    col
  = mjoin (row !! Z.to_nat col).
Proof.
  intros Hc Hx Ha Hsmall Hk Hcol.
  pose proof (lookup_lt_Some _ _ _ Hk) as Hlt.
  assert (Hget : exists w2,
    results w2 !! next_handle w
    = Some {| res_fields := fields; res_rows := rows; res_next := 0%nat;
              res_current := None |} /\
    MariaDb.GetResultSet this (Some sql) out w
    = ((MariaResultSet.ctor w2 (Some (next_handle w))).1, out,
       (MariaResultSet.ctor w2 (Some (next_handle w))).2)).
  { unfold MariaDb.GetResultSet, mysql_query. rewrite Hc, Hx, Ha.
    change (negb (0 =? 0)) with false. cbv iota.
    unfold mysql_store_result, put_conn. cbn [conns].
    rewrite lookup_insert_eq. cbn [conn_pending next_handle].
    match goal with |- context [MariaResultSet.ctor ?W _] => exists W end.
    split; [cbn [results]; apply lookup_insert_eq|].
    destruct (MariaResultSet.ctor _ _) as [rs w3]. reflexivity. }
  destruct Hget as (w2 & Hr & Hget).
  unfold Spec.maria_result_set_after. rewrite Hget. cbn [fst snd].
  split; [reflexivity|].
  destruct (MariaResultSet.ctor w2 (Some (next_handle w))) as [rs0 w3]
    eqn:Hctor.
  unfold MariaResultSet.ctor in Hctor.
  unfold mysql_num_rows, mysql_num_fields, mysql_fetch_fields,
    mysql_fetch_row in Hctor.
  rewrite Hr in Hctor. cbn [from_option res_rows res_fields res_next] in Hctor.
  unfold to_uint64 in Hctor. rewrite Z.mod_small in Hctor by lia.
  replace (0 <? Z.of_nat (length rows)) with true in Hctor
    by (symmetry; apply Z.ltb_lt; lia).
  destruct rows as [|row0 rest]; [discriminate|].
  cbn [lookup list_lookup] in Hctor. injection Hctor as <- <-.
  cbn [fst snd].
  pose proof Hsmall as Hsmall'. pose proof Hlt as Hlt'.
  cbn [length] in Hsmall', Hlt'.
  match goal with
  | |- context [MariaResultSet.NextRow_times k ?R ?W] =>
      destruct (maria_NextRow_times_in_order (next_handle w) (row0 :: rest)
                  k R W
                  {| res_fields := fields; res_rows := row0 :: rest;
                     res_next := 1; res_current := Some row0 |} 0%nat)
        as (H1 & H2);
      [reflexivity | apply results_put_res | reflexivity | reflexivity
      | reflexivity | reflexivity | reflexivity | lia | lia |];
      destruct (maria_result_set_NextRow_times_cols k R W) as (H3 & H4 & H6);
      set (rs := (MariaResultSet.NextRow_times k R W).1) in *
  end.
  cbn [Nat.add] in H1, H2. rewrite Hk in H2.
  cbn [MariaResultSet.num_cols_ MariaResultSet.fields_
         MariaResultSet.num_rows_ MariaResultSet.current_row_] in H3, H4.
  assert (Hin : (col <? 0) || (to_int32 (Z.of_nat (length fields)) <=? col)
                = false).
  { apply orb_false_iff. split; [apply Z.ltb_ge|apply Z.leb_gt]; lia. }
  cbn [MariaResultSet.num_rows_] in H6.
  split.
  { unfold MariaResultSet.NumRows. rewrite H6. unfold to_uint32.
    apply Z.mod_small. lia. }
  split; [exact H3|]. split.
  { unfold MariaResultSet.FieldName. rewrite H4, H3. cbn [from_option].
    cbn [fmap option_fmap option_map]. rewrite Hin. reflexivity. }
  split.
  { unfold MariaResultSet.Eof. rewrite H1, H6. apply Z.leb_gt. lia. }
  split.
  { unfold MariaResultSet.CurrentRow. rewrite H1. unfold to_uint32.
    apply Z.mod_small. lia. }
  unfold MariaResultSet.FieldValue. rewrite H2, H3, Hin. reflexivity.
Qed.

(** X15 on the two rows of [Examples]: after one [NextRow] the result
    set stands on the second row, whose cell is NULL. *)
Lemma maria_GetResultSet_rows_witness :
  MariaResultSet.CurrentRow
    (Spec.maria_result_set_after Examples.maria_db Examples.maria_sql None
       Examples.maria_world 1).1
  = Z.of_nat 1 /\
  MariaResultSet.FieldValue
    (Spec.maria_result_set_after Examples.maria_db Examples.maria_sql None
       Examples.maria_world 1).1 0
  = mjoin ([None] !! Z.to_nat 0).
Proof.
  assert (Hsmall : Z.of_nat (length [[Some "1"%string]; [@None string]])
                   < 2 ^ 32) by (vm_compute; reflexivity).
  assert (Hcol : 0 <= 0 < to_int32 (Z.of_nat (length [mkField
                                                       (Some "n"%string)])))
    by (vm_compute; split; [discriminate|reflexivity]).
  destruct (maria_GetResultSet_rows Examples.maria_db 0%nat
              Examples.maria_conn Examples.maria_sql
              [mkField (Some "n"%string)] [[Some "1"%string]; [None]]
              None Examples.maria_world 1 [None] 0
              eq_refl eq_refl eq_refl Hsmall eq_refl Hcol)
    as (_ & _ & _ & _ & _ & H6 & H7).
  exact (conj H6 H7).
Defined.

End MariaGetResultSet.

(** ** A connection that is not open *)

Section ClosedDatabase.
Import Cxx.

(** X16: on a [Sqlite3Db] that is not open every operation fails
    without touching the engine: the functions with an error slot set
    it to [kNotOpen] "Database not open" ([ExecScalar] keeps that error
    and returns the caller's default), the returned cursor, result set
    and statement are the empty ones, [TableExists] is false and the
    transaction functions return that error. *)
Theorem sqlite_closed_database_refuses (this : Sqlite3Db.t) (sql : cstr)
    (e : Error.t) (null_value : Z) (w : Sqlite.World) :
  Sqlite3Db.IsOpen this = false ->
  Sqlite3Db.ExecDml this sql (Some e) w
  = (-1, Some (Error.Set_ e Error.kNotOpen (Some "Database not open"%string)),
     w) /\
  Sqlite3Db.ExecQuery this sql (Some e) w
  = (Sqlite3Query.default,
     Some (Error.Set_ e Error.kNotOpen (Some "Database not open"%string)),
     w) /\
  Sqlite3Db.ExecScalar this sql null_value (Some e) w
  = (null_value,
     Some (Error.Set_ e Error.kNotOpen (Some "Database not open"%string)),
     w) /\
  Sqlite3Db.GetResultSet this sql (Some e) w
  = (Sqlite3ResultSet.default,
     Some (Error.Set_ e Error.kNotOpen (Some "Database not open"%string)),
     w) /\
  Sqlite3Db.CompileStatement this sql (Some e) w
  = (Sqlite3Statement.default,
     Some (Error.Set_ e Error.kNotOpen (Some "Database not open"%string)),
     w) /\
  Sqlite3Db.TableExists this sql w = (false, w) /\
  Sqlite3Db.BeginTransaction this w
  = (Error.Make Error.kNotOpen (Some "Database not open"%string), w) /\
  Sqlite3Db.Commit this w
  = (Error.Make Error.kNotOpen (Some "Database not open"%string), w) /\
  Sqlite3Db.Rollback this w
  = (Error.Make Error.kNotOpen (Some "Database not open"%string), w).
Proof.
  unfold Sqlite3Db.IsOpen. destruct this as [[d|]]; [discriminate|].
  intros _. repeat split; reflexivity.
Qed.

(** X16 at the default-constructed object. *)
Lemma sqlite_closed_database_refuses_witness :
  Sqlite3Db.ExecDml Sqlite3Db.default (Some "DELETE FROM emp"%string)
    (Some Error.default) Examples.sqlite_world
  = (-1,
     Some (Error.Set_ Error.default Error.kNotOpen
             (Some "Database not open"%string)),
     Examples.sqlite_world) /\
  Sqlite3Db.TableExists Sqlite3Db.default (Some "DELETE FROM emp"%string)
    Examples.sqlite_world
  = (false, Examples.sqlite_world).
Proof.
  destruct (sqlite_closed_database_refuses Sqlite3Db.default
              (Some "DELETE FROM emp"%string) Error.default 0
              Examples.sqlite_world eq_refl)
    as (H1 & _ & _ & _ & _ & H6 & _).
  exact (conj H1 H6).
Defined.

(** X17: the same on a [MariaDb] that is not open; [InTransaction]
    stays false after [BeginTransaction]. *)
Theorem maria_closed_database_refuses (this : MariaDb.t) (sql : cstr)
    (e : Error.t) (null_value : Z) (w : Mysql.World) :
  MariaDb.IsOpen this = false ->
  MariaDb.ExecDml this sql (Some e) w
  = (-1, Some (Error.Set_ e Error.kNotOpen (Some "Database not open"%string)),
     w) /\
  MariaDb.ExecQuery this sql (Some e) w
  = (MariaQuery.default,
     Some (Error.Set_ e Error.kNotOpen (Some "Database not open"%string)),
     w) /\
  MariaDb.ExecScalar this sql null_value (Some e) w
  = (null_value,
     Some (Error.Set_ e Error.kNotOpen (Some "Database not open"%string)),
     w) /\
  MariaDb.GetResultSet this sql (Some e) w
  = (MariaResultSet.default,
     Some (Error.Set_ e Error.kNotOpen (Some "Database not open"%string)),
     w) /\
  MariaDb.CompileStatement this sql (Some e) w
  = (MariaStatement.default,
     Some (Error.Set_ e Error.kNotOpen (Some "Database not open"%string)),
     w) /\
  MariaDb.TableExists this sql w = (false, w) /\
  MariaDb.BeginTransaction this w
  = (Error.Make Error.kNotOpen (Some "Database not open"%string), this, w) /\
  (MariaDb.Commit this w).1.1
  = Error.Make Error.kNotOpen (Some "Database not open"%string) /\
  (MariaDb.Rollback this w).1.1
  = Error.Make Error.kNotOpen (Some "Database not open"%string).
Proof.
  unfold MariaDb.IsOpen. destruct this as [[c|] tx]; [discriminate|].
  intros _. repeat split; reflexivity.
Qed.

(** X17 at the default-constructed object. *)
Lemma maria_closed_database_refuses_witness :
  MariaDb.ExecDml MariaDb.default (Some "DELETE FROM emp"%string)
    (Some Error.default) Examples.maria_world
  = (-1,
     Some (Error.Set_ Error.default Error.kNotOpen
             (Some "Database not open"%string)),
     Examples.maria_world) /\
  MariaDb.BeginTransaction MariaDb.default Examples.maria_world
  = (Error.Make Error.kNotOpen (Some "Database not open"%string),
     MariaDb.default, Examples.maria_world).
Proof.
  destruct (maria_closed_database_refuses MariaDb.default
              (Some "DELETE FROM emp"%string) Error.default 0
              Examples.maria_world eq_refl)
    as (H1 & _ & _ & _ & _ & _ & H7 & _).
  exact (conj H1 H7).
Defined.

End ClosedDatabase.

(** ** Two ways to run a statement *)

Section TwoPaths.
Import Cxx Sqlite.

(** X18: for a text the engine compiles, [Sqlite3Db::ExecQuery] gives
    the cursor, the error slot and the engine state that compiling the
    text with [CompileStatement] and calling [ExecQuery] on the
    statement gives, whenever the first step reports a row or
    completion. *)
Theorem sqlite_ExecQuery_agrees_with_statement (this : Sqlite3Db.t) (d : nat)
    (c : Conn) (sql : string) (p : Program) (rows : list (list Cell))
    (out : option Error.t) (w : World) :
  Sqlite3Db.db_ this = Some d -> conns w !! d = Some c ->
  conn_prepare c sql = Prepared p -> prog_run p = Row <$> rows ->
  Sqlite3Db.ExecQuery this (Some sql) out w
  = ((Sqlite3Statement.ExecQuery
        (Sqlite3Db.CompileStatement this (Some sql) out w).1.1
        (Sqlite3Db.CompileStatement this (Some sql) out w).1.2
        (Sqlite3Db.CompileStatement this (Some sql) out w).2).1.1.1,
     (Sqlite3Statement.ExecQuery
        (Sqlite3Db.CompileStatement this (Some sql) out w).1.1
        (Sqlite3Db.CompileStatement this (Some sql) out w).1.2
        (Sqlite3Db.CompileStatement this (Some sql) out w).2).1.2,
     (Sqlite3Statement.ExecQuery
        (Sqlite3Db.CompileStatement this (Some sql) out w).1.1
        (Sqlite3Db.CompileStatement this (Some sql) out w).1.2
        (Sqlite3Db.CompileStatement this (Some sql) out w).2).2).
Proof.
  intros Hd Hc Hp Hrun.
  rewrite (sqlite_db_ExecQuery_rows this d c sql p rows out w Hd Hc Hp Hrun).
  assert (Hcomp : Sqlite3Db.CompileStatement this (Some sql) out w
                  = (Sqlite3Statement.ctor (Some d) (Some (next_handle w)),
                     out, Spec.prepared_world w d p)).
  { unfold Sqlite3Db.CompileStatement, Sqlite3Db.Compile, sqlite3_prepare_v2.
    rewrite Hd, Hc, Hp. reflexivity. }
  rewrite Hcomp. cbn [fst snd].
  assert (Hs0 : stmts (Spec.prepared_world w d p) !! next_handle w
                = Some {| stmt_conn := d; stmt_prog := p;
                          stmt_vars := replicate (Z.to_nat (prog_nvar p)) VNull;
                          stmt_state := Ready; stmt_todo := prog_run p;
                          stmt_row := None; stmt_rc := SQLITE_OK |})
    by apply lookup_insert_eq.
  assert (Hrc : (sqlite3_step (Spec.prepared_world w d p) (next_handle w)).1
                = SQLITE_ROW \/
                (sqlite3_step (Spec.prepared_world w d p) (next_handle w)).1
                = SQLITE_DONE).
  { destruct rows as [|r rest].
    - destruct (step_done _ _ _ Hs0 ltac:(discriminate) Hrun) as [w' ->].
      right; reflexivity.
    - rewrite fmap_cons in Hrun.
      destruct (step_row _ _ _ r (fmap (M:=list) Row rest) Hs0
                  ltac:(discriminate) Hrun) as (s' & -> & _).
      left; reflexivity. }
  rewrite (sqlite_stmt_ExecQuery_first_step
             (Sqlite3Statement.ctor (Some d) (Some (next_handle w)))
             d (next_handle w) out _ eq_refl eq_refl Hrc).
  reflexivity.
Qed.

(** X19: for a text that is one statement and whose run yields no row
    (it completes or fails at once), [Sqlite3Db::ExecDml] returns the
    count and leaves the error slot that compiling the text with
    [CompileStatement] and calling [ExecDml] on the statement gives.
    The text has to be one statement: [sqlite3_exec] runs every statement
    of a text, [sqlite3_prepare_v2] compiles the first only. *)
Theorem sqlite_ExecDml_agrees_with_statement (this : Sqlite3Db.t) (d : nat)
    (c : Conn) (sql : string) (p : Program) (out : option Error.t)
    (w : World) :
  Sqlite3Db.db_ this = Some d -> conns w !! d = Some c ->
  conn_statements c sql = [sql] ->
  conn_prepare c sql = Prepared p -> (run_rows (prog_run p)).1 = [] ->
  (Sqlite3Db.ExecDml this (Some sql) out w).1
  = ((Sqlite3Statement.ExecDml
        (Sqlite3Db.CompileStatement this (Some sql) out w).1.1
        (Sqlite3Db.CompileStatement this (Some sql) out w).1.2
        (Sqlite3Db.CompileStatement this (Some sql) out w).2).1.1.1,
     (Sqlite3Statement.ExecDml
        (Sqlite3Db.CompileStatement this (Some sql) out w).1.1
        (Sqlite3Db.CompileStatement this (Some sql) out w).1.2
        (Sqlite3Db.CompileStatement this (Some sql) out w).2).1.2).
Proof.
  intros Hd Hc Hone Hp Hrows.
  assert (Hcomp : Sqlite3Db.CompileStatement this (Some sql) out w
                  = (Sqlite3Statement.ctor (Some d) (Some (next_handle w)),
                     out, Spec.prepared_world w d p)).
  { unfold Sqlite3Db.CompileStatement, Sqlite3Db.Compile, sqlite3_prepare_v2.
    rewrite Hd, Hc, Hp. reflexivity. }
  rewrite Hcomp. cbn [fst snd].
  unfold Sqlite3Db.ExecDml, sqlite3_exec. rewrite Hd, Hc, Hone.
  cbn [exec_statements]. rewrite Hp.
  unfold Sqlite3Statement.ExecDml, Sqlite3Statement.ctor.
  cbn [Sqlite3Statement.db_ Sqlite3Statement.stmt_].
  unfold sqlite3_step, Spec.prepared_world. cbn [stmts].
  rewrite lookup_insert_eq.
  cbn [stmt_state stmt_todo stmt_prog stmt_conn stmt_vars].
  destruct (prog_run p) as [|[cells|f msg] rest].
  - (* the run completes *)
    cbn [run_rows snd].
    change (SQLITE_OK =? SQLITE_OK) with true.
    change (SQLITE_DONE =? SQLITE_DONE) with true. cbv iota.
    unfold sqlite3_reset.
    rewrite stmts_set_changes, stmts_put_stmt. cbn [stmt_rc].
    change (negb (SQLITE_OK =? SQLITE_OK)) with false. cbv iota.
    cbn [fst]. f_equal.
    unfold sqlite3_changes, set_changes, put_stmt. cbn [conns].
    rewrite Hc. destruct (prog_changes p) as [n|]; reflexivity.
  - (* a row: excluded *)
    cbn [run_rows] in Hrows. destruct (run_rows rest). discriminate.
  - (* the run fails *)
    cbn [run_rows snd].
    assert (Hne0 : (failure_code f =? SQLITE_OK) = false)
      by (destruct f; reflexivity).
    assert (Hne1 : (failure_code f =? SQLITE_DONE) = false)
      by (destruct f; reflexivity).
    rewrite Hne0, Hne1.
    unfold sqlite3_reset. rewrite stmts_set_errmsg, stmts_put_stmt.
    cbn [fst snd]. f_equal. f_equal.
    unfold sqlite3_errmsg, set_errmsg, put_stmt, put_conn.
    cbn [conns]. rewrite Hc. cbn [conns]. rewrite lookup_insert_eq.
    reflexivity.
Qed.

(** X18 on the query of [Examples]. *)
Lemma sqlite_ExecQuery_agrees_with_statement_witness :
  Sqlite3Db.ExecQuery Examples.sqlite_db (Some Examples.select_sql) None
    Examples.sqlite_world
  = ((Sqlite3Statement.ExecQuery
        (Sqlite3Db.CompileStatement Examples.sqlite_db
           (Some Examples.select_sql) None Examples.sqlite_world).1.1
        (Sqlite3Db.CompileStatement Examples.sqlite_db
           (Some Examples.select_sql) None Examples.sqlite_world).1.2
        (Sqlite3Db.CompileStatement Examples.sqlite_db
           (Some Examples.select_sql) None Examples.sqlite_world).2).1.1.1,
     (Sqlite3Statement.ExecQuery
        (Sqlite3Db.CompileStatement Examples.sqlite_db
           (Some Examples.select_sql) None Examples.sqlite_world).1.1
        (Sqlite3Db.CompileStatement Examples.sqlite_db
           (Some Examples.select_sql) None Examples.sqlite_world).1.2
        (Sqlite3Db.CompileStatement Examples.sqlite_db
           (Some Examples.select_sql) None Examples.sqlite_world).2).1.2,
     (Sqlite3Statement.ExecQuery
        (Sqlite3Db.CompileStatement Examples.sqlite_db
           (Some Examples.select_sql) None Examples.sqlite_world).1.1
        (Sqlite3Db.CompileStatement Examples.sqlite_db
           (Some Examples.select_sql) None Examples.sqlite_world).1.2
        (Sqlite3Db.CompileStatement Examples.sqlite_db
           (Some Examples.select_sql) None Examples.sqlite_world).2).2).
Proof.
  exact (sqlite_ExecQuery_agrees_with_statement Examples.sqlite_db 0%nat
           Examples.sqlite_conn Examples.select_sql Examples.select_program
           [[Examples.int_cell 1 "1"; Examples.int_cell 0 "Alice"];
            [Examples.int_cell 2 "2"; Examples.null_cell]]
           None Examples.sqlite_world eq_refl eq_refl eq_refl eq_refl).
Defined.

(** X19 on the [INSERT] of [Examples]. *)
Lemma sqlite_ExecDml_agrees_with_statement_witness :
  (Sqlite3Db.ExecDml Examples.sqlite_db (Some Examples.insert_sql) None
     Examples.dml_world).1
  = ((Sqlite3Statement.ExecDml
        (Sqlite3Db.CompileStatement Examples.sqlite_db
           (Some Examples.insert_sql) None Examples.dml_world).1.1
        (Sqlite3Db.CompileStatement Examples.sqlite_db
           (Some Examples.insert_sql) None Examples.dml_world).1.2
        (Sqlite3Db.CompileStatement Examples.sqlite_db
           (Some Examples.insert_sql) None Examples.dml_world).2).1.1.1,
     (Sqlite3Statement.ExecDml
        (Sqlite3Db.CompileStatement Examples.sqlite_db
           (Some Examples.insert_sql) None Examples.dml_world).1.1
        (Sqlite3Db.CompileStatement Examples.sqlite_db
           (Some Examples.insert_sql) None Examples.dml_world).1.2
        (Sqlite3Db.CompileStatement Examples.sqlite_db
           (Some Examples.insert_sql) None Examples.dml_world).2).1.2).
Proof.
  exact (sqlite_ExecDml_agrees_with_statement Examples.sqlite_db 0%nat
           Examples.dml_conn Examples.insert_sql Examples.insert_program
           None Examples.dml_world eq_refl eq_refl eq_refl eq_refl eq_refl).
Defined.

End TwoPaths.

(** ** ExecScalar over a result without rows *)

Section ScalarNoRow.
Import Cxx.

(** X20: over a query that succeeds and yields no row, both
    [ExecScalar] functions return the caller's default, but only the
    embedded backend reports it: [Sqlite3Db::ExecScalar] turns an error
    slot that is ok into [kError] "Invalid scalar query", while
    [MariaDb::ExecScalar] leaves the slot as it is. *)
Theorem ExecScalar_no_row (sdb : Sqlite3Db.t) (d : nat) (sc : Sqlite.Conn)
    (p : Sqlite.Program) (sw : Sqlite.World)
    (mdb : MariaDb.t) (c : nat) (mc : Mysql.Conn)
    (fields : list Mysql.MYSQL_FIELD) (mw : Mysql.World)
    (sql : string) (null_value : Z) (e : Error.t) :
  Sqlite3Db.db_ sdb = Some d -> Sqlite.conns sw !! d = Some sc ->
  Sqlite.conn_prepare sc sql = Sqlite.Prepared p -> Sqlite.prog_run p = [] ->
  MariaDb.conn_ mdb = Some c -> Mysql.conns mw !! c = Some mc ->
  Mysql.conn_answer mc sql = Mysql.ResultSet fields [] ->
  Error.ok e = true ->
  (Sqlite3Db.ExecScalar sdb (Some sql) null_value (Some e) sw).1
  = (null_value,
     Some (Error.Set_ e Error.kError (Some "Invalid scalar query"%string))) /\
  (MariaDb.ExecScalar mdb (Some sql) null_value (Some e) mw).1
  = (null_value, Some e).
Proof.
  intros Hd Hsc Hp Hrun Hc Hmc Ha Hok. split.
  - unfold Sqlite3Db.ExecScalar.
    rewrite (sqlite_db_ExecQuery_rows sdb d sc sql p [] (Some e) sw
               Hd Hsc Hp Hrun).
    assert (Hs0 : Sqlite.stmts (Spec.prepared_world sw d p)
                  !! Sqlite.next_handle sw
                  = Some {| Sqlite.stmt_conn := d; Sqlite.stmt_prog := p;
                            Sqlite.stmt_vars :=
                              replicate (Z.to_nat (Sqlite.prog_nvar p))
                                Sqlite.VNull;
                            Sqlite.stmt_state := Sqlite.Ready;
                            Sqlite.stmt_todo := Sqlite.prog_run p;
                            Sqlite.stmt_row := None;
                            Sqlite.stmt_rc := Sqlite.SQLITE_OK |})
      by apply lookup_insert_eq.
    destruct (step_done _ _ _ Hs0 ltac:(discriminate) Hrun) as [w' Hstep].
    rewrite Hstep. cbn [fst snd].
    change (Sqlite.SQLITE_DONE =? Sqlite.SQLITE_DONE) with true.
    unfold Sqlite3Query.ctor, Sqlite3Query.Eof. cbn [Sqlite3Query.eof_ orb].
    rewrite Hok. reflexivity.
  - unfold MariaDb.ExecScalar.
    destruct (maria_db_ExecQuery_stored mdb c mc sql fields [] (Some e) mw
                Hc Hmc Ha) as (w2 & Hr & ->).
    cbn [fst snd length Z.of_nat].
    change (0 =? 0) with true.
    unfold MariaQuery.ctor. cbn [negb fst snd].
    unfold MariaQuery.Eof. cbn [MariaQuery.eof_ orb]. reflexivity.
Qed.

(** X20 on the two connections of [Examples] that yield no row. *)
Lemma ExecScalar_no_row_witness :
  (Sqlite3Db.ExecScalar Examples.sqlite_db (Some Examples.insert_sql) 7
     (Some Error.default) Examples.dml_world).1
  = (7,
     Some (Error.Set_ Error.default Error.kError
             (Some "Invalid scalar query"%string))) /\
  (MariaDb.ExecScalar Examples.maria_db (Some Examples.insert_sql) 7
     (Some Error.default) Examples.empty_answer_world).1
  = (7, Some Error.default).
Proof.
  exact (ExecScalar_no_row Examples.sqlite_db 0%nat Examples.dml_conn
           Examples.insert_program Examples.dml_world
           Examples.maria_db 0%nat Examples.empty_answer_conn
           [Mysql.mkField (Some "n"%string)] Examples.empty_answer_world
           Examples.insert_sql 7 Error.default
           eq_refl eq_refl eq_refl eq_refl eq_refl eq_refl eq_refl eq_refl).
Defined.

End ScalarNoRow.

(** ** Transactions on the client/server backend *)

Section MariaTransactions.
Import Cxx Mysql.

(** X21: the transaction flag of [MariaDb].  [BeginTransaction] sets it
    when the statement succeeds and leaves it as it was otherwise;
    [Commit] and [Rollback] clear it whether or not the statement
    succeeds; none of them changes the connection handle.  On an open
    connection [BeginTransaction] succeeds exactly when the server
    accepts [START TRANSACTION;]. *)
Theorem maria_transaction_flag (this : MariaDb.t) (w : World) :
  MariaDb.InTransaction (MariaDb.BeginTransaction this w).1.2
  = Error.ok (MariaDb.BeginTransaction this w).1.1
    || MariaDb.InTransaction this /\
  MariaDb.InTransaction (MariaDb.Commit this w).1.2 = false /\
  MariaDb.InTransaction (MariaDb.Rollback this w).1.2 = false /\
  MariaDb.conn_ (MariaDb.BeginTransaction this w).1.2 = MariaDb.conn_ this /\
  MariaDb.conn_ (MariaDb.Commit this w).1.2 = MariaDb.conn_ this /\
  MariaDb.conn_ (MariaDb.Rollback this w).1.2 = MariaDb.conn_ this /\
  (forall c x, MariaDb.conn_ this = Some c -> conns w !! c = Some x ->
     Error.ok (MariaDb.BeginTransaction this w).1.1
     = match conn_answer x "START TRANSACTION;" with
       | QueryFailed _ => false
       | _ => true
       end).
Proof.
  unfold MariaDb.BeginTransaction, MariaDb.Commit, MariaDb.Rollback,
    MariaDb.InTransaction.
  repeat apply conj.
  - destruct (MariaDb.ExecDml this _ _ w) as [[n out] w1]. cbn [fst snd].
    destruct (Error.ok (from_option id Error.default out)); reflexivity.
  - destruct (MariaDb.ExecDml this _ _ w) as [[n out] w1]. reflexivity.
  - destruct (MariaDb.ExecDml this _ _ w) as [[n out] w1]. reflexivity.
  - destruct (MariaDb.ExecDml this _ _ w) as [[n out] w1]. cbn [fst snd].
    destruct (Error.ok (from_option id Error.default out)); reflexivity.
  - destruct (MariaDb.ExecDml this _ _ w) as [[n out] w1]. reflexivity.
  - destruct (MariaDb.ExecDml this _ _ w) as [[n out] w1]. reflexivity.
  - intros c x Hc Hx. unfold MariaDb.ExecDml, mysql_query.
    rewrite Hc, Hx.
    destruct (conn_answer x "START TRANSACTION;"); reflexivity.
Qed.

End MariaTransactions.

(** ** The DSN of [MariaDb::Open] *)

Section Dsn.
Import Cxx.

Lemma join_fields_cons f g more :
  Spec.join_fields (f :: g :: more)
  = f ++ ":"%char :: Spec.join_fields (g :: more).
Proof. reflexivity. Qed.

(** The scan stops at a NUL, and when five parts are found. *)
Lemma Open_scan_at_nul rounds buf parts p :
  buf !! p = Some NUL -> MariaDb.Open_scan rounds buf parts p = (buf, parts).
Proof.
  intros Hp. destruct rounds as [|r]; [reflexivity|].
  cbn [MariaDb.Open_scan]. rewrite Hp. reflexivity.
Qed.

Lemma Open_scan_five rounds buf parts p :
  length parts = 5%nat -> MariaDb.Open_scan rounds buf parts p = (buf, parts).
Proof.
  intros Hn. destruct rounds as [|r]; [reflexivity|].
  cbn [MariaDb.Open_scan]. destruct (buf !! p) as [c|]; [|reflexivity].
  rewrite Hn. change (Z.of_nat 5 <? 5) with false.
  rewrite andb_false_r. reflexivity.
Qed.

(** It walks over the characters of a part. *)
Lemma Open_scan_plain f : forall rounds pre rest parts,
  Forall (fun c => c <> NUL /\ c <> ":"%char) f ->
  (length parts < 5)%nat -> (length f <= rounds)%nat ->
  MariaDb.Open_scan rounds (pre ++ f ++ rest) parts (length pre)
  = MariaDb.Open_scan (rounds - length f) (pre ++ f ++ rest) parts
      (length pre + length f).
Proof.
  induction f as [|c f IH]; intros rounds pre rest parts Hf Hn Hr.
  - cbn [length]. rewrite Nat.sub_0_r, Nat.add_0_r. reflexivity.
  - inversion Hf as [|? ? [Hc1 Hc2] Hf']; subst.
    destruct rounds as [|r]; [cbn in Hr; lia|].
    cbn [MariaDb.Open_scan].
    assert (Hl : (pre ++ (c :: f) ++ rest) !! length pre = Some c).
    { rewrite lookup_app_r by lia. rewrite Nat.sub_diag. reflexivity. }
    rewrite Hl.
    apply Ascii.eqb_neq in Hc1, Hc2. rewrite Hc1, Hc2.
    replace (Z.of_nat (length parts) <? 5) with true
      by (symmetry; apply Z.ltb_lt; lia).
    cbn [negb andb].
    replace (pre ++ (c :: f) ++ rest) with ((pre ++ [c]) ++ f ++ rest)
      by (rewrite <- app_assoc; reflexivity).
    replace (S (length pre)) with (length (pre ++ [c]))
      by (rewrite length_app; cbn; lia).
    rewrite IH by (try assumption; cbn in Hr; lia).
    rewrite length_app. cbn [length]. f_equal; lia.
Qed.

(** At a colon it ends the part and starts the next one. *)
Lemma Open_scan_colon rounds pre rest parts :
  (length parts < 5)%nat ->
  MariaDb.Open_scan (S rounds) (pre ++ ":"%char :: rest) parts (length pre)
  = MariaDb.Open_scan rounds (pre ++ NUL :: rest)
      (parts ++ [S (length pre)]) (S (length pre)).
Proof.
  intros Hn. cbn [MariaDb.Open_scan].
  rewrite lookup_app_r by lia. rewrite Nat.sub_diag. cbn [lookup list_lookup].
  change (Ascii.eqb ":" NUL) with false.
  change (Ascii.eqb ":" ":") with true.
  replace (Z.of_nat (length parts) <? 5) with true
    by (symmetry; apply Z.ltb_lt; lia).
  cbn [negb andb].
  rewrite insert_app_r_alt by lia. rewrite Nat.sub_diag. reflexivity.
Qed.

Lemma nonnul_strip f :
  Forall (fun c => c <> NUL) f -> Forall (fun c => c <> ":"%char) f ->
  Forall (fun c => c <> NUL /\ c <> ":"%char) f.
Proof.
  intros H1 H2. apply Forall_and. split; assumption.
Qed.

(** The parts the scan finds over the text of a list of fields.  [olds]
    are the parts already complete, [cur] what is scanned of the current
    one. *)
Lemma Open_scan_fields more : forall f olds parts0 pre0 cur tail rounds,
  (forall X, (fun off => c_str (drop off (pre0 ++ X))) <$> parts0 = olds) ->
  length parts0 = length olds ->
  Forall (fun c => c <> NUL) cur ->
  Forall (Forall (fun c => c <> NUL)) (f :: more) ->
  (length olds + 1 + length more <= 5)%nat ->
  (forall i g, (f :: more) !! i = Some g -> (length olds + i < 4)%nat ->
               Forall (fun c => c <> ":"%char) g) ->
  (length (Spec.join_fields (f :: more)) < rounds)%nat ->
  (fun off =>
     c_str (drop off
              (MariaDb.Open_scan rounds
                 (pre0 ++ cur ++ Spec.join_fields (f :: more) ++ NUL :: tail)
                 (parts0 ++ [length pre0]) (length pre0 + length cur)).1))
  <$> (MariaDb.Open_scan rounds
         (pre0 ++ cur ++ Spec.join_fields (f :: more) ++ NUL :: tail)
         (parts0 ++ [length pre0]) (length pre0 + length cur)).2
  = olds ++ (cur ++ f) :: more.
Proof.
  induction more as [|g more IH];
    intros f olds parts0 pre0 cur tail rounds Hold Hlen Hcur Hnul Hcount
      Hcolon Hrounds.
  - (* the last field *)
    inversion Hnul as [|? ? Hf _]; subst.
    cbn [Spec.join_fields] in *.
    assert (Hread : forall parts',
      parts' = parts0 ++ [length pre0] ->
      (fun off => c_str (drop off (pre0 ++ cur ++ f ++ NUL :: tail)))
        <$> parts' = olds ++ [cur ++ f]).
    { intros parts' ->. rewrite fmap_app, Hold. cbn [fmap list_fmap].
      rewrite drop_app_length.
      replace (cur ++ f ++ NUL :: tail) with ((cur ++ f) ++ NUL :: tail)
        by (rewrite <- app_assoc; reflexivity).
      rewrite c_str_app_nul by (apply Forall_app; split; assumption).
      reflexivity. }
    destruct (decide (length olds + 1 = 5)%nat) as [Hfive|Hless].
    + rewrite Open_scan_five by (rewrite length_app; cbn; lia).
      cbn [fst snd]. apply Hread. reflexivity.
    + assert (Hplain : Forall (fun c => c <> NUL /\ c <> ":"%char) f).
      { apply nonnul_strip; [exact Hf|].
        apply (Hcolon 0%nat f eq_refl). cbn in Hcount. lia. }
      replace (pre0 ++ cur ++ f ++ NUL :: tail)
        with ((pre0 ++ cur) ++ f ++ NUL :: tail)
        by (rewrite <- app_assoc; reflexivity).
      replace (length pre0 + length cur)%nat with (length (pre0 ++ cur))
        by (rewrite length_app; reflexivity).
      rewrite Open_scan_plain
        by first [assumption | rewrite length_app; cbn in *; lia | lia].
      rewrite Open_scan_at_nul.
      * cbn [fst snd]. rewrite <- app_assoc. apply Hread. reflexivity.
      * rewrite app_assoc. rewrite lookup_app_r by (rewrite !length_app; lia).
        rewrite !length_app.
        replace (length pre0 + length cur + length f
                 - (length pre0 + length cur + length f))%nat
          with 0%nat by lia.
        reflexivity.
  - (* a field followed by another *)
    inversion Hnul as [|? ? Hf Hnul']; subst.
    rewrite join_fields_cons in *.
    assert (Hplain : Forall (fun c => c <> NUL /\ c <> ":"%char) f).
    { apply nonnul_strip; [exact Hf|].
      apply (Hcolon 0%nat f eq_refl). cbn in Hcount. lia. }
    replace (pre0 ++ cur ++ (f ++ ":"%char :: Spec.join_fields (g :: more))
                  ++ NUL :: tail)
      with ((pre0 ++ cur) ++ f
            ++ ":"%char :: Spec.join_fields (g :: more) ++ NUL :: tail)
      by (rewrite <- !app_assoc; reflexivity).
    replace (length pre0 + length cur)%nat with (length (pre0 ++ cur))
      by (rewrite length_app; reflexivity).
    rewrite length_app in Hrounds. cbn [length] in Hrounds.
    rewrite Open_scan_plain
      by first [assumption | rewrite length_app; cbn in *; lia | lia].
    replace ((pre0 ++ cur) ++ f
             ++ ":"%char :: Spec.join_fields (g :: more) ++ NUL :: tail)
      with (((pre0 ++ cur) ++ f)
            ++ ":"%char :: Spec.join_fields (g :: more) ++ NUL :: tail)
      by (rewrite <- !app_assoc; reflexivity).
    replace (length (pre0 ++ cur) + length f)%nat
      with (length ((pre0 ++ cur) ++ f))
      by (rewrite !length_app; reflexivity).
    destruct (rounds - length f)%nat as [|r] eqn:Hr; [lia|].
    rewrite Open_scan_colon by (rewrite length_app; cbn in *; lia).
    set (pre1 := ((pre0 ++ cur) ++ f) ++ [NUL]).
    assert (Heq :
      MariaDb.Open_scan r
        (((pre0 ++ cur) ++ f)
         ++ NUL :: Spec.join_fields (g :: more) ++ NUL :: tail)
        ((parts0 ++ [length pre0]) ++ [S (length ((pre0 ++ cur) ++ f))])
        (S (length ((pre0 ++ cur) ++ f)))
      = MariaDb.Open_scan r
          (pre1 ++ [] ++ Spec.join_fields (g :: more) ++ NUL :: tail)
          ((parts0 ++ [length pre0]) ++ [length pre1])
          (length pre1 + length (@nil ascii))).
    { assert (Hl1 : length pre1 = S (length ((pre0 ++ cur) ++ f)))
        by (unfold pre1; rewrite (length_app _ [NUL]); cbn; lia).
      rewrite Hl1. cbn [length app]. rewrite Nat.add_0_r.
      f_equal. unfold pre1. rewrite <- (app_assoc _ [NUL]). reflexivity. }
    rewrite Heq.
    rewrite (IH g (olds ++ [cur ++ f]) (parts0 ++ [length pre0]) pre1 []
               tail r).
    + rewrite <- app_assoc. reflexivity.
    + intros X. rewrite fmap_app. unfold pre1.
      replace ((((pre0 ++ cur) ++ f) ++ [NUL]) ++ X)
        with (pre0 ++ (cur ++ f) ++ NUL :: X)
        by (rewrite <- !app_assoc; reflexivity).
      rewrite Hold. cbn [fmap list_fmap]. rewrite drop_app_length.
      rewrite c_str_app_nul by (apply Forall_app; split; assumption).
      reflexivity.
    + rewrite !length_app. cbn. lia.
    + constructor.
    + exact Hnul'.
    + rewrite length_app. cbn in *. lia.
    + intros i g' Hi Hlt. apply (Hcolon (S i) g' Hi).
      rewrite length_app in Hlt. cbn in Hlt. lia.
    + lia.
Qed.

(** A DSN made of one to five fields joined by colons is split into
    exactly these fields. *)
Lemma maria_Open_parts_join (fs : list (list ascii)) :
  (1 <= length fs <= 5)%nat ->
  Forall (Forall (fun c => c <> NUL)) fs ->
  (forall i f, fs !! i = Some f -> (i < 4)%nat ->
               Forall (fun c => c <> ":"%char) f) ->
  (length (Spec.join_fields fs) <= 511)%nat ->
  MariaDb.Open_parts (String.string_of_list_ascii (Spec.join_fields fs)) = fs.
Proof.
  intros Hn Hnul Hcolon Hlen.
  destruct fs as [|f more]; [cbn in Hn; lia|].
  assert (Hjoin : Forall (fun c => c <> NUL) (Spec.join_fields (f :: more))).
  { clear -Hnul. revert f Hnul. induction more as [|g more IH]; intros f Hnul.
    - inversion Hnul; assumption.
    - rewrite join_fields_cons. inversion Hnul as [|? ? Hf Hrest]; subst.
      apply Forall_app. split; [exact Hf|]. constructor; [discriminate|].
      apply IH. exact Hrest. }
  assert (Hbuf : MariaDb.Open_buf
                   (String.string_of_list_ascii (Spec.join_fields (f :: more)))
                 = [] ++ [] ++ Spec.join_fields (f :: more)
                   ++ NUL :: replicate
                               (511 - length (Spec.join_fields (f :: more)))
                               NUL).
  { unfold MariaDb.Open_buf.
    rewrite strncpy_terminated by (rewrite length_replicate; reflexivity).
    rewrite String.list_ascii_of_string_of_list_ascii.
    replace (c_str (Spec.join_fields (f :: more)))
      with (Spec.join_fields (f :: more)).
    2:{ symmetry. rewrite <- (app_nil_r (Spec.join_fields (f :: more))) at 1.
        clear -Hjoin. induction Hjoin as [|c l Hc _ IH]; [reflexivity|].
        cbn. apply Ascii.eqb_neq in Hc. rewrite Hc. f_equal. exact IH. }
    rewrite take_ge by lia. cbn [app]. f_equal.
    replace (512 - length (Spec.join_fields (f :: more)))%nat
      with (S (511 - length (Spec.join_fields (f :: more)))) by lia.
    reflexivity. }
  unfold MariaDb.Open_parts. rewrite Hbuf.
  pose proof (Open_scan_fields more f [] [] [] []
                (replicate (511 - length (Spec.join_fields (f :: more))) NUL)
                512) as H.
  cbn [app length Nat.add] in H.
  destruct (MariaDb.Open_scan 512 _ [0%nat] 0) as [buf parts].
  cbn [fst snd] in H. apply H; clear H.
  - reflexivity.
  - reflexivity.
  - constructor.
  - exact Hnul.
  - cbn in Hn. lia.
  - intros i g Hi Hlt. apply (Hcolon i g Hi). lia.
  - lia.
Qed.

(** X22: the DSN parser of [MariaDb::Open].  A DSN made of one to five
    fields joined by colons (at most 511 characters, no colon inside the
    first four fields) is split into exactly these fields: what follows
    the fourth colon is the database name, colons included.  A field
    that is missing or empty leaves its default: host [localhost], port
    3306, user [root], no password, no database; a port is read by
    [strtoul] and cut to 16 bits. *)
Theorem maria_Open_dsn_fields (fs : list (list ascii)) :
  (1 <= length fs <= 5)%nat ->
  Forall (Forall (fun c => c <> NUL)) fs ->
  (forall i f, fs !! i = Some f -> (i < 4)%nat ->
               Forall (fun c => c <> ":"%char) f) ->
  (length (Spec.join_fields fs) <= 511)%nat ->
  MariaDb.Open_parts (String.string_of_list_ascii (Spec.join_fields fs))
  = fs /\
  MariaDb.Open_dsn (String.string_of_list_ascii (Spec.join_fields fs))
  = {| MariaDb.dsn_host :=
         from_option id "localhost"%string (MariaDb.Open_part fs 0);
       MariaDb.dsn_port :=
         match MariaDb.Open_part fs 1 with
         | Some text => to_uint16 (Mysql.strtoul text)
         | None => 3306
         end;
       MariaDb.dsn_user :=
         from_option id "root"%string (MariaDb.Open_part fs 2);
       MariaDb.dsn_password := MariaDb.Open_part fs 3;
       MariaDb.dsn_database := MariaDb.Open_part fs 4 |}.
Proof.
  intros Hn Hnul Hcolon Hlen.
  pose proof (maria_Open_parts_join fs Hn Hnul Hcolon Hlen) as Hparts.
  split; [exact Hparts|].
  unfold MariaDb.Open_dsn. rewrite Hparts. reflexivity.
Qed.

(** X22 on [db.example.org:3307::s3cret:shop:eu]. *)
Lemma maria_Open_dsn_fields_witness :
  MariaDb.Open_parts
    (String.string_of_list_ascii (Spec.join_fields Examples.dsn_fields))
  = Examples.dsn_fields /\
  MariaDb.Open_dsn
    (String.string_of_list_ascii (Spec.join_fields Examples.dsn_fields))
  = {| MariaDb.dsn_host :=
         from_option id "localhost"%string
           (MariaDb.Open_part Examples.dsn_fields 0);
       MariaDb.dsn_port :=
         match MariaDb.Open_part Examples.dsn_fields 1 with
         | Some text => to_uint16 (Mysql.strtoul text)
         | None => 3306
         end;
       MariaDb.dsn_user :=
         from_option id "root"%string
           (MariaDb.Open_part Examples.dsn_fields 2);
       MariaDb.dsn_password := MariaDb.Open_part Examples.dsn_fields 3;
       MariaDb.dsn_database := MariaDb.Open_part Examples.dsn_fields 4 |}.
Proof.
  assert (Hn : (1 <= length Examples.dsn_fields <= 5)%nat)
    by (vm_compute; lia).
  assert (Hnul : Forall (Forall (fun c => c <> NUL)) Examples.dsn_fields)
    by (repeat (constructor; try discriminate)).
  assert (Hcolon : forall i f, Examples.dsn_fields !! i = Some f ->
                     (i < 4)%nat -> Forall (fun c => c <> ":"%char) f).
  { intros [|[|[|[|i]]]] f Hf Hi; try lia; injection Hf as <-;
      repeat (constructor; try discriminate). }
  assert (Hlen : (length (Spec.join_fields Examples.dsn_fields) <= 511)%nat)
    by (vm_compute; lia).
  exact (maria_Open_dsn_fields Examples.dsn_fields Hn Hnul Hcolon Hlen).
Defined.

End Dsn.

(** ** Opening a connection again *)

Section Reopen.
Import Cxx.

Lemma has_statements_false (w : Sqlite.World) (d : nat) :
  (forall h s, Sqlite.stmts w !! h = Some s -> Sqlite.stmt_conn s <> d) ->
  Sqlite.has_statements w d = false.
Proof.
  intros Hnone. unfold Sqlite.has_statements. apply bool_decide_eq_false.
  rewrite Exists_exists. intros (s & Hin & Hs).
  apply list_elem_of_fmap in Hin as ([h s'] & -> & Hin).
  apply elem_of_map_to_list in Hin. exact (Hnone h s' Hin Hs).
Qed.

Lemma has_statements_true (w : Sqlite.World) (d h : nat) (s : Sqlite.Stmt) :
  Sqlite.stmts w !! h = Some s -> Sqlite.stmt_conn s = d ->
  Sqlite.has_statements w d = true.
Proof.
  intros Hl Hs. unfold Sqlite.has_statements. apply bool_decide_eq_true.
  rewrite Exists_exists. exists s. split; [|exact Hs].
  apply list_elem_of_fmap. exists (h, s). split; [reflexivity|].
  apply elem_of_map_to_list. exact Hl.
Qed.

Lemma has_statements_none (w : Sqlite.World) (d : nat) :
  Sqlite.has_statements w d = false ->
  forall h s, Sqlite.stmts w !! h = Some s -> Sqlite.stmt_conn s <> d.
Proof.
  intros Hf h s Hl Hs. rewrite (has_statements_true w d h s Hl Hs) in Hf.
  discriminate.
Qed.

(** X23: [Sqlite3Db::Open] on an object that holds a connection.
    [Open(nullptr)] returns [kNullParam] and changes nothing.  With a
    path, the object lets go of the old connection first, whatever comes
    of the new one, and [Close] does not look at what [sqlite3_close]
    answers.  So when no prepared statement of the old connection is
    live, the old connection is released; when one is (a statement or a
    cursor that has not been finalized), the engine refuses to close it
    and it stays open, out of the object's reach.  In both cases: when
    the engine reports success the object holds the new connection; when
    it reports a failure the error is [kError], the object is closed,
    and the connection the engine allocated for the failed attempt is
    closed again. *)
Theorem sqlite_Open_reopens (files : string -> Z * option Sqlite.Conn)
    (this : Sqlite3Db.t) (old : nat) (path : string) (w : Sqlite.World) :
  Sqlite3Db.db_ this = Some old ->
  (old < Sqlite.next_handle w)%nat ->
  Sqlite.conns w !! Sqlite.next_handle w = None ->
  (forall h s, Sqlite.stmts w !! h = Some s ->
               Sqlite.stmt_conn s <> Sqlite.next_handle w) ->
  Sqlite3Db.Open files this None w
  = (Error.Make Error.kNullParam (Some "path is null"%string), this, w) /\
  Sqlite3Db.db_ (Sqlite3Db.Open files this (Some path) w).1.2 <> Some old /\
  (forall x, files path = (Sqlite.SQLITE_OK, Some x) ->
     (Sqlite3Db.Open files this (Some path) w).1
     = (Error.Ok, {| Sqlite3Db.db_ := Some (Sqlite.next_handle w) |})) /\
  ((files path).1 <> Sqlite.SQLITE_OK ->
     Error.code (Sqlite3Db.Open files this (Some path) w).1.1 = Error.kError /\
     Sqlite3Db.IsOpen (Sqlite3Db.Open files this (Some path) w).1.2 = false) /\
  ((forall h s, Sqlite.stmts w !! h = Some s -> Sqlite.stmt_conn s <> old) ->
     Sqlite.conns (Sqlite3Db.Open files this (Some path) w).2 !! old = None /\
     (forall x, files path = (Sqlite.SQLITE_OK, Some x) ->
        Sqlite.conns (Sqlite3Db.Open files this (Some path) w).2
        = <[Sqlite.next_handle w := x]> (delete old (Sqlite.conns w))) /\
     ((files path).1 <> Sqlite.SQLITE_OK ->
        Sqlite.conns (Sqlite3Db.Open files this (Some path) w).2
        = delete old (Sqlite.conns w))) /\
  (forall h s, Sqlite.stmts w !! h = Some s -> Sqlite.stmt_conn s = old ->
     Sqlite.conns (Sqlite3Db.Open files this (Some path) w).2 !! old
     = Sqlite.conns w !! old /\
     (forall x, files path = (Sqlite.SQLITE_OK, Some x) ->
        Sqlite.conns (Sqlite3Db.Open files this (Some path) w).2
        = <[Sqlite.next_handle w := x]> (Sqlite.conns w)) /\
     ((files path).1 <> Sqlite.SQLITE_OK ->
        Sqlite.conns (Sqlite3Db.Open files this (Some path) w).2
        = Sqlite.conns w)).
Proof.
  intros Hold Hfresh Hnew Hfree. split; [reflexivity|].
  unfold Sqlite3Db.Open, Sqlite3Db.Close, Sqlite.sqlite3_open.
  rewrite Hold.
  (* the world after [Close] *)
  set (w1 := (Sqlite.sqlite3_close w old).2).
  assert (Hs1 : Sqlite.stmts w1 = Sqlite.stmts w).
  { unfold w1, Sqlite.sqlite3_close.
    destruct (Sqlite.has_statements w old); reflexivity. }
  assert (Hn1 : Sqlite.next_handle w1 = Sqlite.next_handle w).
  { unfold w1, Sqlite.sqlite3_close.
    destruct (Sqlite.has_statements w old); reflexivity. }
  assert (Hnew1 : Sqlite.conns w1 !! Sqlite.next_handle w = None).
  { unfold w1, Sqlite.sqlite3_close.
    destruct (Sqlite.has_statements w old); cbn [snd Sqlite.conns];
      [exact Hnew|]. rewrite lookup_delete_ne by lia. exact Hnew. }
  (* closing the connection of a failed attempt *)
  assert (Hclose : forall x,
            Sqlite.conns
              (Sqlite.sqlite3_close
                 {| Sqlite.conns := <[Sqlite.next_handle w1 := x]>
                                      (Sqlite.conns w1);
                    Sqlite.stmts := Sqlite.stmts w1;
                    Sqlite.next_handle := S (Sqlite.next_handle w1) |}
                 (Sqlite.next_handle w1)).2
            = Sqlite.conns w1).
  { intros x. unfold Sqlite.sqlite3_close.
    rewrite has_statements_false
      by (cbn [Sqlite.stmts]; rewrite Hs1, Hn1; exact Hfree).
    cbn [snd Sqlite.conns]. rewrite delete_insert_eq. apply delete_id.
    rewrite Hn1. exact Hnew1. }
  destruct (files path) as [rc [x|]] eqn:Hf; cbn [fst snd];
    destruct (rc =? Sqlite.SQLITE_OK) eqn:Hrc; cbn [negb fst snd];
    try (apply Z.eqb_eq in Hrc; subst rc);
    try (apply Z.eqb_neq in Hrc).
  - (* a connection, success *)
    split; [cbn; rewrite Hn1; intros [= E]; lia|].
    split; [intros x' _; rewrite Hn1; reflexivity|].
    split; [intros Hne; congruence|].
    split.
    + intros Hnone. cbn [Sqlite.conns]. unfold w1, Sqlite.sqlite3_close.
      rewrite (has_statements_false w old Hnone).
      cbn [snd Sqlite.conns Sqlite.next_handle].
      split; [rewrite lookup_insert_ne by lia; apply lookup_delete_eq|].
      split; [intros x' [= <-]; reflexivity|intros Hne; congruence].
    + intros h s Hl Hs. cbn [Sqlite.conns]. unfold w1, Sqlite.sqlite3_close.
      rewrite (has_statements_true w old h s Hl Hs).
      cbn [snd Sqlite.conns Sqlite.next_handle].
      split; [rewrite lookup_insert_ne by lia; reflexivity|].
      split; [intros x' [= <-]; reflexivity|intros Hne; congruence].
  - (* a connection, failure *)
    split; [cbn; discriminate|].
    split; [intros x' [= -> _]; congruence|].
    split; [intros _; split; [apply Make_code|reflexivity]|].
    rewrite Hclose. split.
    + intros Hnone. unfold w1, Sqlite.sqlite3_close.
      rewrite (has_statements_false w old Hnone). cbn [snd Sqlite.conns].
      split; [apply lookup_delete_eq|].
      split; [intros x' [= -> _]; congruence|intros _; reflexivity].
    + intros h s Hl Hs. unfold w1, Sqlite.sqlite3_close.
      rewrite (has_statements_true w old h s Hl Hs). cbn [snd].
      split; [reflexivity|].
      split; [intros x' [= -> _]; congruence|intros _; reflexivity].
  - (* no connection, success code *)
    split; [cbn; discriminate|].
    split; [intros x' [=]|].
    split; [intros Hne; congruence|].
    split.
    + intros Hnone. unfold w1, Sqlite.sqlite3_close.
      rewrite (has_statements_false w old Hnone). cbn [snd Sqlite.conns].
      split; [apply lookup_delete_eq|].
      split; [intros x' [=]|intros Hne; congruence].
    + intros h s Hl Hs. unfold w1, Sqlite.sqlite3_close.
      rewrite (has_statements_true w old h s Hl Hs). cbn [snd].
      split; [reflexivity|].
      split; [intros x' [=]|intros Hne; congruence].
  - (* no connection, failure *)
    split; [cbn; discriminate|].
    split; [intros x' [=]|].
    split; [intros _; split; [apply Make_code|reflexivity]|].
    split.
    + intros Hnone. unfold w1, Sqlite.sqlite3_close.
      rewrite (has_statements_false w old Hnone). cbn [snd Sqlite.conns].
      split; [apply lookup_delete_eq|].
      split; [intros x' [=]|intros _; reflexivity].
    + intros h s Hl Hs. unfold w1, Sqlite.sqlite3_close.
      rewrite (has_statements_true w old h s Hl Hs). cbn [snd].
      split; [reflexivity|].
      split; [intros x' [=]|intros _; reflexivity].
Qed.

(** X23 on the open connection of [Examples].  With no statement live
    the old handle is gone after a second [Open]; with the compiled
    statement of [Examples] still live it stays in the engine. *)
Lemma sqlite_Open_reopens_witness :
  Sqlite3Db.Open Examples.every_file Examples.sqlite_db None
    Examples.sqlite_world
  = (Error.Make Error.kNullParam (Some "path is null"%string),
     Examples.sqlite_db, Examples.sqlite_world) /\
  Sqlite.conns
    (Sqlite3Db.Open Examples.every_file Examples.sqlite_db
       (Some ":memory:"%string) Examples.sqlite_world).2 !! 0%nat = None /\
  Sqlite.conns
    (Sqlite3Db.Open Examples.every_file Examples.sqlite_db
       (Some ":memory:"%string) Examples.sqlite_world1).2 !! 0%nat
  = Sqlite.conns Examples.sqlite_world1 !! 0%nat.
Proof.
  assert (Hfresh : (0 < Sqlite.next_handle Examples.sqlite_world)%nat)
    by (vm_compute; lia).
  assert (Hfree : forall h s,
            Sqlite.stmts Examples.sqlite_world !! h = Some s ->
            Sqlite.stmt_conn s <> Sqlite.next_handle Examples.sqlite_world)
    by (apply has_statements_none; vm_compute; reflexivity).
  assert (Hnone : forall h s,
            Sqlite.stmts Examples.sqlite_world !! h = Some s ->
            Sqlite.stmt_conn s <> 0%nat)
    by (apply has_statements_none; vm_compute; reflexivity).
  assert (Hfresh1 : (0 < Sqlite.next_handle Examples.sqlite_world1)%nat)
    by (vm_compute; lia).
  assert (Hfree1 : forall h s,
            Sqlite.stmts Examples.sqlite_world1 !! h = Some s ->
            Sqlite.stmt_conn s <> Sqlite.next_handle Examples.sqlite_world1)
    by (apply has_statements_none; vm_compute; reflexivity).
  destruct (sqlite_Open_reopens Examples.every_file Examples.sqlite_db 0%nat
              ":memory:" Examples.sqlite_world eq_refl Hfresh eq_refl Hfree)
    as (H1 & _ & _ & _ & H2 & _).
  destruct (sqlite_Open_reopens Examples.every_file Examples.sqlite_db 0%nat
              ":memory:" Examples.sqlite_world1 eq_refl Hfresh1 eq_refl
              Hfree1)
    as (_ & _ & _ & _ & _ & H3).
  destruct (H2 Hnone) as (H2' & _).
  destruct (H3 1%nat _ eq_refl eq_refl) as (H3' & _).
  exact (conj H1 (conj H2' H3')).
Defined.

(** X24: [MariaDb::Open] on an object that holds a connection.
    [Open(nullptr)] returns [kNullParam] and changes nothing.  With a
    DSN, the old connection is closed and the transaction flag cleared
    first, whatever comes of the new connection, and the host, port,
    user, password and database handed to the client library are those
    parsed from the DSN.  When the connection is made the object holds
    it; when it is refused, or no handle can be made, the error is
    [kError], the object is closed and only the old connection has left
    the engine. *)
Theorem maria_Open_reopens (network : MariaDb.Dsn -> Mysql.Connect)
    (this : MariaDb.t) (old : nat) (dsn : string) (w : Mysql.World) :
  MariaDb.conn_ this = Some old ->
  (old < Mysql.next_handle w)%nat ->
  MariaDb.Open network this None w
  = (Error.Make Error.kNullParam (Some "dsn is null"%string), this, w) /\
  Mysql.conns (MariaDb.Open network this (Some dsn) w).2 !! old = None /\
  MariaDb.InTransaction (MariaDb.Open network this (Some dsn) w).1.2 = false /\
  (forall x, network (MariaDb.Open_dsn dsn) = Mysql.Accepted x ->
     (MariaDb.Open network this (Some dsn) w).1
     = (Error.Ok,
        {| MariaDb.conn_ := Some (Mysql.next_handle w);
           MariaDb.in_transaction_ := false |}) /\
     Mysql.conns (MariaDb.Open network this (Some dsn) w).2
     = <[Mysql.next_handle w := x]> (delete old (Mysql.conns w))) /\
  ((forall x, network (MariaDb.Open_dsn dsn) <> Mysql.Accepted x) ->
     Error.code (MariaDb.Open network this (Some dsn) w).1.1 = Error.kError /\
     MariaDb.IsOpen (MariaDb.Open network this (Some dsn) w).1.2 = false /\
     Mysql.conns (MariaDb.Open network this (Some dsn) w).2
     = delete old (Mysql.conns w)).
Proof.
  intros Hold Hfresh. split; [reflexivity|].
  unfold MariaDb.Open, MariaDb.Close. rewrite Hold. unfold Mysql.mysql_close.
  cbn [Mysql.next_handle Mysql.conns].
  destruct (network (MariaDb.Open_dsn dsn)) as [|msg|x];
    cbn [fst snd Mysql.conns].
  - split; [apply lookup_delete_eq|]. split; [reflexivity|]. split.
    + intros x [=].
    + intros _. split; [apply Make_code|]. split; reflexivity.
  - split; [apply lookup_delete_eq|]. split; [reflexivity|]. split.
    + intros x [=].
    + intros _. split; [apply Make_code|]. split; reflexivity.
  - split.
    { rewrite lookup_insert_ne by lia. apply lookup_delete_eq. }
    split; [reflexivity|]. split.
    + intros x' [= <-]. split; reflexivity.
    + intros Hno. exfalso. apply (Hno x). reflexivity.
Qed.

(** X24 on the open connection of [Examples]. *)
Lemma maria_Open_reopens_witness :
  Mysql.conns
    (MariaDb.Open Examples.every_host Examples.maria_db
       (Some "localhost:3306:root::dbpp_test"%string)
       Examples.maria_world).2 !! 0%nat = None /\
  MariaDb.InTransaction
    (MariaDb.Open Examples.every_host Examples.maria_db
       (Some "localhost:3306:root::dbpp_test"%string)
       Examples.maria_world).1.2 = false.
Proof.
  assert (Hfresh : (0 < Mysql.next_handle Examples.maria_world)%nat)
    by (vm_compute; lia).
  destruct (maria_Open_reopens Examples.every_host Examples.maria_db 0%nat
              "localhost:3306:root::dbpp_test" Examples.maria_world
              eq_refl Hfresh)
    as (_ & H2 & H3 & _).
  exact (conj H2 H3).
Defined.

End Reopen.

(** ** Binding inside the range *)

Section MariaBind.
Import Cxx Mysql MariaStatement.

Lemma store_in_range {A : Type} (cells : list A) (idx : Z) (x : A) :
  0 <= idx < Z.of_nat (length cells) ->
  store (Some cells) idx x = Done (Some (<[Z.to_nat idx := x]> cells)).
Proof.
  intros Hi. unfold store.
  replace ((0 <=? idx) && (idx <? Z.of_nat (length cells))) with true;
    [reflexivity|].
  symmetry. apply andb_true_iff.
  split; [apply Z.leb_le|apply Z.ltb_lt]; lia.
Qed.

(** X25: on a [MariaStatement] as the constructor makes it (a live
    handle and four arrays of [num_params_] cells), every bind form at a
    position inside [1, num_params_] returns [Ok] and rewrites exactly
    the descriptor of that position: the numeric forms store the value
    in the cell of their storage array and point the descriptor at that
    cell, the text and blob forms point it at the caller's bytes, and
    [BindNull] sets the NULL type.  The other descriptors, the other
    cells and the parameter count stay as they are. *)
Theorem maria_Bind_in_range (s : t) (h : nat) (bs : list MYSQL_BIND)
    (xs ys : list Z) (ds : list double) (param : Z) (v : Z) (d : double)
    (text : string) (bytes : list Z) (len : Z) :
  stmt_ s = Some h ->
  binds_ s = Some bs -> int_storage_ s = Some xs ->
  int64_storage_ s = Some ys -> double_storage_ s = Some ds ->
  length bs = Z.to_nat (num_params_ s) ->
  length xs = Z.to_nat (num_params_ s) ->
  length ys = Z.to_nat (num_params_ s) ->
  length ds = Z.to_nat (num_params_ s) ->
  1 <= param <= num_params_ s -> num_params_ s < 2 ^ 31 ->
  Bind_int32 s param v
  = Done (Error.Ok,
          {| conn_ := conn_ s; stmt_ := stmt_ s;
             binds_ := Some (<[Z.to_nat (param - 1) :=
                                 {| buffer_type := MYSQL_TYPE_LONG;
                                    buffer := BufIntCell (param - 1);
                                    buffer_length := 0; is_null_value := 0;
                                    is_unsigned := 0 |}]> bs);
             int_storage_ := Some (<[Z.to_nat (param - 1) := v]> xs);
             int64_storage_ := Some ys; double_storage_ := Some ds;
             num_params_ := num_params_ s |}) /\
  Bind_int64 s param v
  = Done (Error.Ok,
          {| conn_ := conn_ s; stmt_ := stmt_ s;
             binds_ := Some (<[Z.to_nat (param - 1) :=
                                 {| buffer_type := MYSQL_TYPE_LONGLONG;
                                    buffer := BufInt64Cell (param - 1);
                                    buffer_length := 0; is_null_value := 0;
                                    is_unsigned := 0 |}]> bs);
             int_storage_ := Some xs;
             int64_storage_ := Some (<[Z.to_nat (param - 1) := v]> ys);
             double_storage_ := Some ds;
             num_params_ := num_params_ s |}) /\
  Bind_double s param d
  = Done (Error.Ok,
          {| conn_ := conn_ s; stmt_ := stmt_ s;
             binds_ := Some (<[Z.to_nat (param - 1) :=
                                 {| buffer_type := MYSQL_TYPE_DOUBLE;
                                    buffer := BufDoubleCell (param - 1);
                                    buffer_length := 0; is_null_value := 0;
                                    is_unsigned := 0 |}]> bs);
             int_storage_ := Some xs; int64_storage_ := Some ys;
             double_storage_ := Some (<[Z.to_nat (param - 1) := d]> ds);
             num_params_ := num_params_ s |}) /\
  Bind_text s param (Some text)
  = Done (Error.Ok,
          {| conn_ := conn_ s; stmt_ := stmt_ s;
             binds_ := Some (<[Z.to_nat (param - 1) :=
                                 {| buffer_type := MYSQL_TYPE_STRING;
                                    buffer := BufText text;
                                    buffer_length :=
                                      Z.of_nat (String.length text);
                                    is_null_value := 0;
                                    is_unsigned := 0 |}]> bs);
             int_storage_ := Some xs; int64_storage_ := Some ys;
             double_storage_ := Some ds;
             num_params_ := num_params_ s |}) /\
  Bind_blob s param (Some bytes) len
  = Done (Error.Ok,
          {| conn_ := conn_ s; stmt_ := stmt_ s;
             binds_ := Some (<[Z.to_nat (param - 1) :=
                                 {| buffer_type := MYSQL_TYPE_BLOB;
                                    buffer := BufBytes bytes;
                                    buffer_length := to_uint64 len;
                                    is_null_value := 0;
                                    is_unsigned := 0 |}]> bs);
             int_storage_ := Some xs; int64_storage_ := Some ys;
             double_storage_ := Some ds;
             num_params_ := num_params_ s |}) /\
  BindNull s param
  = Done (Error.Ok,
          {| conn_ := conn_ s; stmt_ := stmt_ s;
             binds_ := Some (<[Z.to_nat (param - 1) :=
                                 {| buffer_type := MYSQL_TYPE_NULL;
                                    buffer := BufNull;
                                    buffer_length := 0; is_null_value := 0;
                                    is_unsigned := 0 |}]> bs);
             int_storage_ := Some xs; int64_storage_ := Some ys;
             double_storage_ := Some ds;
             num_params_ := num_params_ s |}).
Proof.
  intros Hh Hbs Hxs Hys Hds Lbs Lxs Lys Lds Hparam Hn.
  assert (Hidx : to_int32 (param - 1) = param - 1).
  { unfold to_int32. rewrite Z.mod_small by lia. lia. }
  assert (Hvalid : ValidParam s (param - 1) = true).
  { unfold ValidParam. rewrite Hh, Hbs. apply andb_true_iff.
    split; [apply Z.leb_le|apply Z.ltb_lt]; lia. }
  assert (Hin : forall (A : Type) (l : list A),
            length l = Z.to_nat (num_params_ s) ->
            0 <= param - 1 < Z.of_nat (length l)) by (intros A l ->; lia).
  unfold Bind_int32, Bind_int64, Bind_double, Bind_text, Bind_blob, BindNull.
  rewrite Hidx, Hvalid. cbn [negb].
  unfold set_bind. rewrite Hbs.
  rewrite !store_in_range by (apply Hin; exact Lbs).
  unfold StoreInt32, StoreInt64, StoreDouble, with_binds.
  cbn [int_storage_ int64_storage_ double_storage_ binds_ conn_ stmt_
         num_params_].
  rewrite Hxs, Hys, Hds.
  rewrite !store_in_range by (apply Hin; assumption).
  unfold update_bind, set_bind.
  cbn [int_storage_ int64_storage_ double_storage_ binds_ conn_ stmt_
         num_params_].
  replace (param - 1 <? 0) with false by (symmetry; apply Z.ltb_ge; lia).
  rewrite list_lookup_insert_eq by lia.
  rewrite !store_in_range by (rewrite length_insert; apply Hin; exact Lbs).
  unfold with_binds.
  cbn [int_storage_ int64_storage_ double_storage_ binds_ conn_ stmt_
         num_params_ zero_bind buffer_length is_null_value is_unsigned].
  rewrite !list_insert_insert_eq.
  repeat split; reflexivity.
Qed.

(** X25 on the compiled statement of [Examples], which has two
    parameters. *)
Lemma maria_Bind_in_range_witness :
  Bind_int32 Examples.maria_stmt 2 7
  = Done (Error.Ok,
          {| conn_ := conn_ Examples.maria_stmt;
             stmt_ := stmt_ Examples.maria_stmt;
             binds_ := Some (<[Z.to_nat (2 - 1) :=
                                 {| buffer_type := MYSQL_TYPE_LONG;
                                    buffer := BufIntCell (2 - 1);
                                    buffer_length := 0; is_null_value := 0;
                                    is_unsigned := 0 |}]>
                               [zero_bind; zero_bind]);
             int_storage_ := Some (<[Z.to_nat (2 - 1) := 7]> [0; 0]);
             int64_storage_ := Some [0; 0]; double_storage_ := Some [0; 0];
             num_params_ := num_params_ Examples.maria_stmt |}).
Proof.
  assert (Hparam : 1 <= 2 <= num_params_ Examples.maria_stmt)
    by (vm_compute; split; discriminate).
  assert (Hn : num_params_ Examples.maria_stmt < 2 ^ 31)
    by (vm_compute; reflexivity).
  exact (proj1 (maria_Bind_in_range Examples.maria_stmt 1%nat
                  [zero_bind; zero_bind] [0; 0] [0; 0] [0; 0] 2 7 0
                  EmptyString [] 0
                  eq_refl eq_refl eq_refl eq_refl eq_refl
                  eq_refl eq_refl eq_refl eq_refl Hparam Hn)).
Defined.

End MariaBind.

Section SqliteBind.
Import Cxx Sqlite.

Lemma sqlite_bind_with_in_range this d h s out w param v call failed :
  Sqlite3Statement.db_ this = Some d ->
  Sqlite3Statement.stmt_ this = Some h ->
  stmts w !! h = Some s ->
  1 <= param <= prog_nvar (stmt_prog s) ->
  (forall w' h', call w' h' = sqlite3_bind w' h' param v) ->
  (Sqlite3Statement.bind_with this
     (Sqlite3Statement.ExecDml this out w).2 call failed).1 = Error.Ok /\
  exists s',
    stmts (Sqlite3Statement.bind_with this
             (Sqlite3Statement.ExecDml this out w).2 call failed).2 !! h
    = Some s' /\
    stmt_vars s' = <[Z.to_nat (param - 1) := v]> (stmt_vars s) /\
    stmt_state s' = Ready /\ stmt_prog s' = stmt_prog s.
Proof.
  intros Hd Hh Hs Hparam Hcall.
  destruct (sqlite_ExecDml_reusable this d h s out w Hd Hh Hs)
    as (s1 & Hs1 & Hst1 & Hp1 & Hv1).
  unfold Sqlite3Statement.bind_with. rewrite Hh, Hcall.
  unfold sqlite3_bind. rewrite Hs1, Hst1.
  rewrite bool_decide_eq_true_2 by reflexivity. cbn [negb].
  rewrite Hp1.
  replace ((param <? 1) || (prog_nvar (stmt_prog s) <? param)) with false
    by (symmetry; apply orb_false_iff; split; apply Z.ltb_ge; lia).
  change (negb (SQLITE_OK =? SQLITE_OK)) with false. cbv iota. cbn [fst snd].
  split; [reflexivity|]. rewrite stmts_put_stmt.
  eexists; split; [reflexivity|]. cbn. rewrite Hv1. auto.
Qed.

(** X26: a prepared statement of the embedded backend can be bound again
    right after [ExecDml], without [Reset]: [ExecDml] leaves the native
    statement rewound, so every bind form at a position inside
    [1, parameter count] returns [Ok] and replaces the binding of that
    position, keeping the others. *)
Theorem sqlite_Bind_after_ExecDml (this : Sqlite3Statement.t) (d h : nat)
    (s : Stmt) (out : option Error.t) (w : World) (param : Z)
    (v : Z) (x : double) (text : string) (bytes : list Z) (len : Z) :
  Sqlite3Statement.db_ this = Some d ->
  Sqlite3Statement.stmt_ this = Some h ->
  stmts w !! h = Some s ->
  1 <= param <= prog_nvar (stmt_prog s) ->
  ((Sqlite3Statement.Bind_int32 this
      (Sqlite3Statement.ExecDml this out w).2 param v).1 = Error.Ok /\
   stmt_vars <$>
     stmts (Sqlite3Statement.Bind_int32 this
              (Sqlite3Statement.ExecDml this out w).2 param v).2 !! h
   = Some (<[Z.to_nat (param - 1) := VInt v]> (stmt_vars s))) /\
  ((Sqlite3Statement.Bind_int64 this
      (Sqlite3Statement.ExecDml this out w).2 param v).1 = Error.Ok /\
   stmt_vars <$>
     stmts (Sqlite3Statement.Bind_int64 this
              (Sqlite3Statement.ExecDml this out w).2 param v).2 !! h
   = Some (<[Z.to_nat (param - 1) := VInt64 v]> (stmt_vars s))) /\
  ((Sqlite3Statement.Bind_double this
      (Sqlite3Statement.ExecDml this out w).2 param x).1 = Error.Ok /\
   stmt_vars <$>
     stmts (Sqlite3Statement.Bind_double this
              (Sqlite3Statement.ExecDml this out w).2 param x).2 !! h
   = Some (<[Z.to_nat (param - 1) := VDouble x]> (stmt_vars s))) /\
  ((Sqlite3Statement.Bind_text this
      (Sqlite3Statement.ExecDml this out w).2 param (Some text)).1
   = Error.Ok /\
   stmt_vars <$>
     stmts (Sqlite3Statement.Bind_text this
              (Sqlite3Statement.ExecDml this out w).2 param (Some text)).2
       !! h
   = Some (<[Z.to_nat (param - 1) := VText text]> (stmt_vars s))) /\
  ((Sqlite3Statement.Bind_blob this
      (Sqlite3Statement.ExecDml this out w).2 param (Some bytes) len).1
   = Error.Ok /\
   stmt_vars <$>
     stmts (Sqlite3Statement.Bind_blob this
              (Sqlite3Statement.ExecDml this out w).2 param (Some bytes)
              len).2 !! h
   = Some (<[Z.to_nat (param - 1) := VBlob (take (Z.to_nat len) bytes)]>
             (stmt_vars s))) /\
  ((Sqlite3Statement.BindNull this
      (Sqlite3Statement.ExecDml this out w).2 param).1 = Error.Ok /\
   stmt_vars <$>
     stmts (Sqlite3Statement.BindNull this
              (Sqlite3Statement.ExecDml this out w).2 param).2 !! h
   = Some (<[Z.to_nat (param - 1) := VNull]> (stmt_vars s))).
Proof.
  intros Hd Hh Hs Hparam.
  unfold Sqlite3Statement.Bind_int32, Sqlite3Statement.Bind_int64,
    Sqlite3Statement.Bind_double, Sqlite3Statement.Bind_text,
    Sqlite3Statement.Bind_blob, Sqlite3Statement.BindNull.
  repeat apply conj;
    match goal with
    | |- (Sqlite3Statement.bind_with _ _ ?call ?failed).1 = _ =>
        eapply (sqlite_bind_with_in_range this d h s out w param _ call failed
                  Hd Hh Hs Hparam); intros; reflexivity
    | |- _ <$> stmts (Sqlite3Statement.bind_with _ _ ?call ?failed).2 !! _
         = Some (<[_ := ?V]> _) =>
        destruct (sqlite_bind_with_in_range this d h s out w param V call
                    failed Hd Hh Hs Hparam ltac:(intros; reflexivity))
          as (_ & s' & Hs' & Hv' & _);
        rewrite Hs'; cbn [fmap option_fmap option_map]; rewrite Hv';
        reflexivity
    end.
Qed.

(** X26 on the compiled statement of [Examples], which has one
    parameter. *)
Lemma sqlite_Bind_after_ExecDml_witness :
  (Sqlite3Statement.Bind_int32 Examples.sqlite_stmt
     (Sqlite3Statement.ExecDml Examples.sqlite_stmt None
        Examples.sqlite_world1).2 1 7).1 = Error.Ok /\
  stmt_vars <$>
    stmts (Sqlite3Statement.Bind_int32 Examples.sqlite_stmt
             (Sqlite3Statement.ExecDml Examples.sqlite_stmt None
                Examples.sqlite_world1).2 1 7).2 !! 1%nat
  = Some (<[Z.to_nat (1 - 1) := VInt 7]> [VNull]).
Proof.
  assert (Hparam : 1 <= 1 <= prog_nvar Examples.select_program)
    by (vm_compute; split; discriminate).
  exact (proj1 (sqlite_Bind_after_ExecDml Examples.sqlite_stmt 0%nat 1%nat
                  (mkStmt 0%nat Examples.select_program [VNull] Ready
                     (prog_run Examples.select_program) None SQLITE_OK)
                  None Examples.sqlite_world1 1 7 0 EmptyString [] 0
                  eq_refl eq_refl eq_refl Hparam)).
Defined.

End SqliteBind.

(** ** Statements without a handle *)

Section InvalidStatement.
Import Cxx.

(** X27: a prepared statement that holds no native handle (default
    constructed, moved from, finalized, or a [Sqlite3Statement] after
    [ExecQuery]) refuses every operation and leaves the engine and
    itself untouched.  [ExecDml], [ExecQuery] and [Reset] report
    [kMisuse] "Statement not initialized" on both backends; the bind
    forms report the same on the embedded backend, but [kRange] "param
    out of range" on the client/server backend, whatever the
    position. *)
Theorem invalid_statement_refuses (s : Sqlite3Statement.t) (w : Sqlite.World)
    (m : MariaStatement.t) (mw : Mysql.World) (e : Error.t)
    (param v : Z) (x : double) (text : cstr) (blob : option (list Z))
    (len : Z) :
  Sqlite3Statement.Valid s = false -> MariaStatement.Valid m = false ->
  (Sqlite3Statement.ExecDml s (Some e) w
   = (-1, s,
      Some (Error.Set_ e Error.kMisuse
              (Some "Statement not initialized"%string)), w) /\
   Sqlite3Statement.ExecQuery s (Some e) w
   = (Sqlite3Query.default, s,
      Some (Error.Set_ e Error.kMisuse
              (Some "Statement not initialized"%string)), w) /\
   Sqlite3Statement.Reset s w
   = (Error.Make Error.kMisuse (Some "Statement not initialized"%string),
      w) /\
   Sqlite3Statement.Bind_int32 s w param v
   = (Error.Make Error.kMisuse (Some "Statement not initialized"%string),
      w) /\
   Sqlite3Statement.Bind_int64 s w param v
   = (Error.Make Error.kMisuse (Some "Statement not initialized"%string),
      w) /\
   Sqlite3Statement.Bind_double s w param x
   = (Error.Make Error.kMisuse (Some "Statement not initialized"%string),
      w) /\
   Sqlite3Statement.Bind_text s w param text
   = (Error.Make Error.kMisuse (Some "Statement not initialized"%string),
      w) /\
   Sqlite3Statement.Bind_blob s w param blob len
   = (Error.Make Error.kMisuse (Some "Statement not initialized"%string),
      w) /\
   Sqlite3Statement.BindNull s w param
   = (Error.Make Error.kMisuse (Some "Statement not initialized"%string),
      w)) /\
  (MariaStatement.ExecDml m (Some e) mw
   = (-1, m,
      Some (Error.Set_ e Error.kMisuse
              (Some "Statement not initialized"%string)), mw) /\
   MariaStatement.ExecQuery m (Some e) mw
   = (MariaQuery.default, m,
      Some (Error.Set_ e Error.kMisuse
              (Some "Statement not initialized"%string)), mw) /\
   MariaStatement.Reset m mw
   = (Error.Make Error.kMisuse (Some "Statement not initialized"%string),
      m, mw) /\
   MariaStatement.Bind_int32 m param v
   = MariaStatement.Done
       (Error.Make Error.kRange (Some "param out of range"%string), m) /\
   MariaStatement.Bind_int64 m param v
   = MariaStatement.Done
       (Error.Make Error.kRange (Some "param out of range"%string), m) /\
   MariaStatement.Bind_double m param x
   = MariaStatement.Done
       (Error.Make Error.kRange (Some "param out of range"%string), m) /\
   MariaStatement.Bind_text m param text
   = MariaStatement.Done
       (Error.Make Error.kRange (Some "param out of range"%string), m) /\
   MariaStatement.Bind_blob m param blob len
   = MariaStatement.Done
       (Error.Make Error.kRange (Some "param out of range"%string), m) /\
   MariaStatement.BindNull m param
   = MariaStatement.Done
       (Error.Make Error.kRange (Some "param out of range"%string), m)).
Proof.
  unfold Sqlite3Statement.Valid, MariaStatement.Valid.
  intros Hs Hm. split.
  - unfold Sqlite3Statement.ExecDml, Sqlite3Statement.ExecQuery,
      Sqlite3Statement.Reset, Sqlite3Statement.Bind_int32,
      Sqlite3Statement.Bind_int64, Sqlite3Statement.Bind_double,
      Sqlite3Statement.Bind_text, Sqlite3Statement.Bind_blob,
      Sqlite3Statement.BindNull, Sqlite3Statement.bind_with.
    destruct (Sqlite3Statement.stmt_ s); [discriminate|].
    destruct (Sqlite3Statement.db_ s); repeat split; reflexivity.
  - unfold MariaStatement.ExecDml, MariaStatement.ExecQuery,
      MariaStatement.Reset, MariaStatement.Bind_int32,
      MariaStatement.Bind_int64, MariaStatement.Bind_double,
      MariaStatement.Bind_text, MariaStatement.Bind_blob,
      MariaStatement.BindNull, MariaStatement.ValidParam,
      MariaStatement.out_of_range.
    destruct (MariaStatement.stmt_ m); [discriminate|].
    repeat split; reflexivity.
Qed.

(** X27 at the default-constructed statements. *)
Lemma invalid_statement_refuses_witness :
  Sqlite3Statement.Bind_int32 Sqlite3Statement.default Examples.sqlite_world
    1 7
  = (Error.Make Error.kMisuse (Some "Statement not initialized"%string),
     Examples.sqlite_world) /\
  MariaStatement.Bind_int32 MariaStatement.default 1 7
  = MariaStatement.Done
      (Error.Make Error.kRange (Some "param out of range"%string),
       MariaStatement.default).
Proof.
  destruct (invalid_statement_refuses Sqlite3Statement.default
              Examples.sqlite_world MariaStatement.default
              Examples.maria_world Error.default 1 7 0 None None 0
              eq_refl eq_refl)
    as ((_ & _ & _ & H1 & _) & (_ & _ & _ & H2 & _)).
  exact (conj H1 H2).
Defined.

End InvalidStatement.

(** ** Releasing a handle once *)

Section Release.
Import Cxx.

(** X28: [Finalize] (for the connections, [Close]) releases the native
    handle the object holds, leaves the object without a handle, and a
    second call changes nothing more: an explicit [Finalize] followed by
    the destructor releases only once.  One case apart:
    [Sqlite3Db::Close] releases its connection when no prepared statement
    of it is live; while one is, the engine refuses to close the
    connection and leaves everything as it is, and the object lets go of
    its handle all the same. *)
Theorem Finalize_releases_once :
  (forall (s : Sqlite3Statement.t) (w : Sqlite.World),
     Sqlite3Statement.Valid (Sqlite3Statement.Finalize s w).1 = false /\
     (forall h, Sqlite3Statement.stmt_ s = Some h ->
        Sqlite.stmts (Sqlite3Statement.Finalize s w).2 !! h = None) /\
     Sqlite3Statement.Finalize (Sqlite3Statement.Finalize s w).1
       (Sqlite3Statement.Finalize s w).2
     = Sqlite3Statement.Finalize s w) /\
  (forall (q : Sqlite3Query.t) (w : Sqlite.World),
     Sqlite3Query.Eof (Sqlite3Query.Finalize q w).1 = true /\
     Sqlite3Query.NumFields (Sqlite3Query.Finalize q w).1 = 0 /\
     (forall h, Sqlite3Query.stmt_ q = Some h ->
        Sqlite.stmts (Sqlite3Query.Finalize q w).2 !! h = None) /\
     Sqlite3Query.Finalize (Sqlite3Query.Finalize q w).1
       (Sqlite3Query.Finalize q w).2
     = Sqlite3Query.Finalize q w) /\
  (forall (rs : Sqlite3ResultSet.t),
     Sqlite3ResultSet.Finalize rs = Sqlite3ResultSet.default /\
     Sqlite3ResultSet.Eof (Sqlite3ResultSet.Finalize rs) = true) /\
  (forall (db : Sqlite3Db.t) (w : Sqlite.World),
     Sqlite3Db.IsOpen (Sqlite3Db.Close db w).1 = false /\
     (forall d, Sqlite3Db.db_ db = Some d ->
        (forall h s, Sqlite.stmts w !! h = Some s ->
                     Sqlite.stmt_conn s <> d) ->
        Sqlite.conns (Sqlite3Db.Close db w).2 !! d = None) /\
     (forall d h s, Sqlite3Db.db_ db = Some d ->
        Sqlite.stmts w !! h = Some s -> Sqlite.stmt_conn s = d ->
        (Sqlite3Db.Close db w).2 = w) /\
     Sqlite3Db.Close (Sqlite3Db.Close db w).1 (Sqlite3Db.Close db w).2
     = Sqlite3Db.Close db w) /\
  (forall (s : MariaStatement.t) (w : Mysql.World),
     MariaStatement.Valid (MariaStatement.Finalize s w).1 = false /\
     MariaStatement.num_params_ (MariaStatement.Finalize s w).1 = 0 /\
     (forall h, MariaStatement.stmt_ s = Some h ->
        Mysql.pstmts (MariaStatement.Finalize s w).2 !! h = None) /\
     MariaStatement.Finalize (MariaStatement.Finalize s w).1
       (MariaStatement.Finalize s w).2
     = MariaStatement.Finalize s w) /\
  (forall (q : MariaQuery.t) (w : Mysql.World),
     (MariaQuery.Finalize q w).1 = MariaQuery.default /\
     (forall h, MariaQuery.res_ q = Some h ->
        Mysql.results (MariaQuery.Finalize q w).2 !! h = None) /\
     MariaQuery.Finalize (MariaQuery.Finalize q w).1
       (MariaQuery.Finalize q w).2
     = MariaQuery.Finalize q w) /\
  (forall (rs : MariaResultSet.t) (w : Mysql.World),
     (MariaResultSet.Finalize rs w).1 = MariaResultSet.default /\
     (forall h, MariaResultSet.res_ rs = Some h ->
        Mysql.results (MariaResultSet.Finalize rs w).2 !! h = None) /\
     MariaResultSet.Finalize (MariaResultSet.Finalize rs w).1
       (MariaResultSet.Finalize rs w).2
     = MariaResultSet.Finalize rs w) /\
  (forall (db : MariaDb.t) (w : Mysql.World),
     MariaDb.IsOpen (MariaDb.Close db w).1 = false /\
     MariaDb.InTransaction (MariaDb.Close db w).1 = false /\
     (forall c, MariaDb.conn_ db = Some c ->
        Mysql.conns (MariaDb.Close db w).2 !! c = None) /\
     MariaDb.Close (MariaDb.Close db w).1 (MariaDb.Close db w).2
     = MariaDb.Close db w).
Proof.
  repeat apply conj.
  - intros [db [h|]] w; cbn; repeat split; try discriminate.
    intros h' [= <-]. apply lookup_delete_eq.
  - intros [db [h|] eof nf] w; cbn; repeat split; try discriminate.
    intros h' [= <-]. apply lookup_delete_eq.
  - intros rs. split; reflexivity.
  - intros [[d|]] w; unfold Sqlite3Db.Close;
      cbn [Sqlite3Db.db_ Sqlite3Db.IsOpen fst snd];
      repeat split; try discriminate.
    + intros d' [= <-] Hnone. unfold Sqlite.sqlite3_close.
      rewrite (has_statements_false w d Hnone). cbn [snd Sqlite.conns].
      apply lookup_delete_eq.
    + intros d' h s [= <-] Hl Hs. unfold Sqlite.sqlite3_close.
      rewrite (has_statements_true w d h s Hl Hs). reflexivity.
  - intros [c [h|] bs xs ys ds n] w; cbn; repeat split; try discriminate.
    intros h' [= <-]. apply lookup_delete_eq.
  - intros [[h|] row ls fs eof nf nr] w; cbn; repeat split; try discriminate.
    intros h' [= <-]. apply lookup_delete_eq.
  - intros [[h|] row fs nr nc cur] w; cbn; repeat split; try discriminate.
    intros h' [= <-]. apply lookup_delete_eq.
  - intros [[c|] tx] w; cbn; repeat split; try discriminate.
    intros c' [= <-]. apply lookup_delete_eq.
Qed.

End Release.

(** ** ExecScalar and TableExists leave nothing behind *)

Section ScalarRelease.
Import Cxx.

Lemma sqlite_step_stmts w h s :
  Sqlite.stmts w !! h = Some s ->
  exists s', Sqlite.stmts (Sqlite.sqlite3_step w h).2
             = <[h := s']> (Sqlite.stmts w).
Proof.
  intros Hs. unfold Sqlite.sqlite3_step. rewrite Hs.
  destruct (match Sqlite.stmt_state s with
            | Sqlite.Halted => Sqlite.prog_run (Sqlite.stmt_prog s)
            | _ => Sqlite.stmt_todo s
            end) as [|[cells|f msg] rest]; cbn [snd].
  - rewrite stmts_set_changes. eexists; reflexivity.
  - eexists; reflexivity.
  - rewrite stmts_set_errmsg. eexists; reflexivity.
Qed.

Lemma sqlite_ExecScalar_stmts this sql null_value out w :
  Sqlite.stmts w !! Sqlite.next_handle w = None ->
  Sqlite.stmts (Sqlite3Db.ExecScalar this sql null_value out w).2
  = Sqlite.stmts w.
Proof.
  intros Hfresh.
  assert (Hq : forall q o w1,
    Sqlite3Db.ExecQuery this sql out w = (q, o, w1) ->
    Sqlite.stmts (Sqlite3Query.Finalize q w1).2 = Sqlite.stmts w).
  { intros q o w1. unfold Sqlite3Db.ExecQuery.
    destruct (Sqlite3Db.db_ this) as [d|]; [|intros [= <- _ <-]; reflexivity].
    destruct sql as [text|]; [|intros [= <- _ <-]; reflexivity].
    unfold Sqlite3Db.Compile, Sqlite.sqlite3_prepare_v2.
    destruct (Sqlite.conns w !! d) as [c|]; [|intros [= <- _ <-]; reflexivity].
    destruct (Sqlite.conn_prepare c text) as [p|msg].
    - change (negb (Sqlite.SQLITE_OK =? Sqlite.SQLITE_OK)) with false.
      cbv iota beta.
      match goal with
      | |- context [Sqlite.sqlite3_step ?W ?H] =>
          destruct (sqlite_step_stmts W H _ (lookup_insert_eq _ _ _))
            as [s' Hstep];
          destruct (Sqlite.sqlite3_step W H) as [rc w2]
      end.
      cbn [snd Sqlite.stmts] in Hstep. rewrite insert_insert_eq in Hstep.
      assert (Hdel : delete (Sqlite.next_handle w) (Sqlite.stmts w2)
                     = Sqlite.stmts w).
      { rewrite Hstep. apply delete_insert_id. exact Hfresh. }
      destruct (rc =? Sqlite.SQLITE_DONE);
        [intros [= <- _ <-]; exact Hdel|].
      destruct (rc =? Sqlite.SQLITE_ROW);
        [intros [= <- _ <-]; exact Hdel|].
      intros [= <- _ <-]. exact Hdel.
    - change (negb (Sqlite.SQLITE_ERROR =? Sqlite.SQLITE_OK)) with true.
      cbv iota beta. intros [= <- _ <-]. cbn. apply stmts_set_errmsg. }
  unfold Sqlite3Db.ExecScalar.
  destruct (Sqlite3Db.ExecQuery this sql out w) as [[q o] w1] eqn:E.
  specialize (Hq q o w1 eq_refl).
  destruct (_ || _); exact Hq.
Qed.

Lemma maria_ExecScalar_results this sql null_value out w :
  Mysql.results w !! Mysql.next_handle w = None ->
  Mysql.results (MariaDb.ExecScalar this sql null_value out w).2
  = Mysql.results w.
Proof.
  intros Hfresh.
  assert (Hq : forall q o w1,
    MariaDb.ExecQuery this sql out w = (q, o, w1) ->
    Mysql.results (MariaQuery.Finalize q w1).2 = Mysql.results w).
  { intros q o w1. unfold MariaDb.ExecQuery.
    destruct (MariaDb.conn_ this) as [c|]; [|intros [= <- _ <-]; reflexivity].
    destruct sql as [text|]; [|intros [= <- _ <-]; reflexivity].
    unfold Mysql.mysql_query.
    destruct (Mysql.conns w !! c) as [x|] eqn:Hx;
      [|intros [= <- _ <-]; reflexivity].
    destruct (Mysql.conn_answer x text) as [msg|n|fields rows|n msg].
    - intros [= <- _ <-]. reflexivity.
    - change (negb (0 =? 0)) with false. cbv iota.
      unfold Mysql.mysql_store_result, Mysql.put_conn. cbn [Mysql.conns].
      rewrite lookup_insert_eq. cbn [Mysql.conn_pending].
      intros [= <- _ <-]. reflexivity.
    - change (negb (0 =? 0)) with false. cbv iota.
      unfold Mysql.mysql_store_result, Mysql.put_conn. cbn [Mysql.conns].
      rewrite lookup_insert_eq. cbn [Mysql.conn_pending Mysql.next_handle].
      unfold MariaQuery.ctor.
      destruct (negb _).
      + unfold Mysql.mysql_fetch_row. cbn [Mysql.results].
        rewrite lookup_insert_eq. cbn [Mysql.res_rows Mysql.res_next].
        destruct (rows !! 0%nat) as [row|];
          intros [= <- _ <-]; cbn; rewrite insert_insert_eq;
          apply delete_insert_id; exact Hfresh.
      + intros [= <- _ <-]. cbn. apply delete_insert_id. exact Hfresh.
    - change (negb (0 =? 0)) with false. cbv iota.
      unfold Mysql.mysql_store_result, Mysql.put_conn. cbn [Mysql.conns].
      rewrite lookup_insert_eq. cbn [Mysql.conn_pending].
      intros [= <- _ <-]. reflexivity. }
  unfold MariaDb.ExecScalar.
  destruct (MariaDb.ExecQuery this sql out w) as [[q o] w1] eqn:E.
  specialize (Hq q o w1 eq_refl).
  destruct (_ || _); exact Hq.
Qed.

(** X29: [ExecScalar] and [TableExists] release the cursor they work
    with before they return, whatever the query does: afterwards the
    engine holds the prepared statements (embedded backend) or the
    stored results (client/server backend) it held before, and no
    other. *)
Theorem ExecScalar_leaves_nothing (sdb : Sqlite3Db.t) (sw : Sqlite.World)
    (mdb : MariaDb.t) (mw : Mysql.World) (sql : cstr) (null_value : Z)
    (out : option Error.t) :
  Sqlite.stmts sw !! Sqlite.next_handle sw = None ->
  Mysql.results mw !! Mysql.next_handle mw = None ->
  Sqlite.stmts (Sqlite3Db.ExecScalar sdb sql null_value out sw).2
  = Sqlite.stmts sw /\
  Sqlite.stmts (Sqlite3Db.TableExists sdb sql sw).2 = Sqlite.stmts sw /\
  Mysql.results (MariaDb.ExecScalar mdb sql null_value out mw).2
  = Mysql.results mw /\
  Mysql.results (MariaDb.TableExists mdb sql mw).2 = Mysql.results mw.
Proof.
  intros Hs Hm. repeat apply conj.
  - apply sqlite_ExecScalar_stmts. exact Hs.
  - unfold Sqlite3Db.TableExists.
    destruct (Sqlite3Db.db_ sdb) as [d|]; [|reflexivity].
    destruct sql as [name|]; [|reflexivity].
    pose proof (sqlite_ExecScalar_stmts sdb
                  (Some (Sqlite3Db.TableExists_sql name)) 0 None sw Hs) as H.
    destruct (Sqlite3Db.ExecScalar sdb _ 0 None sw) as [[n o] w1].
    exact H.
  - apply maria_ExecScalar_results. exact Hm.
  - unfold MariaDb.TableExists.
    destruct (MariaDb.conn_ mdb) as [c|]; [|reflexivity].
    destruct sql as [name|]; [|reflexivity].
    pose proof (maria_ExecScalar_results mdb
                  (Some (MariaDb.TableExists_sql name)) 0 None mw Hm) as H.
    destruct (MariaDb.ExecScalar mdb _ 0 None mw) as [[n o] w1].
    exact H.
Qed.

(** X29 on the two connections of [Examples]. *)
Lemma ExecScalar_leaves_nothing_witness :
  Sqlite.stmts
    (Sqlite3Db.TableExists Examples.sqlite_db (Some "emp"%string)
       Examples.sqlite_world).2
  = Sqlite.stmts Examples.sqlite_world /\
  Mysql.results
    (MariaDb.TableExists Examples.maria_db (Some "emp"%string)
       Examples.maria_world).2
  = Mysql.results Examples.maria_world.
Proof.
  destruct (ExecScalar_leaves_nothing Examples.sqlite_db
              Examples.sqlite_world Examples.maria_db Examples.maria_world
              (Some "emp"%string) 0 None eq_refl eq_refl)
    as (_ & H2 & _ & H4).
  exact (conj H2 H4).
Defined.

End ScalarRelease.
